(** * document-bot: a shallow embedding of [bot.py] and its workflow properties

    The bot receives an image or a PDF, sends it to a remote document
    processor, keeps the extracted text in the per-user dictionary
    [context.user_data] under a short random key, and answers later button
    presses by rendering that text (or a summary of the source file) as a
    message, a TXT file or a DOCX file.

    Python strings are sequences of Unicode code points; they are modelled as
    lists of code points ([N]).  The dictionary [context.user_data] is a
    [gmap] from strings to strings.  Handlers are state transformers over a
    [World] (dictionary, local files, outgoing messages, remote requests,
    log) that either return or raise. *)

From Stdlib Require Import ZArith NArith String Ascii.
From stdpp Require Import gmap list.

Local Open Scope Z_scope.

(** ** Python strings *)

Module PyStr.

(** A string is the list of its code points. *)
Abbreviation str := (list N).

(** Literals are written as in the source file; the bytes of the literal are
    decoded from UTF-8 into code points. *)
Fixpoint utf8_decode (bs : list N) : str :=
  match bs with
  | [] => []
  | b0 :: r0 =>
      if (b0 <? 128)%N then b0 :: utf8_decode r0
      else if (b0 <? 224)%N then
        match r0 with
        | b1 :: r1 => ((b0 - 192) * 64 + (b1 - 128))%N :: utf8_decode r1
        | _ => []
        end
      else if (b0 <? 240)%N then
        match r0 with
        | b1 :: b2 :: r2 =>
            ((b0 - 224) * 4096 + (b1 - 128) * 64 + (b2 - 128))%N :: utf8_decode r2
        | _ => []
        end
      else
        match r0 with
        | b1 :: b2 :: b3 :: r3 =>
            ((b0 - 240) * 262144 + (b1 - 128) * 4096 + (b2 - 128) * 64 + (b3 - 128))%N
              :: utf8_decode r3
        | _ => []
        end
  end.

Definition py (s : string) : str :=
  utf8_decode (map N_of_ascii (list_ascii_of_string s)).

(** The line feed. *)
Definition nl : str := [10%N].

(** [len(s)] *)
Definition len (s : str) : Z := Z.of_nat (length s).

(** Truth value of a string: [if s:] holds for the non-empty strings. *)
Definition truthy (s : str) : bool :=
  match s with [] => false | _ :: _ => true end.

(** [a == b] on strings. *)
Definition str_eqb (a b : str) : bool := bool_decide (a = b).

(** [s.startswith(p)] *)
Fixpoint startswith (s p : str) {struct p} : bool :=
  match p, s with
  | [], _ => true
  | c :: p', d :: s' => (c =? d)%N && startswith s' p'
  | _ :: _, [] => false
  end.

(** [s.endswith(p)] *)
Definition endswith (s p : str) : bool := startswith (rev s) (rev p).

(** [s.endswith((p1, ..., pn))]: some element of the tuple is a suffix. *)
Definition endswith_any (s : str) (ps : list str) : bool :=
  existsb (endswith s) ps.

(** [sub in s]: [sub] occurs in [s] as a contiguous substring. *)
Fixpoint py_in (sub s : str) : bool :=
  startswith s sub ||
  match s with
  | [] => false
  | _ :: s' => py_in sub s'
  end.

(** [str.isspace] for one code point: the characters Python's [strip()]
    removes (Unicode white space). *)
Definition isspace (c : N) : bool :=
  ((9 <=? c) && (c <=? 13) || (28 <=? c) && (c <=? 32)
   || (c =? 133) || (c =? 160) || (c =? 5760)
   || (8192 <=? c) && (c <=? 8202)
   || (c =? 8232) || (c =? 8233) || (c =? 8239) || (c =? 8287)
   || (c =? 12288))%N.

Fixpoint lstrip (s : str) : str :=
  match s with
  | c :: s' => if isspace c then lstrip s' else s
  | [] => []
  end.

Definition rstrip (s : str) : str := rev (lstrip (rev s)).

(** [s.strip()] *)
Definition strip (s : str) : str := rstrip (lstrip s).

(** [s.split(sep)] for a one-character separator: the pieces between the
    occurrences of [sep]; always at least one piece. *)
Fixpoint split (sep : N) (s : str) : list str :=
  match s with
  | [] => [[]]
  | c :: s' =>
      if (c =? sep)%N then [] :: split sep s'
      else match split sep s' with
           | piece :: rest => (c :: piece) :: rest
           | [] => [[c]]
           end
  end.

(** Slice bounds as Python normalises them: a negative index counts from the
    end, and the result is clamped to [0, len]. *)
Definition clamp (n i : Z) : Z :=
  if i <? 0 then Z.max (i + n) 0 else Z.min i n.

(** [s[i:j]] *)
Definition slice (s : str) (i j : Z) : str :=
  let lo := clamp (len s) i in
  let hi := clamp (len s) j in
  take (Z.to_nat (hi - lo)) (drop (Z.to_nat lo) s).

(** [s[:j]] *)
Definition slice_to (s : str) (j : Z) : str := slice s 0 j.

End PyStr.
Import PyStr.

(** ** Session keys: [str(uuid.uuid4())[:8]] *)

Module Uuid.

(** [uuid.uuid4()] draws 16 random bytes and then fixes the variant and the
    version bits of the 128-bit integer. *)
Definition uuid4 (random : N) : N :=
  let i := (random mod 2 ^ 128)%N in
  let i := N.ldiff i (N.shiftl 49152 48) in
  let i := N.lor i (N.shiftl 32768 48) in
  let i := N.ldiff i (N.shiftl 61440 64) in
  N.lor i (N.shiftl 4 76).

Definition hex_digit (d : N) : N :=
  if (d <? 10)%N then (48 + d)%N else (87 + d)%N.

(** The hexadecimal digit of weight [16^k]. *)
Definition hex_at (u : N) (k : N) : N := hex_digit ((u / 16 ^ k) mod 16)%N.

Definition hex_run (u : N) (hi n : nat) : str :=
  map (fun j => hex_at u (N.of_nat (hi - j))) (seq 0 n).

(** [str(u)]: 32 lower-case hexadecimal digits grouped 8-4-4-4-12. *)
Definition uuid_str (u : N) : str :=
  hex_run u 31 8 ++ py "-" ++ hex_run u 23 4 ++ py "-" ++ hex_run u 19 4
    ++ py "-" ++ hex_run u 15 4 ++ py "-" ++ hex_run u 11 12.

Definition is_hex (c : N) : bool :=
  ((48 <=? c) && (c <=? 57) || (97 <=? c) && (c <=? 102))%N.

(** The shape of a key minted by [send_output_options]. *)
Definition is_session_key (k : str) : bool :=
  (length k =? 8)%nat && forallb is_hex k.

End Uuid.
Import Uuid.

(** ** The world the handlers act on *)

(** Exceptions that the modelled operations raise.  All of them are
    instances of Python's [Exception]. *)
Inductive exn :=
  | ValueError (msg : str)
  | IndexError (msg : str)
  | AttributeError (msg : str)
  | OSError (msg : str)
  | TelegramError (msg : str)
  | GoogleAPIError (msg : str).

(** [f"{e}"] *)
Definition exn_str (e : exn) : str :=
  match e with
  | ValueError m | IndexError m | AttributeError m
  | OSError m | TelegramError m | GoogleAPIError m => m
  end.

Inductive outcome (A : Type) :=
  | Ret (a : A)
  | Raise (e : exn).
Arguments Ret {A} a.
Arguments Raise {A} e.

(** What a local file holds: bytes fetched from the chat, a text written with
    [encoding="utf-8"] (kept as the text it encodes), or a Word document
    given by its paragraphs. *)
Inductive content :=
  | Blob (bytes : list N)
  | Utf8 (s : str)
  | Docx (paragraphs : list str).

(** [InlineKeyboardButton(label, callback_data=...)] *)
Record button := InlineKeyboardButton { label : str; callback_data : str }.

(** Calls made on the chat: [reply_text], [reply_text] with a
    [reply_markup], [reply_document] and [query.answer]. *)
Inductive outgoing :=
  | Text (body : str)
  | Menu (body : str) (keyboard : list (list button))
  | DocumentFile (filename : str) (body : content) (caption : str)
  | Answer.

(** The result of the remote processor. *)
Record entity := { type_ : str; mention_text : str }.
Record ai_document := { text : str; entities : list entity }.

(** [documentai.ProcessRequest] together with the endpoint of its client. *)
Record request := {
  api_endpoint : str;
  processor_name : str;
  raw_content : content;
  mime_type : str
}.

(** Values read from the process environment at start-up. *)
Record Config := {
  PROJECT_ID : str;
  LOCATION : str;
  PROCESSOR_ID : str;
  SUMMARIZER_PROCESSOR_ID : str
}.

(** What the outside does during one event: the random bytes behind
    [uuid.uuid4()], the file the chat hands out for a file id, whether a path
    can be opened for writing, whether the remote client can be built, the
    remote processor, whether the Word library refuses a text, and whether the
    chat accepts a call. *)
Record Env := {
  urandom16 : N;
  tg_get_file : str -> outcome content;
  fs_write_error : str -> option exn;
  docai_client_error : option exn;
  docai_process : request -> outcome ai_document;
  docx_error : str -> option exn;
  tg_send_error : outgoing -> option exn
}.

Record World := {
  user_data : gmap str str;
  files : gmap str content;
  outbox : list outgoing;
  remote_calls : list request;
  log : list str
}.

Definition with_user_data (f : gmap str str -> gmap str str) (w : World) : World :=
  {| user_data := f (user_data w); files := files w; outbox := outbox w;
     remote_calls := remote_calls w; log := log w |}.

Definition with_files (f : gmap str content -> gmap str content) (w : World) : World :=
  {| user_data := user_data w; files := f (files w); outbox := outbox w;
     remote_calls := remote_calls w; log := log w |}.

Definition with_outbox (f : list outgoing -> list outgoing) (w : World) : World :=
  {| user_data := user_data w; files := files w; outbox := f (outbox w);
     remote_calls := remote_calls w; log := log w |}.

Definition with_remote_calls (f : list request -> list request) (w : World) : World :=
  {| user_data := user_data w; files := files w; outbox := outbox w;
     remote_calls := f (remote_calls w); log := log w |}.

Definition with_log (f : list str -> list str) (w : World) : World :=
  {| user_data := user_data w; files := files w; outbox := outbox w;
     remote_calls := remote_calls w; log := f (log w) |}.

(** ** Computations that may raise *)

Definition M (A : Type) : Type := World -> outcome A * World.

Definition ret {A} (a : A) : M A := fun w => (Ret a, w).

Definition raise {A} (e : exn) : M A := fun w => (Raise e, w).

Definition bind {A B} (m : M A) (k : A -> M B) : M B :=
  fun w =>
    match m w with
    | (Ret a, w') => k a w'
    | (Raise e, w') => (Raise e, w')
    end.

(** [try: m except Exception as e: h e] *)
Definition try_except {A} (m : M A) (h : exn -> M A) : M A :=
  fun w =>
    match m w with
    | (Ret a, w') => (Ret a, w')
    | (Raise e, w') => h e w'
    end.

Definition lift {A} (o : outcome A) : M A := fun w => (o, w).

Declare Scope py_scope.
Delimit Scope py_scope with py.
Notation "'let!' x ':=' m 'in' k" := (bind m (fun x => k))
  (at level 10, x name, m at level 100, k at level 200) : py_scope.
Notation "'let!' ' p ':=' m 'in' k" := (bind m (fun x => match x with p => k end))
  (at level 10, p strict pattern, m at level 100, k at level 200) : py_scope.
Notation "m '>>' k" := (bind m (fun _ => k))
  (at level 110, right associativity) : py_scope.
Local Open Scope py_scope.

(** A [for] loop over a list. *)
Fixpoint for_each {A} (l : list A) (body : A -> M unit) : M unit :=
  match l with
  | [] => ret tt
  | x :: l' => body x >> for_each l' body
  end.

(** [range(start, stop, step)] *)
Definition py_range (start stop step : Z) : outcome (list Z) :=
  if step =? 0 then Raise (ValueError (py "range() arg 3 must not be zero"))
  else
    let n :=
      if 0 <? step
      then (if start <? stop then (stop - start - 1) / step + 1 else 0)
      else (if stop <? start then (start - stop - 1) / (- step) + 1 else 0) in
    Ret (map (fun k => start + Z.of_nat k * step) (seq 0 (Z.to_nat n))).

(** ** Operations on the world *)

Section Operations.

Context (cfg : Config) (E : Env).

(** A call on the chat either raises or is recorded in the outbox. *)
Definition send (o : outgoing) : M unit :=
  fun w =>
    match tg_send_error E o with
    | Some e => (Raise e, w)
    | None => (Ret tt, with_outbox (fun b => b ++ [o]) w)
    end.

Definition reply_text (body : str) : M unit := send (Text body).

Definition reply_markup (body : str) (keyboard : list (list button)) : M unit :=
  send (Menu body keyboard).

Definition reply_document (filename : str) (body : content) (caption : str) : M unit :=
  send (DocumentFile filename body caption).

(** [logging.error(msg)] *)
Definition logging_error (msg : str) : M unit :=
  fun w => (Ret tt, with_log (fun l => l ++ [msg]) w).

(** [context.user_data[key] = value] *)
Definition user_data_set (key value : str) : M unit :=
  fun w => (Ret tt, with_user_data (fun d => <[key := value]> d) w).

(** [context.user_data.get(key)] *)
Definition user_data_get (key : str) : M (option str) :=
  fun w => (Ret (user_data w !! key), w).

(** [open(path, "w")] followed by a write of the whole content. *)
Definition write_file (path : str) (c : content) : M unit :=
  fun w =>
    match fs_write_error E path with
    | Some e => (Raise e, w)
    | None => (Ret tt, with_files (fun fs => <[path := c]> fs) w)
    end.

(** [open(path, "rb").read()]; the text of the error shows the path between
    quotes, as [repr] does for a path that needs no escape. *)
Definition read_file (path : str) : M content :=
  fun w =>
    match files w !! path with
    | Some c => (Ret c, w)
    | None =>
        (Raise (OSError (py "[Errno 2] No such file or directory: '" ++ path ++ py "'")), w)
    end.

(** [doc = Document(); doc.add_paragraph(text)]: a document with one
    paragraph that holds the text as given, unless the library refuses the
    text.  (Inside the paragraph the library keeps line feeds and carriage
    returns as line breaks.) *)
Definition add_paragraph (text : str) : M content :=
  fun w =>
    match docx_error E text with
    | Some e => (Raise e, w)
    | None => (Ret (Docx [text]), w)
    end.

(** [documentai.DocumentProcessorServiceClient(client_options=...)] *)
Definition make_client : M unit :=
  fun w =>
    match docai_client_error E with
    | Some e => (Raise e, w)
    | None => (Ret tt, w)
    end.

(** [client.process_document(request=request).document]; the request is
    recorded when it is issued. *)
Definition client_process_document (rq : request) : M ai_document :=
  fun w => (docai_process E rq, with_remote_calls (fun l => l ++ [rq]) w).

End Operations.

(** ** The bot *)

Module Bot.

Section Bot.

Context (cfg : Config) (E : Env).

(** [f"{LOCATION}-documentai.googleapis.com"] *)
Definition endpoint : str := LOCATION cfg ++ py "-documentai.googleapis.com".

(** [f"projects/{PROJECT_ID}/locations/{LOCATION}/processors/{id}"] *)
Definition processor_path (id : str) : str :=
  py "projects/" ++ PROJECT_ID cfg ++ py "/locations/" ++ LOCATION cfg
    ++ py "/processors/" ++ id.

(** The MIME type chosen from the suffix of the path, [None] when the suffix
    is not recognised. *)
Definition detect_mime (file_path : str) : option str :=
  if endswith_any file_path [py ".jpg"; py ".jpeg"; py ".png"] then Some (py "image/jpeg")
  else if endswith file_path (py ".pdf") then Some (py "application/pdf")
  else None.

Definition process_document (file_path : str) : M str :=
  make_client E >>
  let processor_path := processor_path (PROCESSOR_ID cfg) in
  let! image_content := read_file file_path in
  match detect_mime file_path with
  | None => ret (py "❌ Unsupported file format.")
  | Some mime =>
      let rq := {| api_endpoint := endpoint; processor_name := processor_path;
                   raw_content := image_content; mime_type := mime |} in
      let! document := client_process_document E rq in
      let extracted_text := text document in
      ret (if truthy (strip extracted_text) then extracted_text
           else py "❌ No text recognized.")
  end.

(** The loop of [summarize_document] over [document.entities], started from
    the empty string. *)
Definition collect_summary (ents : list entity) : str :=
  fold_left
    (fun summary e =>
       if str_eqb (type_ e) (py "summary")
       then summary ++ (mention_text e ++ nl)
       else summary)
    ents [].

(** The summary text held by the variable [summary] just before the
    [return] of [summarize_document]. *)
Definition summary_text (document : ai_document) : str :=
  let summary := collect_summary (entities document) in
  if negb (truthy summary) then text document else summary.

Definition summarize_document (file_path : str) : M str :=
  make_client E >>
  let processor_path := processor_path (SUMMARIZER_PROCESSOR_ID cfg) in
  let! document_content := read_file file_path in
  match detect_mime file_path with
  | None => ret (py "❌ Unsupported file format.")
  | Some mime =>
      let rq := {| api_endpoint := endpoint; processor_name := processor_path;
                   raw_content := document_content; mime_type := mime |} in
      let! document := client_process_document E rq in
      let summary := summary_text document in
      ret (if truthy (strip summary) then summary
           else py "❌ No summary could be generated.")
  end.

Definition save_as_docx (text : str) (file_name : str) : M str :=
  let doc_path := py "outputs/" ++ file_name in
  let! doc := add_paragraph E text in
  write_file E doc_path doc >>
  ret doc_path.

(** The slices [text[i : i + chunk_size]] for [i] in
    [range(0, len(text), chunk_size)], in order. *)
Definition chunks_at (text : str) (chunk_size : Z) (starts : list Z) : list str :=
  map (fun i => slice text i (i + chunk_size)) starts.

Definition send_text_chunks (text : str) (chunk_size : Z) : M unit :=
  let! starts := lift (py_range 0 (len text) chunk_size) in
  for_each starts (fun i => reply_text E (slice text i (i + chunk_size))).

(** The default of the parameter [chunk_size]. *)
Definition default_chunk_size : Z := 4096.

(** [str(uuid.uuid4())[:8]] *)
Definition new_text_key : str := slice_to (uuid_str (uuid4 (urandom16 E))) 8.

Definition output_keyboard (text_key : str) : list (list button) :=
  [ [ InlineKeyboardButton (py "📩 Message") (py "output_message|" ++ text_key);
      InlineKeyboardButton (py "📄 TXT File") (py "output_txt|" ++ text_key) ];
    [ InlineKeyboardButton (py "📄+📩 TXT & Message") (py "output_both|" ++ text_key);
      InlineKeyboardButton (py "📜 Word File (DOCX)") (py "output_docx|" ++ text_key) ];
    [ InlineKeyboardButton (py "📝 Summarize Document") (py "output_summarize|" ++ text_key) ] ].

Definition send_output_options (text : str) : M unit :=
  let text_key := new_text_key in
  user_data_set text_key text >>
  let! current := user_data_get (py "current_file_path") in
  match current with
  | Some path => user_data_set (py "file_path_" ++ text_key) path
  | None => ret tt
  end >>
  reply_markup E (py "📝 Choose an output format:") (output_keyboard text_key).

(** An incoming message that carries a document or a photo. *)
Record tg_document := { doc_file_id : str; doc_file_name : option str }.
Record photo_size := { photo_file_id : str }.
Record message := { document : option tg_document; photo : list photo_size }.

Inductive tg_file :=
  | FromDocument (d : tg_document)
  | FromPhoto (p : photo_size).

Definition file_id (f : tg_file) : str :=
  match f with
  | FromDocument d => doc_file_id d
  | FromPhoto p => photo_file_id p
  end.

(** [update.message.document or update.message.photo[-1]] *)
Definition pick_file (m : message) : outcome tg_file :=
  match document m with
  | Some d => Ret (FromDocument d)
  | None =>
      match last (photo m) with
      | Some p => Ret (FromPhoto p)
      | None => Raise (IndexError (py "tuple index out of range"))
      end
  end.

(** An optional value inside an f-string. *)
Definition fmt_opt (o : option str) : str :=
  match o with Some s => s | None => py "None" end.

(** [f"downloads/{file_id}.jpg" if update.message.photo
     else f"downloads/{file.file_name}"] *)
Definition download_name (m : message) (f : tg_file) : outcome str :=
  match photo m with
  | _ :: _ => Ret (py "downloads/" ++ file_id f ++ py ".jpg")
  | [] =>
      match f with
      | FromDocument d => Ret (py "downloads/" ++ fmt_opt (doc_file_name d))
      | FromPhoto _ =>
          Raise (AttributeError (py "'PhotoSize' object has no attribute 'file_name'"))
      end
  end.

(** The statements inside the [try] of [handle_document]. *)
Definition handle_document_body (f : tg_file) (file_name : str) : M unit :=
  let! new_file := lift (tg_get_file E (file_id f)) in
  write_file E file_name new_file >>
  user_data_set (py "current_file_path") file_name >>
  reply_text E (py "🔄 Processing file, please wait...") >>
  let! extracted_text := process_document file_name in
  if py_in (py "❌") extracted_text
  then reply_text E extracted_text
  else send_output_options extracted_text.

Definition handle_document (m : message) : M unit :=
  let! f := lift (pick_file m) in
  let! file_name := lift (download_name m f) in
  try_except
    (handle_document_body f file_name)
    (fun e =>
       logging_error (py "Error processing file: " ++ exn_str e) >>
       reply_text E
         (py "❌ An error occurred while processing the document. Please try again!")).

(** [option, text_key = parts] *)
Definition unpack2 (parts : list str) : outcome (str * str) :=
  match parts with
  | [a; b] => Ret (a, b)
  | [] => Raise (ValueError (py "not enough values to unpack (expected 2, got 0)"))
  | [_] => Raise (ValueError (py "not enough values to unpack (expected 2, got 1)"))
  | _ => Raise (ValueError (py "too many values to unpack (expected 2)"))
  end.

(** [f"summary_{text_key}"]: the key under which the summary of the artifact
    [text_key] is stored and looked up. *)
Definition summary_key (text_key : str) : str := py "summary_" ++ text_key.

Definition summary_keyboard (text_key : str) : list (list button) :=
  [ [ InlineKeyboardButton (py "📩 Message") (py "summary_message|" ++ text_key);
      InlineKeyboardButton (py "📄 TXT File") (py "summary_txt|" ++ text_key) ];
    [ InlineKeyboardButton (py "📜 Word File (DOCX)") (py "summary_docx|" ++ text_key) ] ].

(** The branch [if option == "output_summarize":]. *)
Definition choice_summarize (text_key : str) : M unit :=
  let! file_path := user_data_get (py "file_path_" ++ text_key) in
  match file_path with
  | Some file_path =>
      if truthy file_path then
        reply_text E (py "🔄 Summarizing document, please wait...") >>
        let! summary := summarize_document file_path in
        if py_in (py "❌") summary
        then reply_text E summary
        else
          user_data_set (summary_key text_key) summary >>
          reply_markup E (py "📝 Choose an output format for the summary:")
            (summary_keyboard text_key)
      else reply_text E (py "❌ Cannot find the original file for summarization.")
  | None => reply_text E (py "❌ Cannot find the original file for summarization.")
  end.

(** The branch [elif option.startswith("summary_"):]. *)
Definition choice_summary_format (option text_key : str) : M unit :=
  let! stored := user_data_get (summary_key text_key) in
  let summary := default [] stored in
  if negb (truthy summary) then reply_text E (py "❌ Error retrieving summary.")
  else
    let summary_path := py "outputs/summary_" ++ text_key ++ py ".txt" in
    write_file E summary_path (Utf8 summary) >>
    if str_eqb option (py "summary_message") then
      send_text_chunks (py "📝 **Document Summary:**" ++ nl ++ nl ++ summary) default_chunk_size
    else if str_eqb option (py "summary_txt") then
      let! doc := read_file summary_path in
      reply_document E (py "document_summary.txt") doc
        (py "📄 Here is your document summary.")
    else if str_eqb option (py "summary_docx") then
      let! docx_file_path := save_as_docx summary (py "summary_" ++ text_key ++ py ".docx") in
      let! doc := read_file docx_file_path in
      reply_document E (py "document_summary.docx") doc
        (py "📜 Here is your document summary as a Word document.")
    else ret tt.

(** The statements after the two summary branches. *)
Definition choice_primary_format (option text_key extracted_text : str) : M unit :=
  let txt_path := py "outputs/" ++ text_key ++ py ".txt" in
  write_file E txt_path (Utf8 extracted_text) >>
  if str_eqb option (py "output_message") then
    send_text_chunks (py "📜 **Extracted Text:**" ++ nl ++ nl ++ extracted_text) default_chunk_size
  else if str_eqb option (py "output_txt") then
    let! doc := read_file txt_path in
    reply_document E (py "extracted_text.txt") doc
      (py "📄 Here is your extracted text file.")
  else if str_eqb option (py "output_both") then
    send_text_chunks (py "📜 **Extracted Text:**" ++ nl ++ nl ++ extracted_text) default_chunk_size >>
    let! doc := read_file txt_path in
    reply_document E (py "extracted_text.txt") doc
      (py "📄 Here is your extracted text file.")
  else if str_eqb option (py "output_docx") then
    let! docx_file_path := save_as_docx extracted_text (text_key ++ py ".docx") in
    let! doc := read_file docx_file_path in
    reply_document E (py "extracted_text.docx") doc
      (py "📜 Here is your extracted text as a Word document.")
  else reply_text E (py "❌ Invalid option.").

(** The statements inside the [try] of [handle_output_choice]. *)
Definition handle_output_choice_body (data : str) : M unit :=
  let! '(option, text_key) := lift (unpack2 (split 124 data)) in
  let! stored := user_data_get text_key in
  let extracted_text := default [] stored in
  if negb (truthy extracted_text)
  then reply_text E (py "❌ Error retrieving processed text.")
  else if str_eqb option (py "output_summarize") then choice_summarize text_key
  else if startswith option (py "summary_") then choice_summary_format option text_key
  else choice_primary_format option text_key extracted_text.

Definition handle_output_choice (data : str) : M unit :=
  send E Answer >>
  try_except
    (handle_output_choice_body data)
    (fun e =>
       logging_error (py "Error handling output choice: " ++ exn_str e) >>
       reply_text E (py "❌ An error occurred while processing your selection.")).

(** [start] *)
Definition start : M unit :=
  reply_text E
    (py "👋 Send me an image or a PDF, and I'll extract the text! You can choose the output format.").

(** An update delivered to the application, routed as [main] registers the
    handlers: file messages to [handle_document], button presses to
    [handle_output_choice], the [/start] command to [start]. *)
Inductive update :=
  | StartCommand
  | FileMessage (m : message)
  | CallbackQuery (data : str).

Definition dispatch (u : update) : M unit :=
  match u with
  | StartCommand => start
  | FileMessage m => handle_document m
  | CallbackQuery data => handle_output_choice data
  end.

End Bot.

(** A run of the application: each update is handled to completion, in its
    own environment, before the next one; an exception that escapes a handler
    is dropped by the dispatcher and the next update is served. *)
Fixpoint run (cfg : Config) (evs : list (Env * update)) (w : World) : World :=
  match evs with
  | [] => w
  | (E, u) :: evs' => run cfg evs' (snd (dispatch cfg E u w))
  end.

End Bot.

(** ** Vocabulary of the statements *)

(** The world after the chat accepted the calls [os], in order. *)
Definition delivered (os : list outgoing) (w : World) : World :=
  with_outbox (fun b => b ++ os) w.

(** The chat accepts every call made during the event. *)
Definition transport_up (E : Env) : Prop := forall o, tg_send_error E o = None.

(** The chunks of [text] that [send_text_chunks] delivers. *)
Definition chunks (text : str) (chunk_size : Z) : list str :=
  match py_range 0 (len text) chunk_size with
  | Ret starts => Bot.chunks_at text chunk_size starts
  | Raise _ => []
  end.

Definition is_summary (e : entity) : bool := str_eqb (type_ e) (py "summary").

(** The summary text as the specification words it: the mention texts of
    the entities typed "summary", in order, each followed by a line feed;
    the whole-document text when there is no such entity. *)
Definition spec_summary (d : ai_document) : str :=
  if existsb is_summary (entities d)
  then concat (map (fun e => mention_text e ++ nl) (List.filter is_summary (entities d)))
  else text d.

(** The request that [summarize_document] issues for a file. *)
Definition summarize_request (cfg : Config) (c : content) (mime : str) : request :=
  {| api_endpoint := Bot.endpoint cfg;
     processor_name := Bot.processor_path cfg (SUMMARIZER_PROCESSOR_ID cfg);
     raw_content := c; mime_type := mime |}.

(** The request that [process_document] issues for a file. *)
Definition extract_request (cfg : Config) (c : content) (mime : str) : request :=
  {| api_endpoint := Bot.endpoint cfg;
     processor_name := Bot.processor_path cfg (PROCESSOR_ID cfg);
     raw_content := c; mime_type := mime |}.

Definition issued (rq : request) (w : World) : World :=
  with_remote_calls (fun l => l ++ [rq]) w.

(** The dictionary after [send_output_options] has stored [text] under
    [key]: the text, and the current file path when there is one. *)
Definition stored (key text : str) (d : gmap str str) : gmap str str :=
  let d1 := <[key := text]> d in
  match d1 !! py "current_file_path" with
  | Some path => <[py "file_path_" ++ key := path]> d1
  | None => d1
  end.

(** The messages the handlers are registered for:
    [filters.Document.ALL | filters.PHOTO]. *)
Definition accepted (m : Bot.message) : bool :=
  match Bot.document m, Bot.photo m with
  | None, [] => false
  | _, _ => true
  end.

Definition is_menu (o : outgoing) : bool :=
  match o with Menu _ _ => true | _ => false end.

(** The acknowledgement sent before the extraction starts. *)
Definition processing_ack : outgoing := Text (py "🔄 Processing file, please wait...").

(** The world in which [handle_document] starts the extraction: the
    download is saved, its path recorded, the acknowledgement sent. *)
Definition downloaded (file_name : str) (c : content) (w : World) : World :=
  delivered [processing_ack]
    (with_user_data (fun d => <[py "current_file_path" := file_name]> d)
       (with_files (fun fs => <[file_name := c]> fs) w)).

(** The suffixes [process_document] and [summarize_document] recognise. *)
Definition recognized_suffixes : list str :=
  [py ".jpg"; py ".jpeg"; py ".png"; py ".pdf"].

(** A text that is empty or consists of white space only. *)
Definition blank (s : str) : bool := forallb isspace s.

Definition summarizing_ack : outgoing :=
  Text (py "🔄 Summarizing document, please wait...").

(** A computation keeps the property [I] of the world, whether it returns
    or raises. *)
Definition preserves {A} (I : World -> Prop) (m : M A) : Prop :=
  forall w, I w -> I (snd (m w)).

(** No upload of the trace mints the key [K]. *)
Definition mints_other (K : str) (evs : list (Env * Bot.update)) : bool :=
  forallb
    (fun ev =>
       match snd ev with
       | Bot.FileMessage _ => negb (str_eqb (Bot.new_text_key (fst ev)) K)
       | _ => true
       end)
    evs.

(** The TXT files of an artifact and of its summary. *)
Definition txt_path (text_key : str) : str := py "outputs/" ++ text_key ++ py ".txt".
Definition summary_txt_path (text_key : str) : str :=
  py "outputs/summary_" ++ text_key ++ py ".txt".

Definition primary_options : list str :=
  [py "output_message"; py "output_txt"; py "output_both"; py "output_docx"].

(** The file [p] is on disk with the content [c]. *)
Definition holds (p : str) (c : content) (w : World) : Prop := files w !! p = Some c.

(** The number of occurrences of a character. *)
Definition count_char (c : N) (s : str) : nat := length (List.filter (N.eqb c) s).

(** [sep.join(pieces)] for a one-character separator. *)
Fixpoint join (sep : N) (pieces : list str) : str :=
  match pieces with
  | [] => []
  | [p] => p
  | p :: rest => p ++ sep :: join sep rest
  end.

(** The option labels behind the buttons of the two menus. *)
Definition menu_options : list str := primary_options ++ [py "output_summarize"].
Definition summary_options : list str :=
  [py "summary_message"; py "summary_txt"; py "summary_docx"].

(** The callback data of a button splits into one of [options] and [key]. *)
Definition parses_to (key : str) (options : list str) (b : button) : Prop :=
  exists option, split 124 (callback_data b) = [option; key] /\ option ∈ options.

(** The Word files of an artifact and of its summary. *)
Definition docx_path (text_key : str) : str := py "outputs/" ++ (text_key ++ py ".docx").
Definition summary_docx_path (text_key : str) : str :=
  py "outputs/" ++ (py "summary_" ++ text_key ++ py ".docx").

(** The documents that the handlers send. *)
Definition txt_document (t : str) : outgoing :=
  DocumentFile (py "extracted_text.txt") (Utf8 t) (py "📄 Here is your extracted text file.").
Definition docx_document (t : str) : outgoing :=
  DocumentFile (py "extracted_text.docx") (Docx [t])
    (py "📜 Here is your extracted text as a Word document.").
Definition summary_txt_document (s : str) : outgoing :=
  DocumentFile (py "document_summary.txt") (Utf8 s) (py "📄 Here is your document summary.").
Definition summary_docx_document (s : str) : outgoing :=
  DocumentFile (py "document_summary.docx") (Docx [s])
    (py "📜 Here is your document summary as a Word document.").

(** The world after a file has been written. *)
Definition written (p : str) (c : content) (w : World) : World :=
  with_files (fun fs => <[p := c]> fs) w.

(** The world after [handle_document] has stored the text [t] of the file
    saved as [file_name]: download, request, artifact and menu. *)
Definition uploaded (cfg : Config) (E : Env) (file_name : str) (c : content)
    (mime t : str) (w : World) : World :=
  delivered [Menu (py "📝 Choose an output format:")
               (Bot.output_keyboard (Bot.new_text_key E))]
    (with_user_data (stored (Bot.new_text_key E) t)
       (issued (extract_request cfg c mime) (downloaded file_name c w))).

(** Every value of the dictionary is a non-empty string. *)
Definition store_ok (d : gmap str str) : Prop :=
  forall k v, d !! k = Some v -> v <> [].

Definition sound (w : World) : Prop := store_ok (user_data w).

(** From a world with [P], the computation ends -- returning or raising --
    in a world with [Q]. *)
Definition hoare {A} (P : World -> Prop) (m : M A) (Q : World -> Prop) : Prop :=
  forall w, P w -> Q (snd (m w)).

(** From a world with [I], whatever the computation returns has [Q]. *)
Definition establishes {A} (I : World -> Prop) (m : M A) (Q : A -> Prop) : Prop :=
  forall w a w', I w -> m w = (Ret a, w') -> Q a.

(** Between [w0] and [w'] at most one request was issued, and none of the
    earlier ones was dropped. *)
Definition at_most_one_request (w0 w' : World) : Prop :=
  exists l, remote_calls w' = remote_calls w0 ++ l /\ (length l <= 1)%nat.

(** No request has been issued since [w0]. *)
Definition no_request_since (w0 w : World) : Prop := remote_calls w = remote_calls w0.

(** The first four of the sixteen random bytes, as a number. *)
Definition first_four_bytes (random : N) : N := ((random mod 2 ^ 128) / 2 ^ 96)%N.

(** Eight hexadecimal digits, the most significant first. *)
Definition hex8 (n : N) : str := map (hex_at n) [7; 6; 5; 4; 3; 2; 1; 0]%N.

(** ** Concrete configurations, environments and worlds *)

Module Fixture.

Definition cfg0 : Config :=
  {| PROJECT_ID := py "demo-project"; LOCATION := py "eu";
     PROCESSOR_ID := py "ocr-1"; SUMMARIZER_PROCESSOR_ID := py "sum-1" |}.

Definition hello_doc : ai_document :=
  {| text := py "Hello world"; entities := [] |}.

(** Everything outside the bot works; the processor reads "Hello world". *)
Definition env_ok : Env :=
  {| urandom16 := 0xab12cd34000000000000000000000000%N;
     tg_get_file := fun _ => Ret (Blob [37; 80; 68; 70]%N);
     fs_write_error := fun _ => None;
     docai_client_error := None;
     docai_process := fun _ => Ret hello_doc;
     docx_error := fun _ => None;
     tg_send_error := fun _ => None |}.

(** The same surroundings with another result of the processor. *)
Definition env_doc (d : ai_document) : Env :=
  {| urandom16 := urandom16 env_ok;
     tg_get_file := tg_get_file env_ok;
     fs_write_error := fs_write_error env_ok;
     docai_client_error := None;
     docai_process := fun _ => Ret d;
     docx_error := docx_error env_ok;
     tg_send_error := tg_send_error env_ok |}.

Definition summary_ab_doc : ai_document :=
  {| text := py "Alpha. Beta.";
     entities := [ {| type_ := py "summary"; mention_text := py "A" |};
                   {| type_ := py "summary"; mention_text := py "B" |} ] |}.

(** A page on which the processor finds only white space. *)
Definition blank_doc : ai_document :=
  {| text := [32; 10; 9; 32]%N; entities := [] |}.

(** A page whose own text contains the cross mark. *)
Definition ballot_doc : ai_document :=
  {| text := py "Mark ❌ in one box only"; entities := [] |}.

Definition second_doc : ai_document :=
  {| text := py "Second page"; entities := [] |}.

(** A result whose only summary entity is blank, though the page has text. *)
Definition blank_summary_doc : ai_document :=
  {| text := py "A page with text.";
     entities := [ {| type_ := py "summary"; mention_text := py "  " |} ] |}.

Definition scan_bytes : content := Blob [37; 80; 68; 70]%N.

(** A world in which [downloads/scan.pdf] has been saved. *)
Definition world_scan : World :=
  {| user_data := ∅; files := {[ py "downloads/scan.pdf" := scan_bytes ]};
     outbox := []; remote_calls := []; log := [] |}.

(** Surroundings with other random bytes and another page. *)
Definition env_other : Env :=
  {| urandom16 := 0x0f9e8d7c000000000000000000000000%N;
     tg_get_file := tg_get_file env_ok;
     fs_write_error := fs_write_error env_ok;
     docai_client_error := None;
     docai_process := fun _ => Ret second_doc;
     docx_error := docx_error env_ok;
     tg_send_error := tg_send_error env_ok |}.

(** Surroundings in which the chat hands out no file. *)
Definition env_no_download : Env :=
  {| urandom16 := urandom16 env_ok;
     tg_get_file := fun _ => Raise (TelegramError (py "Timed out"));
     fs_write_error := fs_write_error env_ok;
     docai_client_error := None;
     docai_process := docai_process env_ok;
     docx_error := docx_error env_ok;
     tg_send_error := tg_send_error env_ok |}.

(** Surroundings in which the chat accepts the acknowledgement of a button
    press and nothing else. *)
Definition env_mute : Env :=
  {| urandom16 := urandom16 env_ok;
     tg_get_file := tg_get_file env_ok;
     fs_write_error := fs_write_error env_ok;
     docai_client_error := None;
     docai_process := docai_process env_ok;
     docx_error := docx_error env_ok;
     tg_send_error := fun o =>
       match o with
       | Answer => None
       | _ => Some (TelegramError (py "Timed out"))
       end |}.

(** A world that holds the artifact "Hello world" under the key ab12cd34,
    and its summary. *)
Definition world_hello : World :=
  {| user_data := {[ py "ab12cd34" := py "Hello world";
                     py "summary_ab12cd34" := py "Greeting." ]};
     files := ∅; outbox := []; remote_calls := []; log := [] |}.

(** A world whose recorded source file is not on disk. *)
Definition world_stale : World :=
  {| user_data := {[ py "ab12cd34" := py "Hello world";
                     py "file_path_ab12cd34" := py "downloads/old.pdf" ]};
     files := ∅; outbox := []; remote_calls := []; log := [] |}.

Definition world0 : World :=
  {| user_data := ∅; files := ∅; outbox := []; remote_calls := []; log := [] |}.

(** A photo message: the chat lists the sizes of the picture, the largest
    last. *)
Definition snapshot : Bot.message :=
  {| Bot.document := None;
     Bot.photo := [ {| Bot.photo_file_id := py "AgACAgIAAxkBAAIB-small" |};
                    {| Bot.photo_file_id := py "AgACAgIAAxkBAAIB-large" |} ] |}.

Definition upload (name : string) : Bot.message :=
  {| Bot.document := Some {| Bot.doc_file_id := py "BQACAgIAAx0";
                             Bot.doc_file_name := Some (py name) |};
     Bot.photo := [] |}.

Definition the_document (m : Bot.message) : Bot.tg_file :=
  match Bot.document m with
  | Some d => Bot.FromDocument d
  | None => Bot.FromPhoto {| Bot.photo_file_id := [] |}
  end.

(** Surroundings in which the remote client cannot be built. *)
Definition env_no_client : Env :=
  {| urandom16 := urandom16 env_ok;
     tg_get_file := tg_get_file env_ok;
     fs_write_error := fs_write_error env_ok;
     docai_client_error :=
       Some (GoogleAPIError (py "Your default credentials were not found."));
     docai_process := docai_process env_ok;
     docx_error := docx_error env_ok;
     tg_send_error := tg_send_error env_ok |}.

(** Surroundings in which the chat neither hands out the file nor accepts a
    reply. *)
Definition env_offline : Env :=
  {| urandom16 := urandom16 env_ok;
     tg_get_file := fun _ => Raise (TelegramError (py "Timed out"));
     fs_write_error := fs_write_error env_ok;
     docai_client_error := None;
     docai_process := docai_process env_ok;
     docx_error := docx_error env_ok;
     tg_send_error := fun _ => Some (TelegramError (py "Timed out")) |}.

Definition other_bytes : content := Blob [80; 75; 3; 4]%N.

(** Surroundings of a later upload: the chat hands out other bytes and the
    remote processor is down. *)
Definition env_processor_down : Env :=
  {| urandom16 := urandom16 env_other;
     tg_get_file := fun _ => Ret other_bytes;
     fs_write_error := fs_write_error env_ok;
     docai_client_error := None;
     docai_process := fun _ => Raise (GoogleAPIError (py "503 Service Unavailable"));
     docx_error := docx_error env_ok;
     tg_send_error := tg_send_error env_ok |}.

(** The world after the document scan.pdf has been uploaded and read. *)
Definition world_uploaded : World :=
  snd (Bot.handle_document cfg0 env_ok (upload "scan.pdf") world0).

(** A world that holds the artifact of scan.pdf, the path of its source and
    the source itself. *)
Definition world_ready : World :=
  {| user_data := {[ py "ab12cd34" := py "Hello world";
                     py "file_path_ab12cd34" := py "downloads/scan.pdf" ]};
     files := {[ py "downloads/scan.pdf" := scan_bytes ]};
     outbox := []; remote_calls := []; log := [] |}.

End Fixture.

(** ** Sanity checks of the string model *)

Example py_cross : py "❌" = [10060%N].
Proof. reflexivity. Qed.

Example py_ascii : py "a|b" = [97; 124; 98]%N.
Proof. reflexivity. Qed.

Example split_two : split 124 (py "output_txt|ab12cd34") = [py "output_txt"; py "ab12cd34"].
Proof. reflexivity. Qed.

Example split_none : split 124 (py "output_txt") = [py "output_txt"].
Proof. reflexivity. Qed.

Example strip_blank : strip (py "  	 ") = [].
Proof. reflexivity. Qed.

Example strip_word : strip (py "  hi there ") = py "hi there".
Proof. reflexivity. Qed.

Example endswith_pdf : endswith (py "downloads/scan.pdf") (py ".pdf") = true.
Proof. reflexivity. Qed.

Example endswith_upper : endswith (py "downloads/scan.PDF") (py ".pdf") = false.
Proof. reflexivity. Qed.

Example slice_mid : slice (py "abcdef") 2 4 = py "cd".
Proof. reflexivity. Qed.

Example slice_past : slice (py "abcdef") 4 10 = py "ef".
Proof. reflexivity. Qed.

Example uuid_str_example :
  uuid_str (uuid4 0) = py "00000000-0000-4000-8000-000000000000".
Proof. vm_compute. reflexivity. Qed.

Example uuid_str_example2 :
  slice_to (uuid_str (uuid4 (2 ^ 128 - 1))) 8 = py "ffffffff".
Proof. vm_compute. reflexivity. Qed.

(** ** Facts about the string operations *)

Section StringFacts.

Implicit Types s p sub : str.

Lemma len_nonneg s : 0 <= len s.
Proof. unfold len. lia. Qed.

Lemma truthy_true s : truthy s = true <-> s <> [].
Proof. destruct s; simpl; split; congruence. Qed.

Lemma truthy_false s : truthy s = false <-> s = [].
Proof. destruct s; simpl; split; congruence. Qed.

Lemma str_eqb_eq (a b : str) : str_eqb a b = true <-> a = b.
Proof. unfold str_eqb. apply bool_decide_eq_true. Qed.

Lemma str_eqb_neq (a b : str) : str_eqb a b = false <-> a <> b.
Proof. unfold str_eqb. apply bool_decide_eq_false. Qed.

Lemma startswith_app s p : startswith (p ++ s) p = true.
Proof.
  induction p as [|c p IH]; simpl; [done|].
  by rewrite N.eqb_refl, IH.
Qed.

Lemma startswith_inv s p : startswith s p = true -> exists r, s = p ++ r.
Proof.
  revert s; induction p as [|c p IH]; intros s H; simpl in *.
  - by exists s.
  - destruct s as [|d s]; [done|].
    apply andb_true_iff in H as [Hc Hs]. apply N.eqb_eq in Hc as ->.
    destruct (IH _ Hs) as [r ->]. by exists r.
Qed.

(** For a one-character needle, [sub in s] is membership of the character. *)
Lemma py_in_single (c : N) s : py_in [c] s = true <-> c ∈ s.
Proof.
  induction s as [|d s IH]; simpl.
  - split; [done | by intros ?%elem_of_nil].
  - rewrite elem_of_cons, orb_true_iff, andb_true_r, N.eqb_eq, IH. tauto.
Qed.

(** A slice with a non-negative start and a non-negative width. *)
Lemma slice_take_drop s (i c : Z) :
  0 <= i -> 0 <= c ->
  slice s i (i + c) = take (Z.to_nat c) (drop (Z.to_nat i) s).
Proof.
  intros Hi Hc. unfold slice, clamp, len.
  destruct (Z.ltb_spec i 0); [lia|].
  destruct (Z.ltb_spec (i + c) 0); [lia|].
  destruct (Z.le_gt_cases i (Z.of_nat (length s))) as [Hle|Hgt].
  - rewrite (Z.min_l i) by lia.
    destruct (Z.le_gt_cases (i + c) (Z.of_nat (length s))).
    + rewrite Z.min_l by lia. f_equal. lia.
    + rewrite Z.min_r by lia.
      rewrite !take_ge; [done | | ]; rewrite length_drop; lia.
  - rewrite !(Z.min_r _ (Z.of_nat (length s))) by lia.
    rewrite !drop_ge by lia. by rewrite !take_nil.
Qed.

Lemma slice_length_le s (i c : Z) :
  0 <= i -> 0 <= c -> len (slice s i (i + c)) <= c.
Proof.
  intros Hi Hc. rewrite slice_take_drop by done.
  unfold len. rewrite length_take. lia.
Qed.

(** The list of starts produced by [range(0, n, c)] for a positive step. *)
Lemma py_range_from_zero (n c : Z) :
  0 <= n -> 0 < c ->
  py_range 0 n c =
    Ret (map (fun k => Z.of_nat k * c) (seq 0 (Z.to_nat ((n + c - 1) / c)))).
Proof.
  intros Hn Hc. unfold py_range.
  destruct (Z.eqb_spec c 0); [lia|].
  destruct (Z.ltb_spec 0 c); [|lia].
  assert ((if 0 <? n then (n - 0 - 1) / c + 1 else 0) = (n + c - 1) / c) as ->.
  { destruct (Z.ltb_spec 0 n).
    - replace (n + c - 1) with ((n - 0 - 1) + 1 * c) by lia.
      by rewrite Z.div_add by lia.
    - assert (n = 0) as -> by lia. symmetry. apply Z.div_small. lia. }
  done.
Qed.

(** Consecutive blocks of width [c] rebuild a prefix. *)
Lemma blocks_rebuild {A} (l : list A) (c n : nat) :
  concat (map (fun k => take c (drop (k * c) l)) (seq 0 n)) = take (n * c) l.
Proof.
  induction n as [|n IH]; [done|].
  rewrite seq_S, map_app, concat_app, IH. simpl.
  rewrite app_nil_r, take_take_drop. f_equal. lia.
Qed.

End StringFacts.

(** ** Facts about the outbox *)


Lemma delivered_nil w : delivered [] w = w.
Proof. destruct w. unfold delivered, with_outbox. simpl. by rewrite app_nil_r. Qed.

Lemma delivered_app os1 os2 w :
  delivered os2 (delivered os1 w) = delivered (os1 ++ os2) w.
Proof. unfold delivered, with_outbox. simpl. by rewrite app_assoc. Qed.


Section Transport.

Context (E : Env) (Hup : transport_up E).

Lemma send_up o w : send E o w = (Ret tt, delivered [o] w).
Proof. unfold send. by rewrite Hup. Qed.

Lemma reply_text_up body w : reply_text E body w = (Ret tt, delivered [Text body] w).
Proof. apply send_up. Qed.

Lemma reply_markup_up body kb w :
  reply_markup E body kb w = (Ret tt, delivered [Menu body kb] w).
Proof. apply send_up. Qed.

Lemma reply_document_up fn c cap w :
  reply_document E fn c cap w = (Ret tt, delivered [DocumentFile fn c cap] w).
Proof. apply send_up. Qed.

Lemma for_each_reply_up {A} (f : A -> str) (l : list A) w :
  for_each l (fun i => reply_text E (f i)) w
  = (Ret tt, delivered (map (fun i => Text (f i)) l) w).
Proof.
  revert w; induction l as [|x l IH]; intros w; simpl.
  - unfold ret. by rewrite delivered_nil.
  - unfold bind. rewrite reply_text_up, IH. by rewrite delivered_app.
Qed.

End Transport.

(** ** Chunked delivery *)


Lemma chunks_concat (T : str) (C : Z) : 0 < C -> concat (chunks T C) = T.
Proof.
  intros HC. unfold chunks, Bot.chunks_at.
  rewrite py_range_from_zero by (auto using len_nonneg).
  rewrite map_map.
  rewrite (map_ext _ (fun k => take (Z.to_nat C) (drop (k * Z.to_nat C) T))).
  - rewrite blocks_rebuild. apply take_ge.
    pose proof (len_nonneg T) as HT. unfold len in *.
    assert (Z.of_nat (length T) <= ((Z.of_nat (length T) + C - 1) / C) * C).
    { pose proof (Z.div_mod (Z.of_nat (length T) + C - 1) C ltac:(lia)) as Hd.
      pose proof (Z.mod_pos_bound (Z.of_nat (length T) + C - 1) C HC). nia. }
    nia.
  - intros k. rewrite slice_take_drop by lia. do 2 f_equal. lia.
Qed.

Lemma chunks_bounded (T : str) (C : Z) :
  0 < C -> Forall (fun c => len c <= C) (chunks T C).
Proof.
  intros HC. unfold chunks, Bot.chunks_at.
  rewrite py_range_from_zero by (auto using len_nonneg).
  apply Forall_map, Forall_map, Forall_forall. intros k _. simpl.
  apply slice_length_le; lia.
Qed.

(** C1: for every non-empty text and every positive chunk size, while the
    chat accepts the calls, [send_text_chunks] returns after delivering
    exactly the slices [chunks T C] as text messages, in order; their
    concatenation in delivery order is [T] and none is longer than [C].
    The default chunk size 4096 is one such [C]. *)
Theorem C1_send_text_chunks_rebuilds_text (E : Env) (T : str) (C : Z) (w : World) :
  T <> [] -> 0 < C -> transport_up E ->
  Bot.send_text_chunks E T C w = (Ret tt, delivered (map Text (chunks T C)) w)
  /\ concat (chunks T C) = T
  /\ Forall (fun c => len c <= C) (chunks T C)
  /\ 0 < Bot.default_chunk_size.
Proof.
  intros _ HC Hup. split; [|split; [|split]].
  - unfold Bot.send_text_chunks, chunks, bind, lift.
    rewrite py_range_from_zero by (auto using len_nonneg).
    rewrite (for_each_reply_up E Hup). unfold Bot.chunks_at.
    by rewrite !map_map.
  - by apply chunks_concat.
  - by apply chunks_bounded.
  - done.
Qed.

Example chunks_example :
  chunks (py "abcdefg") 3 = [py "abc"; py "def"; py "g"].
Proof. reflexivity. Qed.

Lemma C1_witness :
  let T := py "abcdefg" in
  T <> [] /\ 0 < 3 /\ transport_up Fixture.env_ok
  /\ Bot.send_text_chunks Fixture.env_ok T 3 Fixture.world0
     = (Ret tt, delivered (map Text (chunks T 3)) Fixture.world0)
  /\ concat (chunks T 3) = T.
Proof.
  assert (Hne : py "abcdefg" <> []) by discriminate.
  assert (Hpos : 0 < 3) by lia.
  assert (Hup : transport_up Fixture.env_ok) by (intros o; reflexivity).
  pose proof (C1_send_text_chunks_rebuilds_text
                Fixture.env_ok (py "abcdefg") 3 Fixture.world0 Hne Hpos Hup)
    as (Hrun & Hcat & _).
  split_and!; [exact Hne | exact Hpos | exact Hup | exact Hrun | exact Hcat].
Defined.

(** ** The summary text *)



Lemma collect_summary_from (ents : list entity) (acc : str) :
  fold_left
    (fun summary e =>
       if str_eqb (type_ e) (py "summary")
       then summary ++ (mention_text e ++ nl) else summary)
    ents acc
  = acc ++ concat (map (fun e => mention_text e ++ nl) (List.filter is_summary ents)).
Proof.
  revert acc; induction ents as [|e ents IH]; intros acc; simpl.
  - by rewrite app_nil_r.
  - rewrite IH. unfold is_summary at 2.
    destruct (str_eqb (type_ e) (py "summary")); simpl; [|done].
    by rewrite <- !app_assoc.
Qed.

Lemma collect_summary_filter (ents : list entity) :
  Bot.collect_summary ents
  = concat (map (fun e => mention_text e ++ nl) (List.filter is_summary ents)).
Proof. unfold Bot.collect_summary. by rewrite collect_summary_from. Qed.

Lemma collect_summary_truthy (ents : list entity) :
  truthy (Bot.collect_summary ents) = existsb is_summary ents.
Proof.
  rewrite collect_summary_filter.
  induction ents as [|e ents IH]; simpl; [done|].
  destruct (is_summary e); simpl; [|done].
  unfold nl. by destruct (mention_text e).
Qed.

Lemma summary_text_spec (d : ai_document) : Bot.summary_text d = spec_summary d.
Proof.
  unfold Bot.summary_text, spec_summary.
  rewrite collect_summary_truthy, collect_summary_filter.
  by destruct (existsb is_summary (entities d)).
Qed.


Section Processing.

Context (cfg : Config) (E : Env).
Context (Hclient : docai_client_error E = None).

Lemma summarize_document_unsupported file_path c w :
  files w !! file_path = Some c ->
  Bot.detect_mime file_path = None ->
  Bot.summarize_document cfg E file_path w = (Ret (py "❌ Unsupported file format."), w).
Proof.
  intros Hf Hm. unfold Bot.summarize_document, bind, make_client, read_file.
  by rewrite Hclient, Hf, Hm.
Qed.

Lemma process_document_unsupported file_path c w :
  files w !! file_path = Some c ->
  Bot.detect_mime file_path = None ->
  Bot.process_document cfg E file_path w = (Ret (py "❌ Unsupported file format."), w).
Proof.
  intros Hf Hm. unfold Bot.process_document, bind, make_client, read_file.
  by rewrite Hclient, Hf, Hm.
Qed.

Lemma summarize_document_result file_path c mime d w :
  files w !! file_path = Some c ->
  Bot.detect_mime file_path = Some mime ->
  docai_process E (summarize_request cfg c mime) = Ret d ->
  Bot.summarize_document cfg E file_path w
  = (Ret (if truthy (strip (Bot.summary_text d)) then Bot.summary_text d
          else py "❌ No summary could be generated."),
     issued (summarize_request cfg c mime) w).
Proof.
  intros Hf Hm Hd.
  unfold Bot.summarize_document, bind, make_client, read_file, client_process_document.
  rewrite Hclient, Hf, Hm. fold (summarize_request cfg c mime). by rewrite Hd.
Qed.

Lemma process_document_result file_path c mime d w :
  files w !! file_path = Some c ->
  Bot.detect_mime file_path = Some mime ->
  docai_process E (extract_request cfg c mime) = Ret d ->
  Bot.process_document cfg E file_path w
  = (Ret (if truthy (strip (text d)) then text d else py "❌ No text recognized."),
     issued (extract_request cfg c mime) w).
Proof.
  intros Hf Hm Hd.
  unfold Bot.process_document, bind, make_client, read_file, client_process_document.
  rewrite Hclient, Hf, Hm. fold (extract_request cfg c mime). by rewrite Hd.
Qed.

End Processing.

(** C4: when the remote call of [summarize_document] returns a document, the
    summary text is the concatenation, in document order, of the mention
    texts of the entities typed "summary", each followed by a line feed, and
    the whole-document text when there is no such entity; the function
    returns that text unless it is blank.  For the entities
    [summary:"A"; summary:"B"] it returns "A\nB\n". *)
Theorem C4_summary_text_from_entities
    (cfg : Config) (E : Env) (file_path : str) (c : content) (mime : str)
    (d : ai_document) (w : World) :
  docai_client_error E = None ->
  files w !! file_path = Some c ->
  Bot.detect_mime file_path = Some mime ->
  docai_process E (summarize_request cfg c mime) = Ret d ->
  Bot.summary_text d = spec_summary d
  /\ Bot.summarize_document cfg E file_path w
     = (Ret (if truthy (strip (spec_summary d)) then spec_summary d
             else py "❌ No summary could be generated."),
        issued (summarize_request cfg c mime) w)
  /\ (entities d = [ {| type_ := py "summary"; mention_text := py "A" |};
                     {| type_ := py "summary"; mention_text := py "B" |} ] ->
      Bot.summarize_document cfg E file_path w
      = (Ret (py "A" ++ nl ++ py "B" ++ nl), issued (summarize_request cfg c mime) w)).
Proof.
  intros Hclient Hf Hm Hd.
  pose proof (summarize_document_result cfg E Hclient file_path c mime d w Hf Hm Hd) as Hrun.
  rewrite summary_text_spec in Hrun.
  split; [apply summary_text_spec|]. split; [exact Hrun|].
  intros Hents. rewrite Hrun. unfold spec_summary. rewrite Hents. reflexivity.
Qed.

Example summary_two_entities :
  Bot.summary_text
    {| text := py "full text";
       entities := [ {| type_ := py "summary"; mention_text := py "A" |};
                     {| type_ := py "title"; mention_text := py "T" |};
                     {| type_ := py "summary"; mention_text := py "B" |} ] |}
  = [65; 10; 66; 10]%N.
Proof. reflexivity. Qed.

Example summary_fallback :
  Bot.summary_text
    {| text := py "full text";
       entities := [ {| type_ := py "title"; mention_text := py "T" |} ] |}
  = py "full text".
Proof. reflexivity. Qed.

Lemma C4_witness :
  let E := Fixture.env_doc Fixture.summary_ab_doc in
  let rq := summarize_request Fixture.cfg0 Fixture.scan_bytes (py "application/pdf") in
  docai_client_error E = None
  /\ files Fixture.world_scan !! py "downloads/scan.pdf" = Some Fixture.scan_bytes
  /\ Bot.detect_mime (py "downloads/scan.pdf") = Some (py "application/pdf")
  /\ docai_process E rq = Ret Fixture.summary_ab_doc
  /\ Bot.summarize_document Fixture.cfg0 E (py "downloads/scan.pdf") Fixture.world_scan
     = (Ret (py "A" ++ nl ++ py "B" ++ nl), issued rq Fixture.world_scan).
Proof.
  intros E rq.
  assert (H1 : docai_client_error E = None) by reflexivity.
  assert (H2 : files Fixture.world_scan !! py "downloads/scan.pdf" = Some Fixture.scan_bytes)
    by (vm_compute; reflexivity).
  assert (H3 : Bot.detect_mime (py "downloads/scan.pdf") = Some (py "application/pdf"))
    by reflexivity.
  assert (H4 : docai_process E rq = Ret Fixture.summary_ab_doc) by reflexivity.
  pose proof (C4_summary_text_from_entities Fixture.cfg0 E (py "downloads/scan.pdf")
                Fixture.scan_bytes (py "application/pdf") Fixture.summary_ab_doc
                Fixture.world_scan H1 H2 H3 H4) as (_ & _ & Hab).
  split_and!; [exact H1 | exact H2 | exact H3 | exact H4 | apply Hab; reflexivity].
Defined.

(** ** The key of a summary *)

Lemma summary_key_length (K : str) :
  length (Bot.summary_key K) = (8 + length K)%nat.
Proof. unfold Bot.summary_key. by rewrite length_app. Qed.

Lemma summary_key_inj (K1 K2 : str) :
  Bot.summary_key K1 = Bot.summary_key K2 -> K1 = K2.
Proof. unfold Bot.summary_key. apply app_inv_head. Qed.

Lemma summary_key_not_short (K1 K2 : str) :
  length K2 = 8%nat -> length K1 <> 0%nat -> Bot.summary_key K1 <> K2.
Proof.
  intros H2 H1 Heq. apply (f_equal length) in Heq.
  rewrite summary_key_length in Heq. lia.
Qed.

(** ** Session keys *)

Lemma new_text_key_digits (E : Env) :
  Bot.new_text_key E
  = map (hex_at (uuid4 (urandom16 E))) [31; 30; 29; 28; 27; 26; 25; 24]%N.
Proof. reflexivity. Qed.

Lemma hex_at_is_hex (u k : N) : is_hex (hex_at u k) = true.
Proof.
  unfold hex_at, hex_digit, is_hex.
  pose proof (N.mod_upper_bound (u / 16 ^ k) 16 ltac:(done)) as Hlt.
  generalize dependent ((u / 16 ^ k) mod 16)%N. intros d Hlt.
  destruct (N.ltb_spec d 10) as [H|H].
  - apply orb_true_iff. left. apply andb_true_iff.
    split; apply N.leb_le; lia.
  - apply orb_true_iff. right. apply andb_true_iff.
    split; apply N.leb_le; lia.
Qed.

Lemma new_text_key_is_session_key (E : Env) :
  is_session_key (Bot.new_text_key E) = true.
Proof.
  rewrite new_text_key_digits. unfold is_session_key. simpl map.
  apply andb_true_iff. split; [reflexivity|].
  simpl forallb. by rewrite !hex_at_is_hex.
Qed.

Lemma session_key_length (K : str) : is_session_key K = true -> length K = 8%nat.
Proof.
  unfold is_session_key. intros [H _]%andb_true_iff. by apply Nat.eqb_eq in H.
Qed.

Lemma session_key_not_summary (K x : str) :
  is_session_key K = true -> Bot.summary_key x <> K.
Proof.
  intros HK Heq. pose proof (session_key_length K HK) as Hlen.
  unfold is_session_key in HK. apply andb_true_iff in HK as [_ HK].
  subst K. unfold Bot.summary_key in HK. simpl in HK. discriminate.
Qed.

Lemma session_key_not_current (K : str) :
  is_session_key K = true -> py "current_file_path" <> K.
Proof. intros HK <-. apply session_key_length in HK. discriminate. Qed.

Lemma session_key_not_file_path (K x : str) :
  is_session_key K = true -> py "file_path_" ++ x <> K.
Proof.
  intros HK <-. apply session_key_length in HK.
  rewrite length_app in HK. simpl in HK. lia.
Qed.

(** ** Running the handlers step by step *)

Lemma bind_eq {A B} (m : M A) (k : A -> M B) (w : World) :
  bind m k w = match m w with
               | (Ret a, w') => k a w'
               | (Raise e, w') => (Raise e, w')
               end.
Proof. reflexivity. Qed.

Lemma try_except_eq {A} (m : M A) (h : exn -> M A) (w : World) :
  try_except m h w = match m w with
                     | (Ret a, w') => (Ret a, w')
                     | (Raise e, w') => h e w'
                     end.
Proof. reflexivity. Qed.

Ltac run :=
  cbn [bind ret raise lift try_except user_data_set user_data_get logging_error
       user_data files outbox remote_calls log fst snd default from_option id].

Ltac step H := rewrite bind_eq; rewrite H; cbv beta iota.

Ltac open_world :=
  unfold downloaded, delivered, issued,
    with_user_data, with_files, with_outbox, with_remote_calls, with_log;
  cbn [user_data files outbox remote_calls log].

Ltac same_world := open_world; rewrite <- ?app_assoc; reflexivity.

Lemma accepted_pick_file (m : Bot.message) :
  accepted m = true ->
  exists f file_name, Bot.pick_file m = Ret f /\ Bot.download_name m f = Ret file_name.
Proof.
  unfold accepted, Bot.pick_file, Bot.download_name.
  destruct (Bot.document m) as [d|]; destruct (Bot.photo m) as [|p ps] eqn:Hp; intros H.
  - eauto.
  - eauto.
  - discriminate.
  - destruct (last (p :: ps)) as [q|] eqn:Hl; [eauto|].
    apply last_None in Hl. discriminate.
Qed.

(** The extraction and the summarization touch nothing but the list of
    issued requests. *)
Lemma process_document_frame cfg E file_path w :
  let w' := snd (Bot.process_document cfg E file_path w) in
  user_data w' = user_data w /\ files w' = files w
  /\ outbox w' = outbox w /\ log w' = log w.
Proof.
  unfold Bot.process_document, make_client, read_file, client_process_document, bind, ret.
  destruct (docai_client_error E); [done|].
  destruct (files w !! file_path); [|done].
  destruct (Bot.detect_mime file_path); [|done].
  by destruct (docai_process E _).
Qed.

Lemma summarize_document_frame cfg E file_path w :
  let w' := snd (Bot.summarize_document cfg E file_path w) in
  user_data w' = user_data w /\ files w' = files w
  /\ outbox w' = outbox w /\ log w' = log w.
Proof.
  unfold Bot.summarize_document, make_client, read_file, client_process_document, bind, ret.
  destruct (docai_client_error E); [done|].
  destruct (files w !! file_path); [|done].
  destruct (Bot.detect_mime file_path); [|done].
  by destruct (docai_process E _).
Qed.

Section HandlersUp.

Context (cfg : Config) (E : Env) (Hup : transport_up E).

Lemma send_output_options_up text w :
  Bot.send_output_options E text w
  = (Ret tt,
     delivered [Menu (py "📝 Choose an output format:")
                  (Bot.output_keyboard (Bot.new_text_key E))]
       (with_user_data (stored (Bot.new_text_key E) text) w)).
Proof.
  unfold Bot.send_output_options, stored. run. open_world.
  destruct (_ !! _); run; rewrite reply_markup_up by done; same_world.
Qed.

Lemma send_text_chunks_up (T : str) w :
  Bot.send_text_chunks E T Bot.default_chunk_size w
  = (Ret tt, delivered (map Text (chunks T Bot.default_chunk_size)) w).
Proof.
  unfold Bot.send_text_chunks, chunks, lift. rewrite bind_eq.
  rewrite py_range_from_zero by (auto using len_nonneg; done).
  rewrite (for_each_reply_up E Hup). unfold Bot.chunks_at.
  by rewrite !map_map.
Qed.

(** [handle_document] once the file is fetched and saved. *)
Lemma handle_document_body_up f file_name c w :
  tg_get_file E (Bot.file_id f) = Ret c ->
  fs_write_error E file_name = None ->
  Bot.handle_document_body cfg E f file_name w
  = match Bot.process_document cfg E file_name (downloaded file_name c w) with
    | (Ret t, w3) =>
        if py_in (py "❌") t then (Ret tt, delivered [Text t] w3)
        else (Ret tt,
              delivered [Menu (py "📝 Choose an output format:")
                           (Bot.output_keyboard (Bot.new_text_key E))]
                (with_user_data (stored (Bot.new_text_key E) t) w3))
    | (Raise e, w3) => (Raise e, w3)
    end.
Proof.
  intros Hget Hwr. unfold Bot.handle_document_body, write_file. run.
  rewrite Hget. run. rewrite Hwr. run. step (reply_text_up E Hup). rewrite bind_eq.
  unfold downloaded, processing_ack.
  destruct (Bot.process_document _ _ _ _) as [[t|e] w3]; [|done].
  destruct (py_in _ t).
  - by rewrite reply_text_up.
  - by rewrite send_output_options_up.
Qed.

Lemma handle_document_eq m f file_name w :
  Bot.pick_file m = Ret f ->
  Bot.download_name m f = Ret file_name ->
  Bot.handle_document cfg E m w
  = match Bot.handle_document_body cfg E f file_name w with
    | (Ret u, w1) => (Ret u, w1)
    | (Raise e, w1) =>
        (Ret tt,
         delivered
           [Text (py "❌ An error occurred while processing the document. Please try again!")]
           (with_log (fun l => l ++ [py "Error processing file: " ++ exn_str e]) w1))
    end.
Proof.
  intros Hf Hn. unfold Bot.handle_document. run. rewrite Hf. run. rewrite Hn. run.
  rewrite try_except_eq.
  destruct (Bot.handle_document_body _ _ _ _ _) as [[u|e] w1]; [done|].
  run. by rewrite reply_text_up.
Qed.

Lemma handle_output_choice_eq data w :
  Bot.handle_output_choice cfg E data w
  = match Bot.handle_output_choice_body cfg E data (delivered [Answer] w) with
    | (Ret u, w1) => (Ret u, w1)
    | (Raise e, w1) =>
        (Ret tt,
         delivered [Text (py "❌ An error occurred while processing your selection.")]
           (with_log (fun l => l ++ [py "Error handling output choice: " ++ exn_str e]) w1))
    end.
Proof.
  unfold Bot.handle_output_choice. step (send_up E Hup). rewrite try_except_eq.
  destruct (Bot.handle_output_choice_body _ _ _ _) as [[u|e] w1]; [done|].
  run. by rewrite reply_text_up.
Qed.

(** The body of [handle_output_choice] once the callback data is split and
    the artifact found. *)
Lemma handle_output_choice_body_hit data option text_key t w :
  split 124 data = [option; text_key] ->
  user_data w !! text_key = Some t -> t <> [] ->
  Bot.handle_output_choice_body cfg E data w
  = if str_eqb option (py "output_summarize") then Bot.choice_summarize cfg E text_key w
    else if startswith option (py "summary_")
         then Bot.choice_summary_format E option text_key w
         else Bot.choice_primary_format E option text_key t w.
Proof.
  intros Hs Hk Ht. unfold Bot.handle_output_choice_body. rewrite Hs. unfold Bot.unpack2. run.
  rewrite Hk. run. destruct t; [done|]. cbn [truthy negb id].
  destruct (str_eqb option _); [done|]. by destruct (startswith option _).
Qed.

Lemma handle_output_choice_body_miss data option text_key w :
  split 124 data = [option; text_key] ->
  user_data w !! text_key = None ->
  Bot.handle_output_choice_body cfg E data w
  = (Ret tt, delivered [Text (py "❌ Error retrieving processed text.")] w).
Proof.
  intros Hs Hk. unfold Bot.handle_output_choice_body. rewrite Hs. unfold Bot.unpack2. run.
  rewrite Hk. run. cbn [truthy negb]. by rewrite reply_text_up.
Qed.

Lemma choice_summarize_up text_key file_path w :
  user_data w !! (py "file_path_" ++ text_key) = Some file_path ->
  file_path <> [] ->
  Bot.choice_summarize cfg E text_key w
  = match Bot.summarize_document cfg E file_path
            (delivered [Text (py "🔄 Summarizing document, please wait...")] w) with
    | (Ret s, w3) =>
        if py_in (py "❌") s then (Ret tt, delivered [Text s] w3)
        else (Ret tt,
              delivered [Menu (py "📝 Choose an output format for the summary:")
                           (Bot.summary_keyboard text_key)]
                (with_user_data (fun d => <[Bot.summary_key text_key := s]> d) w3))
    | (Raise e, w3) => (Raise e, w3)
    end.
Proof.
  intros Hp Hne. unfold Bot.choice_summarize. run. rewrite Hp.
  destruct file_path as [|c0 fp]; [done|]. cbn [truthy].
  step (reply_text_up E Hup). rewrite bind_eq.
  destruct (Bot.summarize_document _ _ _ _) as [[s|e] w3]; [|done].
  destruct (py_in _ s).
  - by rewrite reply_text_up.
  - run. by rewrite reply_markup_up.
Qed.

End HandlersUp.

(** ** Blank texts *)

Lemma lstrip_nil_iff (s : str) : lstrip s = [] <-> blank s = true.
Proof.
  unfold blank. induction s as [|c s IH]; simpl; [done|].
  destruct (isspace c); simpl; [done|]. split; discriminate.
Qed.

Lemma lstrip_head (s : str) :
  match lstrip s with
  | [] => True
  | c :: _ => isspace c = false
  end.
Proof.
  induction s as [|c s IH]; simpl; [done|].
  by destruct (isspace c) eqn:Hc.
Qed.

Lemma blank_rev (s : str) : blank (rev s) = blank s.
Proof.
  unfold blank. apply eq_true_iff_eq.
  rewrite !forallb_forall. by setoid_rewrite <- in_rev.
Qed.

(** [s.strip()] is empty exactly for the blank texts. *)
Lemma strip_nil_iff (s : str) : strip s = [] <-> blank s = true.
Proof.
  unfold strip, rstrip. split.
  - intros H. apply (f_equal (@rev N)) in H. rewrite rev_involutive in H. simpl in H.
    apply lstrip_nil_iff in H. rewrite blank_rev in H.
    pose proof (lstrip_head s) as Hh.
    destruct (lstrip s) as [|c r] eqn:Hl; [by apply lstrip_nil_iff|].
    unfold blank in H. simpl in H. by rewrite Hh in H.
  - intros H. apply lstrip_nil_iff in H. by rewrite H.
Qed.

Lemma detect_mime_none (file_path : str) :
  Bot.detect_mime file_path = None <-> endswith_any file_path recognized_suffixes = false.
Proof.
  unfold Bot.detect_mime, endswith_any, recognized_suffixes. cbn [existsb].
  destruct (endswith file_path (py ".jpg")), (endswith file_path (py ".jpeg")),
    (endswith file_path (py ".png")), (endswith file_path (py ".pdf"));
    cbn [orb]; split; congruence.
Qed.

Lemma unsupported_has_cross :
  py_in (py "❌") (py "❌ Unsupported file format.") = true.
Proof. vm_compute. reflexivity. Qed.

Lemma no_text_has_cross : py_in (py "❌") (py "❌ No text recognized.") = true.
Proof. vm_compute. reflexivity. Qed.

(** ** An upload whose text is blank *)

(** C2: when the extraction call returns a text that is empty or consists of
    white space only, [handle_document] answers the acknowledgement and then
    the notice "No text recognized", shows no menu, stores nothing under any
    session key (only the current file path is recorded), and issues the
    request exactly once. *)
Theorem C2_blank_extraction_is_reported_not_stored
    (cfg : Config) (E : Env) (m : Bot.message) (f : Bot.tg_file) (file_name : str)
    (c : content) (mime : str) (d : ai_document) (w : World) :
  transport_up E ->
  Bot.pick_file m = Ret f ->
  Bot.download_name m f = Ret file_name ->
  tg_get_file E (Bot.file_id f) = Ret c ->
  fs_write_error E file_name = None ->
  docai_client_error E = None ->
  Bot.detect_mime file_name = Some mime ->
  docai_process E (extract_request cfg c mime) = Ret d ->
  blank (text d) = true ->
  let notice := Text (py "❌ No text recognized.") in
  let w' := snd (Bot.handle_document cfg E m w) in
  Bot.handle_document cfg E m w
  = (Ret tt, delivered [notice] (issued (extract_request cfg c mime) (downloaded file_name c w)))
  /\ outbox w' = outbox w ++ [processing_ack; notice]
  /\ existsb is_menu [processing_ack; notice] = false
  /\ user_data w' = <[py "current_file_path" := file_name]> (user_data w)
  /\ (forall K, is_session_key K = true -> user_data w' !! K = user_data w !! K)
  /\ remote_calls w' = remote_calls w ++ [extract_request cfg c mime]
  /\ log w' = log w.
Proof.
  intros Hup Hf Hn Hget Hwr Hcl Hm Hd Hb notice w'.
  assert (Hrun : Bot.handle_document cfg E m w
                 = (Ret tt, delivered [notice]
                      (issued (extract_request cfg c mime) (downloaded file_name c w)))).
  { rewrite (handle_document_eq cfg E Hup m f file_name w Hf Hn).
    rewrite (handle_document_body_up cfg E Hup f file_name c w Hget Hwr).
    rewrite (process_document_result cfg E Hcl file_name c mime d); [| |done..].
    - apply strip_nil_iff in Hb. rewrite Hb. cbn [truthy]. by rewrite no_text_has_cross.
    - open_world. apply lookup_insert_eq. }
  subst w'. rewrite Hrun. split_and!; try done.
  - same_world.
  - intros K HK. open_world. apply lookup_insert_ne. by apply session_key_not_current.
Qed.

(** ** A callback for a key that is not in the dictionary *)

(** The body of [handle_output_choice] when the dictionary has nothing, or
    the empty text, under the key. *)
Lemma handle_output_choice_body_absent cfg E data option text_key w :
  split 124 data = [option; text_key] ->
  user_data w !! text_key = None \/ user_data w !! text_key = Some [] ->
  Bot.handle_output_choice_body cfg E data w
  = reply_text E (py "❌ Error retrieving processed text.") w.
Proof.
  intros Hs Hk. unfold Bot.handle_output_choice_body. rewrite Hs. unfold Bot.unpack2. run.
  by destruct Hk as [-> | ->].
Qed.

(** Whatever the chat does, such a callback touches neither the files, nor
    the dictionary, nor the list of issued requests. *)
Lemma handle_output_choice_absent_frame cfg E data option text_key w :
  split 124 data = [option; text_key] ->
  user_data w !! text_key = None \/ user_data w !! text_key = Some [] ->
  let w' := snd (Bot.handle_output_choice cfg E data w) in
  files w' = files w /\ user_data w' = user_data w /\ remote_calls w' = remote_calls w.
Proof.
  intros Hs Hk w'. subst w'. unfold Bot.handle_output_choice. rewrite bind_eq.
  unfold send. destruct (tg_send_error E Answer) as [e0|]; [done|].
  cbv beta iota. rewrite !try_except_eq.
  rewrite (handle_output_choice_body_absent cfg E data option text_key); [|done|exact Hk].
  unfold reply_text, send.
  destruct (tg_send_error E (Text (py "❌ Error retrieving processed text."))) as [e1|];
    [|done].
  rewrite !bind_eq. cbn [logging_error]. cbv beta iota.
  by destruct (tg_send_error E (Text (py "❌ An error occurred while processing your selection."))).
Qed.

(** C3 (as the code has it): when the callback data is [option|key] and the
    dictionary [user_data] has no entry under [key], or an empty one,
    [handle_output_choice] writes no file, changes no entry and issues no
    request, whatever the chat does and whatever [option] is; while the chat
    accepts the calls it acknowledges the query, replies "Error retrieving
    processed text" and returns, and the log is as before. *)
Theorem C3_unknown_key_is_reported_without_effect
    (cfg : Config) (E : Env) (data option text_key : str) (w : World) :
  split 124 data = [option; text_key] ->
  user_data w !! text_key = None \/ user_data w !! text_key = Some [] ->
  let w' := snd (Bot.handle_output_choice cfg E data w) in
  (files w' = files w /\ user_data w' = user_data w /\ remote_calls w' = remote_calls w)
  /\ (transport_up E ->
      Bot.handle_output_choice cfg E data w
      = (Ret tt, delivered [Answer; Text (py "❌ Error retrieving processed text.")] w)
      /\ log w' = log w).
Proof.
  intros Hs Hk w'. split.
  - by apply (handle_output_choice_absent_frame cfg E data option text_key).
  - intros Hup.
    assert (Hrun : Bot.handle_output_choice cfg E data w
                   = (Ret tt,
                      delivered [Answer; Text (py "❌ Error retrieving processed text.")] w)).
    { rewrite (handle_output_choice_eq cfg E Hup).
      rewrite (handle_output_choice_body_absent cfg E data option text_key) by done.
      rewrite (reply_text_up E Hup). by rewrite delivered_app. }
    subst w'. by rewrite Hrun.
Qed.

(** ** A file of an unsupported format *)

(** Both processing functions build the client first, read the file next
    and test the suffix last; for a path with no recognised suffix they
    leave the world, with its list of issued requests, as it was, whatever
    the surroundings are. *)
Lemma unsupported_issues_nothing cfg E file_path w :
  Bot.detect_mime file_path = None ->
  snd (Bot.process_document cfg E file_path w) = w
  /\ snd (Bot.summarize_document cfg E file_path w) = w.
Proof.
  intros Hm.
  unfold Bot.process_document, Bot.summarize_document, bind, make_client, read_file.
  rewrite Hm. destruct (docai_client_error E); [done|]. by destruct (files w !! file_path).
Qed.

Lemma client_failure_raises cfg E file_path e w :
  docai_client_error E = Some e ->
  Bot.process_document cfg E file_path w = (Raise e, w)
  /\ Bot.summarize_document cfg E file_path w = (Raise e, w).
Proof.
  intros Hcl. unfold Bot.process_document, Bot.summarize_document, bind, make_client.
  by rewrite Hcl.
Qed.

(** C6 (as the code has it): for a file whose path ends in none of the
    recognised suffixes, [process_document] and [summarize_document] issue no
    request and leave the world as it was, whatever the surroundings.  When
    the remote client can be built (it is built before the suffix is tested)
    and the file can be read, both return "Unsupported file format"; while
    the chat accepts the calls [handle_document] then sends that text after
    the acknowledgement, issues no request, writes no log record and stores
    nothing under a session key, but the saved download and the entry
    [current_file_path], both written before the extraction, remain; a
    "summarize" choice on such a file sends the text and changes nothing
    else.  When the client cannot be built, both functions raise that
    failure instead, and [handle_document] logs it and sends its general
    error message. *)
Theorem C6_unsupported_format_short_circuits
    (cfg : Config) (E : Env) (file_path : str) :
  endswith_any file_path recognized_suffixes = false ->
  let notice := Text (py "❌ Unsupported file format.") in
  (forall w,
     snd (Bot.process_document cfg E file_path w) = w
     /\ snd (Bot.summarize_document cfg E file_path w) = w)
  /\ (docai_client_error E = None ->
      (forall c w, files w !! file_path = Some c ->
         Bot.process_document cfg E file_path w = (Ret (py "❌ Unsupported file format."), w)
         /\ Bot.summarize_document cfg E file_path w
            = (Ret (py "❌ Unsupported file format."), w))
      /\ (forall m f c w,
            transport_up E ->
            Bot.pick_file m = Ret f -> Bot.download_name m f = Ret file_path ->
            tg_get_file E (Bot.file_id f) = Ret c -> fs_write_error E file_path = None ->
            let w' := snd (Bot.handle_document cfg E m w) in
            Bot.handle_document cfg E m w
            = (Ret tt, delivered [notice] (downloaded file_path c w))
            /\ outbox w' = outbox w ++ [processing_ack; notice]
            /\ remote_calls w' = remote_calls w
            /\ log w' = log w
            /\ user_data w' = <[py "current_file_path" := file_path]> (user_data w)
            /\ files w' = <[file_path := c]> (files w)
            /\ (forall K, is_session_key K = true -> user_data w' !! K = user_data w !! K))
      /\ (forall data text_key t c w,
            transport_up E ->
            split 124 data = [py "output_summarize"; text_key] ->
            user_data w !! text_key = Some t -> t <> [] ->
            user_data w !! (py "file_path_" ++ text_key) = Some file_path ->
            file_path <> [] ->
            files w !! file_path = Some c ->
            Bot.handle_output_choice cfg E data w
            = (Ret tt, delivered [Answer; summarizing_ack; notice] w)))
  /\ (forall e, docai_client_error E = Some e ->
        (forall w,
           Bot.process_document cfg E file_path w = (Raise e, w)
           /\ Bot.summarize_document cfg E file_path w = (Raise e, w))
        /\ (forall m f c w,
              transport_up E ->
              Bot.pick_file m = Ret f -> Bot.download_name m f = Ret file_path ->
              tg_get_file E (Bot.file_id f) = Ret c -> fs_write_error E file_path = None ->
              Bot.handle_document cfg E m w
              = (Ret tt,
                 delivered
                   [Text (py "❌ An error occurred while processing the document. Please try again!")]
                   (with_log (fun l => l ++ [py "Error processing file: " ++ exn_str e])
                      (downloaded file_path c w))))).
Proof.
  intros Hsuf notice. apply detect_mime_none in Hsuf. split_and!.
  - intros w. by apply unsupported_issues_nothing.
  - intros Hcl. split_and!.
    + intros c w Hfile. split.
      * by apply (process_document_unsupported cfg E Hcl file_path c).
      * by apply (summarize_document_unsupported cfg E Hcl file_path c).
    + intros m f c w Hup Hf Hn Hget Hwr w'.
      assert (Hrun : Bot.handle_document cfg E m w
                     = (Ret tt, delivered [notice] (downloaded file_path c w))).
      { rewrite (handle_document_eq cfg E Hup m f file_path w Hf Hn).
        rewrite (handle_document_body_up cfg E Hup f file_path c w Hget Hwr).
        rewrite (process_document_unsupported cfg E Hcl file_path c); [| |done].
        - by rewrite unsupported_has_cross.
        - open_world. apply lookup_insert_eq. }
      subst w'. rewrite Hrun. split_and!; try done.
      * same_world.
      * intros K HK. open_world. apply lookup_insert_ne. by apply session_key_not_current.
    + intros data text_key t c w Hup Hs Hk Ht Hp Hne Hfile.
      rewrite (handle_output_choice_eq cfg E Hup).
      rewrite (handle_output_choice_body_hit cfg E data (py "output_summarize") text_key t);
        [|done..].
      rewrite (proj2 (str_eqb_eq _ _) eq_refl).
      rewrite (choice_summarize_up cfg E Hup text_key file_path); [|done..].
      rewrite (summarize_document_unsupported cfg E Hcl file_path c); [|done..].
      rewrite unsupported_has_cross.
      by rewrite !delivered_app.
  - intros e Hcl. split.
    + intros w. by apply client_failure_raises.
    + intros m f c w Hup Hf Hn Hget Hwr.
      rewrite (handle_document_eq cfg E Hup m f file_path w Hf Hn).
      rewrite (handle_document_body_up cfg E Hup f file_path c w Hget Hwr).
      by rewrite (proj1 (client_failure_raises cfg E file_path e _ Hcl)).
Qed.

Lemma C2_witness :
  let E := Fixture.env_doc Fixture.blank_doc in
  let m := Fixture.upload "scan.pdf" in
  let rq := extract_request Fixture.cfg0 Fixture.scan_bytes (py "application/pdf") in
  (transport_up E
   /\ Bot.pick_file m = Ret (Fixture.the_document m)
   /\ Bot.download_name m (Fixture.the_document m) = Ret (py "downloads/scan.pdf")
   /\ tg_get_file E (Bot.file_id (Fixture.the_document m)) = Ret Fixture.scan_bytes
   /\ fs_write_error E (py "downloads/scan.pdf") = None
   /\ docai_client_error E = None
   /\ Bot.detect_mime (py "downloads/scan.pdf") = Some (py "application/pdf")
   /\ docai_process E rq = Ret Fixture.blank_doc
   /\ blank (text Fixture.blank_doc) = true)
  /\ outbox (snd (Bot.handle_document Fixture.cfg0 E m Fixture.world0))
     = outbox Fixture.world0 ++ [processing_ack; Text (py "❌ No text recognized.")].
Proof.
  intros E m rq.
  assert (H1 : transport_up E) by (intros o; reflexivity).
  assert (H2 : Bot.pick_file m = Ret (Fixture.the_document m)) by reflexivity.
  assert (H3 : Bot.download_name m (Fixture.the_document m) = Ret (py "downloads/scan.pdf"))
    by reflexivity.
  assert (H4 : tg_get_file E (Bot.file_id (Fixture.the_document m)) = Ret Fixture.scan_bytes)
    by reflexivity.
  assert (H5 : fs_write_error E (py "downloads/scan.pdf") = None) by reflexivity.
  assert (H6 : docai_client_error E = None) by reflexivity.
  assert (H7 : Bot.detect_mime (py "downloads/scan.pdf") = Some (py "application/pdf"))
    by reflexivity.
  assert (H8 : docai_process E rq = Ret Fixture.blank_doc) by reflexivity.
  assert (H9 : blank (text Fixture.blank_doc) = true) by reflexivity.
  pose proof (C2_blank_extraction_is_reported_not_stored Fixture.cfg0 E m
                (Fixture.the_document m) (py "downloads/scan.pdf") Fixture.scan_bytes
                (py "application/pdf") Fixture.blank_doc Fixture.world0
                H1 H2 H3 H4 H5 H6 H7 H8 H9) as (_ & Hout & _).
  split; [split_and!; assumption | exact Hout].
Defined.

Lemma C3_witness :
  let data := py "output_docx|deadbeef" in
  (split 124 data = [py "output_docx"; py "deadbeef"]
   /\ user_data Fixture.world_scan !! py "deadbeef" = None
   /\ transport_up Fixture.env_ok)
  /\ Bot.handle_output_choice Fixture.cfg0 Fixture.env_ok data Fixture.world_scan
     = (Ret tt, delivered [Answer; Text (py "❌ Error retrieving processed text.")]
                  Fixture.world_scan).
Proof.
  intros data.
  assert (H1 : split 124 data = [py "output_docx"; py "deadbeef"]) by reflexivity.
  assert (H2 : user_data Fixture.world_scan !! py "deadbeef" = None) by reflexivity.
  assert (H3 : transport_up Fixture.env_ok) by (intros o; reflexivity).
  pose proof (C3_unknown_key_is_reported_without_effect Fixture.cfg0 Fixture.env_ok
                data (py "output_docx") (py "deadbeef") Fixture.world_scan H1 (or_introl H2))
    as (_ & Hrun).
  split; [split_and!; assumption | exact (proj1 (Hrun H3))].
Defined.

(** A key that was never issued can still name an entry of the dictionary.
    After the upload of scan.pdf the only key issued is ab12cd34; callback
    data carrying the key [current_file_path] is not answered with the
    retrieval error: the entry is served as if it were an artifact and the
    file [outputs/current_file_path.txt] is written. *)
Lemma C3_counterexample :
  let w1 := Fixture.world_uploaded in
  let data := py "output_txt|current_file_path" in
  let w2 := snd (Bot.handle_output_choice Fixture.cfg0 Fixture.env_ok data w1) in
  Bot.new_text_key Fixture.env_ok = py "ab12cd34"
  /\ user_data w1 !! py "ab12cd34" = Some (py "Hello world")
  /\ split 124 data = [py "output_txt"; py "current_file_path"]
  /\ is_session_key (py "current_file_path") = false
  /\ fst (Bot.handle_output_choice Fixture.cfg0 Fixture.env_ok data w1) = Ret tt
  /\ outbox w2
     = outbox w1 ++ [Answer;
                     DocumentFile (py "extracted_text.txt") (Utf8 (py "downloads/scan.pdf"))
                       (py "📄 Here is your extracted text file.")]
  /\ files w1 !! py "outputs/current_file_path.txt" = None
  /\ files w2 !! py "outputs/current_file_path.txt" = Some (Utf8 (py "downloads/scan.pdf"))
  /\ files w2 <> files w1.
Proof.
  intros w1 data w2.
  assert (H1 : files w1 !! py "outputs/current_file_path.txt" = None)
    by (vm_compute; reflexivity).
  assert (H2 : files w2 !! py "outputs/current_file_path.txt"
               = Some (Utf8 (py "downloads/scan.pdf"))) by (vm_compute; reflexivity).
  split_and!; try (vm_compute; reflexivity); try assumption.
  intros Heq. rewrite Heq, H1 in H2. discriminate H2.
Qed.

Lemma C6_witness :
  let m := Fixture.upload "notes.txt" in
  let file_path := py "downloads/notes.txt" in
  (endswith_any file_path recognized_suffixes = false
   /\ docai_client_error Fixture.env_ok = None
   /\ transport_up Fixture.env_ok)
  /\ Bot.handle_document Fixture.cfg0 Fixture.env_ok m Fixture.world0
     = (Ret tt, delivered [Text (py "❌ Unsupported file format.")]
                  (downloaded file_path Fixture.scan_bytes Fixture.world0)).
Proof.
  intros m file_path.
  assert (H1 : endswith_any file_path recognized_suffixes = false) by reflexivity.
  assert (H2 : docai_client_error Fixture.env_ok = None) by reflexivity.
  assert (H3 : transport_up Fixture.env_ok) by (intros o; reflexivity).
  destruct (C6_unsupported_format_short_circuits Fixture.cfg0 Fixture.env_ok
              file_path H1) as (_ & Hok & _).
  destruct (Hok H2) as (_ & Hdoc & _).
  destruct (Hdoc m (Fixture.the_document m) Fixture.scan_bytes Fixture.world0 H3)
    as (Hrun & _); try reflexivity.
  split; [split_and!; assumption | exact Hrun].
Defined.

(** The request with an unsupported file does change the state: after it the
    dictionary holds [current_file_path] and the download is on disk.  And
    where the remote client cannot be built, the extraction of such a file
    raises instead of returning the notice. *)
Lemma C6_counterexample :
  let m := Fixture.upload "notes.txt" in
  let w' := snd (Bot.handle_document Fixture.cfg0 Fixture.env_ok m Fixture.world0) in
  endswith_any (py "downloads/notes.txt") recognized_suffixes = false
  /\ outbox w' = [processing_ack; Text (py "❌ Unsupported file format.")]
  /\ remote_calls w' = []
  /\ user_data Fixture.world0 !! py "current_file_path" = None
  /\ user_data w' !! py "current_file_path" = Some (py "downloads/notes.txt")
  /\ files Fixture.world0 !! py "downloads/notes.txt" = None
  /\ files w' !! py "downloads/notes.txt" = Some Fixture.scan_bytes
  /\ user_data w' <> user_data Fixture.world0
  /\ files w' <> files Fixture.world0
  /\ fst (Bot.process_document Fixture.cfg0 Fixture.env_no_client
            (py "downloads/notes.txt") w')
     = Raise (GoogleAPIError (py "Your default credentials were not found.")).
Proof.
  intros m w'.
  assert (Hu : user_data w' !! py "current_file_path" = Some (py "downloads/notes.txt"))
    by (vm_compute; reflexivity).
  assert (Hf : files w' !! py "downloads/notes.txt" = Some Fixture.scan_bytes)
    by (vm_compute; reflexivity).
  split_and!; try (vm_compute; reflexivity); try assumption.
  - intros Heq. rewrite Heq in Hu. vm_compute in Hu. discriminate Hu.
  - intros Heq. rewrite Heq in Hf. vm_compute in Hf. discriminate Hf.
Qed.

(** ** The cross mark as the error signal *)

Lemma stored_after_download (E : Env) (file_name t : str) (d : gmap str str) :
  stored (Bot.new_text_key E) t (<[py "current_file_path" := file_name]> d)
  = <[py "file_path_" ++ Bot.new_text_key E := file_name]>
      (<[Bot.new_text_key E := t]> (<[py "current_file_path" := file_name]> d)).
Proof.
  unfold stored. cbv zeta.
  rewrite lookup_insert_ne, lookup_insert_eq; [done|].
  intros Heq. symmetry in Heq.
  by apply session_key_not_current in Heq; [|apply new_text_key_is_session_key].
Qed.

Lemma file_path_key_not_key (K : str) : py "file_path_" ++ K <> K.
Proof. intros Heq. apply (f_equal length) in Heq. rewrite length_app in Heq. simpl in Heq. lia. Qed.

Section CrossMark.

Context (cfg : Config) (E : Env) (Hup : transport_up E).

Lemma handle_document_signal m f file_name c w t w3 :
  Bot.pick_file m = Ret f ->
  Bot.download_name m f = Ret file_name ->
  tg_get_file E (Bot.file_id f) = Ret c ->
  fs_write_error E file_name = None ->
  Bot.process_document cfg E file_name (downloaded file_name c w) = (Ret t, w3) ->
  let key := Bot.new_text_key E in
  let w' := snd (Bot.handle_document cfg E m w) in
  fst (Bot.handle_document cfg E m w) = Ret tt
  /\ (py_in (py "❌") t = false ->
      outbox w' = outbox w ++ [processing_ack;
                               Menu (py "📝 Choose an output format:") (Bot.output_keyboard key)]
      /\ user_data w' = <[py "file_path_" ++ key := file_name]>
                          (<[key := t]> (<[py "current_file_path" := file_name]> (user_data w)))
      /\ user_data w' !! key = Some t)
  /\ (py_in (py "❌") t = true ->
      outbox w' = outbox w ++ [processing_ack; Text t]
      /\ user_data w' = <[py "current_file_path" := file_name]> (user_data w)).
Proof.
  intros Hf Hn Hget Hwr Hrun key w'.
  pose proof (process_document_frame cfg E file_name (downloaded file_name c w)) as Hfr.
  rewrite Hrun in Hfr. cbn [snd] in Hfr. destruct Hfr as (Hud & _ & Hob & _).
  subst key w'.
  rewrite (handle_document_eq cfg E Hup m f file_name w Hf Hn).
  rewrite (handle_document_body_up cfg E Hup f file_name c w Hget Hwr).
  rewrite Hrun.
  destruct (py_in (py "❌") t); (split; [done|]); split; intros Hc; try discriminate.
  - revert Hud Hob. open_world. intros -> ->. cbn [snd outbox user_data].
    split; [by rewrite <- app_assoc | done].
  - revert Hud Hob. open_world. intros -> ->. cbn [snd outbox user_data].
    rewrite stored_after_download. split_and!.
    + by rewrite <- app_assoc.
    + done.
    + rewrite lookup_insert_ne by apply file_path_key_not_key. apply lookup_insert_eq.
Qed.

Lemma handle_output_choice_signal data text_key x file_path s w w3 :
  split 124 data = [py "output_summarize"; text_key] ->
  user_data w !! text_key = Some x -> x <> [] ->
  user_data w !! (py "file_path_" ++ text_key) = Some file_path -> file_path <> [] ->
  Bot.summarize_document cfg E file_path (delivered [Answer; summarizing_ack] w) = (Ret s, w3) ->
  let w' := snd (Bot.handle_output_choice cfg E data w) in
  fst (Bot.handle_output_choice cfg E data w) = Ret tt
  /\ (py_in (py "❌") s = false ->
      outbox w' = outbox w ++ [Answer; summarizing_ack;
                               Menu (py "📝 Choose an output format for the summary:")
                                 (Bot.summary_keyboard text_key)]
      /\ user_data w' = <[Bot.summary_key text_key := s]> (user_data w))
  /\ (py_in (py "❌") s = true ->
      outbox w' = outbox w ++ [Answer; summarizing_ack; Text s]
      /\ user_data w' = user_data w).
Proof.
  intros Hs Hk Hx Hp Hne Hrun w'.
  pose proof (summarize_document_frame cfg E file_path (delivered [Answer; summarizing_ack] w))
    as Hfr.
  rewrite Hrun in Hfr. cbn [snd] in Hfr. destruct Hfr as (Hud & _ & Hob & _).
  subst w'.
  rewrite (handle_output_choice_eq cfg E Hup).
  rewrite (handle_output_choice_body_hit cfg E data (py "output_summarize") text_key x);
    [|done..].
  rewrite (proj2 (str_eqb_eq _ _) eq_refl).
  rewrite (choice_summarize_up cfg E Hup text_key file_path); [|done..].
  rewrite delivered_app. change ([Answer] ++ _) with [Answer; summarizing_ack].
  rewrite Hrun.
  destruct (py_in (py "❌") s); (split; [done|]); split; intros Hc; try discriminate.
  - revert Hud Hob. open_world. intros -> ->. cbn [snd outbox user_data].
    split; [by rewrite <- !app_assoc | done].
  - revert Hud Hob. open_world. intros -> ->. cbn [snd outbox user_data].
    split; [by rewrite <- !app_assoc | done].
Qed.

End CrossMark.

(** C9: the cross mark in the returned text is the error signal.  When
    [process_document] returns a text, [handle_document] shows the menu and
    stores the text under the new key if the text does not contain the cross
    mark, and otherwise sends the text itself and stores nothing but the
    current file path; the summary flow stores the summary and shows its
    menu under the same condition, and otherwise sends the summary text and
    leaves the store as it was.  So a genuine text of a page that contains
    the cross mark is sent back as a notice and is not stored. *)
Theorem C9_cross_mark_decides_menu_and_storage (cfg : Config) (E : Env) :
  transport_up E ->
  (forall t : str, py_in (py "❌") t = true <-> 10060%N ∈ t)
  /\ (forall m f file_name c w t w3,
        Bot.pick_file m = Ret f ->
        Bot.download_name m f = Ret file_name ->
        tg_get_file E (Bot.file_id f) = Ret c ->
        fs_write_error E file_name = None ->
        Bot.process_document cfg E file_name (downloaded file_name c w) = (Ret t, w3) ->
        let key := Bot.new_text_key E in
        let w' := snd (Bot.handle_document cfg E m w) in
        fst (Bot.handle_document cfg E m w) = Ret tt
        /\ (py_in (py "❌") t = false ->
            outbox w' = outbox w ++ [processing_ack;
                                     Menu (py "📝 Choose an output format:")
                                       (Bot.output_keyboard key)]
            /\ user_data w' = <[py "file_path_" ++ key := file_name]>
                                (<[key := t]>
                                   (<[py "current_file_path" := file_name]> (user_data w)))
            /\ user_data w' !! key = Some t)
        /\ (py_in (py "❌") t = true ->
            outbox w' = outbox w ++ [processing_ack; Text t]
            /\ user_data w' = <[py "current_file_path" := file_name]> (user_data w)))
  /\ (forall data text_key x file_path s w w3,
        split 124 data = [py "output_summarize"; text_key] ->
        user_data w !! text_key = Some x -> x <> [] ->
        user_data w !! (py "file_path_" ++ text_key) = Some file_path -> file_path <> [] ->
        Bot.summarize_document cfg E file_path (delivered [Answer; summarizing_ack] w)
        = (Ret s, w3) ->
        let w' := snd (Bot.handle_output_choice cfg E data w) in
        fst (Bot.handle_output_choice cfg E data w) = Ret tt
        /\ (py_in (py "❌") s = false ->
            outbox w' = outbox w ++ [Answer; summarizing_ack;
                                     Menu (py "📝 Choose an output format for the summary:")
                                       (Bot.summary_keyboard text_key)]
            /\ user_data w' = <[Bot.summary_key text_key := s]> (user_data w))
        /\ (py_in (py "❌") s = true ->
            outbox w' = outbox w ++ [Answer; summarizing_ack; Text s]
            /\ user_data w' = user_data w))
  /\ (forall m f file_name c mime d w,
        Bot.pick_file m = Ret f ->
        Bot.download_name m f = Ret file_name ->
        tg_get_file E (Bot.file_id f) = Ret c ->
        fs_write_error E file_name = None ->
        docai_client_error E = None ->
        Bot.detect_mime file_name = Some mime ->
        docai_process E (extract_request cfg c mime) = Ret d ->
        blank (text d) = false ->
        10060%N ∈ text d ->
        let w' := snd (Bot.handle_document cfg E m w) in
        outbox w' = outbox w ++ [processing_ack; Text (text d)]
        /\ user_data w' = <[py "current_file_path" := file_name]> (user_data w)).
Proof.
  intros Hup. split_and!.
  - intros t. change (py "❌") with [10060%N]. apply py_in_single.
  - intros m f file_name c w t w3. apply (handle_document_signal cfg E Hup).
  - intros data text_key x file_path s w w3. apply (handle_output_choice_signal cfg E Hup).
  - intros m f file_name c mime d w Hf Hn Hget Hwr Hcl Hm Hd Hb Hin.
    assert (Hrun : Bot.process_document cfg E file_name (downloaded file_name c w)
                   = (Ret (text d), issued (extract_request cfg c mime)
                                      (downloaded file_name c w))).
    { rewrite (process_document_result cfg E Hcl file_name c mime d); [| |done..].
      - destruct (strip (text d)) eqn:Hst; [|done].
        apply strip_nil_iff in Hst. congruence.
      - open_world. apply lookup_insert_eq. }
    destruct (handle_document_signal cfg E Hup m f file_name c w _ _ Hf Hn Hget Hwr Hrun)
      as (_ & _ & Hbad).
    apply Hbad. change (py "❌") with [10060%N]. by apply py_in_single.
Qed.

Lemma C9_witness :
  let E := Fixture.env_doc Fixture.ballot_doc in
  let m := Fixture.upload "scan.pdf" in
  let file_name := py "downloads/scan.pdf" in
  let rq := extract_request Fixture.cfg0 Fixture.scan_bytes (py "application/pdf") in
  let w' := snd (Bot.handle_document Fixture.cfg0 E m Fixture.world0) in
  (transport_up E
   /\ docai_process E rq = Ret Fixture.ballot_doc
   /\ blank (text Fixture.ballot_doc) = false
   /\ 10060%N ∈ text Fixture.ballot_doc)
  /\ outbox w' = outbox Fixture.world0 ++ [processing_ack; Text (text Fixture.ballot_doc)]
  /\ user_data w' = <[py "current_file_path" := file_name]> (user_data Fixture.world0).
Proof.
  intros E m file_name rq w'.
  assert (H1 : transport_up E) by (intros o; reflexivity).
  assert (H2 : docai_process E rq = Ret Fixture.ballot_doc) by reflexivity.
  assert (H3 : blank (text Fixture.ballot_doc) = false) by reflexivity.
  assert (H4 : 10060%N ∈ text Fixture.ballot_doc).
  { apply py_in_single. reflexivity. }
  destruct (C9_cross_mark_decides_menu_and_storage Fixture.cfg0 E H1) as (_ & _ & _ & Hlegit).
  split; [split_and!; assumption|].
  apply (Hlegit m (Fixture.the_document m) file_name Fixture.scan_bytes
           (py "application/pdf") Fixture.ballot_doc Fixture.world0);
    try reflexivity; assumption.
Defined.

(** ** Properties of the world that the handlers keep *)

Section Preserves.

Context (I : World -> Prop).

(** [I] does not look at the outbox, the log or the issued requests; it
    survives a write to the dictionary at the keys [ud_ok] and a write of a
    file at the paths [fs_ok]. *)
Context (ud_ok fs_ok : str -> Prop).
Context (I_outbox : forall f w, I w -> I (with_outbox f w)).
Context (I_log : forall f w, I w -> I (with_log f w)).
Context (I_remote : forall f w, I w -> I (with_remote_calls f w)).
Context (I_ud : forall k v w, ud_ok k -> I w ->
                              I (with_user_data (fun d => <[k := v]> d) w)).
Context (I_fs : forall p c w, fs_ok p -> I w ->
                              I (with_files (fun fs => <[p := c]> fs) w)).

Lemma preserves_ret {A} (a : A) : preserves I (ret a).
Proof. by intros w Hw. Qed.

Lemma preserves_raise {A} (e : exn) : preserves I (@raise A e).
Proof. by intros w Hw. Qed.

Lemma preserves_lift {A} (o : outcome A) : preserves I (lift o).
Proof. by intros w Hw. Qed.

Lemma preserves_bind {A B} (m : M A) (k : A -> M B) :
  preserves I m -> (forall a, preserves I (k a)) -> preserves I (bind m k).
Proof.
  intros Hm Hk w Hw. specialize (Hm w Hw). rewrite bind_eq.
  destruct (m w) as [[a|e] w1]; cbn [snd] in *; [by apply Hk | done].
Qed.

Lemma preserves_try_except {A} (m : M A) (h : exn -> M A) :
  preserves I m -> (forall e, preserves I (h e)) -> preserves I (try_except m h).
Proof.
  intros Hm Hh w Hw. specialize (Hm w Hw). rewrite try_except_eq.
  destruct (m w) as [[a|e] w1]; cbn [snd] in *; [done | by apply Hh].
Qed.

Lemma preserves_for_each {A} (l : list A) (body : A -> M unit) :
  (forall x, preserves I (body x)) -> preserves I (for_each l body).
Proof.
  intros Hb. induction l as [|x l IH]; cbn [for_each].
  - apply preserves_ret.
  - apply preserves_bind; [apply Hb | by intros _].
Qed.

Section Primitives.

Context (E : Env).

Lemma preserves_send o : preserves I (send E o).
Proof. intros w Hw. unfold send. destruct (tg_send_error E o); cbn [snd]; auto. Qed.

Lemma preserves_reply_text body : preserves I (reply_text E body).
Proof. apply preserves_send. Qed.

Lemma preserves_reply_markup body kb : preserves I (reply_markup E body kb).
Proof. apply preserves_send. Qed.

Lemma preserves_reply_document fn c cap : preserves I (reply_document E fn c cap).
Proof. apply preserves_send. Qed.

Lemma preserves_logging_error msg : preserves I (logging_error msg).
Proof. intros w Hw. cbn [logging_error snd]. auto. Qed.

Lemma preserves_user_data_get k : preserves I (user_data_get k).
Proof. by intros w Hw. Qed.

Lemma preserves_user_data_set k v : ud_ok k -> preserves I (user_data_set k v).
Proof. intros Hk w Hw. cbn [user_data_set snd]. auto. Qed.

Lemma preserves_write_file p c : fs_ok p -> preserves I (write_file E p c).
Proof.
  intros Hp w Hw. unfold write_file. destruct (fs_write_error E p); cbn [snd]; auto.
Qed.

Lemma preserves_read_file p : preserves I (read_file p).
Proof. intros w Hw. unfold read_file. by destruct (files w !! p). Qed.

Lemma preserves_make_client : preserves I (make_client E).
Proof. intros w Hw. unfold make_client. by destruct (docai_client_error E). Qed.

Lemma preserves_client_process_document rq : preserves I (client_process_document E rq).
Proof. intros w Hw. unfold client_process_document. cbn [snd]. auto. Qed.

Lemma preserves_add_paragraph t : preserves I (add_paragraph E t).
Proof. intros w Hw. unfold add_paragraph. by destruct (docx_error E t). Qed.

End Primitives.

End Preserves.

Ltac preserves_step :=
  match goal with
  | |- preserves _ (ret _) => apply preserves_ret
  | |- preserves _ (raise _) => apply preserves_raise
  | |- preserves _ (lift _) => apply preserves_lift
  | |- preserves _ (send _ _) => apply preserves_send; assumption
  | |- preserves _ (reply_text _ _) => apply preserves_reply_text; assumption
  | |- preserves _ (reply_markup _ _ _) => apply preserves_reply_markup; assumption
  | |- preserves _ (reply_document _ _ _ _) => apply preserves_reply_document; assumption
  | |- preserves _ (logging_error _) => apply preserves_logging_error; assumption
  | |- preserves _ (user_data_get _) => apply preserves_user_data_get
  | |- preserves _ (read_file _) => apply preserves_read_file
  | |- preserves _ (make_client _) => apply preserves_make_client
  | |- preserves _ (client_process_document _ _) =>
      apply preserves_client_process_document; assumption
  | |- preserves _ (add_paragraph _ _) => apply preserves_add_paragraph
  | |- preserves _ (bind _ _) => apply preserves_bind; [|intros ?]
  | |- preserves _ (try_except _ _) => apply preserves_try_except; [|intros ?]
  | |- preserves _ (for_each _ _) => apply preserves_for_each; intros ?
  | |- preserves _ (if ?b then _ else _) => destruct b
  | |- preserves _ (match ?x with _ => _ end) => destruct x
  end.

Section PreservesBot.

Context (I : World -> Prop) (ud_ok fs_ok : str -> Prop).
Context (I_outbox : forall f w, I w -> I (with_outbox f w)).
Context (I_log : forall f w, I w -> I (with_log f w)).
Context (I_remote : forall f w, I w -> I (with_remote_calls f w)).
Context (I_ud : forall k v w, ud_ok k -> I w ->
                              I (with_user_data (fun d => <[k := v]> d) w)).
Context (I_fs : forall p c w, fs_ok p -> I w ->
                              I (with_files (fun fs => <[p := c]> fs) w)).
Context (cfg : Config) (E : Env).

Lemma preserves_process_document file_path :
  preserves I (Bot.process_document cfg E file_path).
Proof. unfold Bot.process_document. repeat preserves_step. Qed.

Lemma preserves_summarize_document file_path :
  preserves I (Bot.summarize_document cfg E file_path).
Proof. unfold Bot.summarize_document. repeat preserves_step. Qed.

Lemma preserves_send_text_chunks t n : preserves I (Bot.send_text_chunks E t n).
Proof. unfold Bot.send_text_chunks. repeat preserves_step. Qed.

Lemma preserves_save_as_docx t file_name :
  fs_ok (py "outputs/" ++ file_name) -> preserves I (Bot.save_as_docx E t file_name).
Proof.
  intros Hp. unfold Bot.save_as_docx. repeat preserves_step.
  by apply (preserves_write_file I fs_ok I_fs).
Qed.

Lemma preserves_send_output_options t :
  ud_ok (Bot.new_text_key E) -> ud_ok (py "file_path_" ++ Bot.new_text_key E) ->
  preserves I (Bot.send_output_options E t).
Proof.
  intros H1 H2. unfold Bot.send_output_options.
  repeat preserves_step; by apply (preserves_user_data_set I ud_ok I_ud).
Qed.

Lemma preserves_handle_document m :
  (forall f file_name, Bot.download_name m f = Ret file_name -> fs_ok file_name) ->
  ud_ok (py "current_file_path") ->
  ud_ok (Bot.new_text_key E) -> ud_ok (py "file_path_" ++ Bot.new_text_key E) ->
  preserves I (Bot.handle_document cfg E m).
Proof.
  intros Hfs H0 H1 H2 w Hw. unfold Bot.handle_document. rewrite bind_eq. cbn [lift].
  destruct (Bot.pick_file m) as [f|e]; [|done].
  rewrite bind_eq. cbn [lift].
  destruct (Bot.download_name m f) as [file_name|e] eqn:Hn; [|done].
  revert w Hw. change (preserves I (try_except (Bot.handle_document_body cfg E f file_name)
    (fun e => bind (logging_error (py "Error processing file: " ++ exn_str e))
       (fun _ => reply_text E
          (py "❌ An error occurred while processing the document. Please try again!"))))).
  unfold Bot.handle_document_body. repeat preserves_step.
  - apply (preserves_write_file I fs_ok I_fs). by eapply Hfs.
  - by apply (preserves_user_data_set I ud_ok I_ud).
  - by apply preserves_process_document.
  - by apply preserves_send_output_options.
Qed.

(** The same for the file that the message names. *)
Lemma preserves_handle_document_at m f file_name :
  Bot.pick_file m = Ret f -> Bot.download_name m f = Ret file_name ->
  fs_ok file_name ->
  ud_ok (py "current_file_path") ->
  ud_ok (Bot.new_text_key E) -> ud_ok (py "file_path_" ++ Bot.new_text_key E) ->
  preserves I (Bot.handle_document cfg E m).
Proof.
  intros Hf Hn Hfs H0 H1 H2 w Hw. unfold Bot.handle_document.
  rewrite bind_eq, Hf. cbn [lift]. rewrite bind_eq, Hn. cbn [lift].
  revert w Hw. change (preserves I (try_except (Bot.handle_document_body cfg E f file_name)
    (fun e => bind (logging_error (py "Error processing file: " ++ exn_str e))
       (fun _ => reply_text E
          (py "❌ An error occurred while processing the document. Please try again!"))))).
  unfold Bot.handle_document_body. repeat preserves_step.
  - by apply (preserves_write_file I fs_ok I_fs).
  - by apply (preserves_user_data_set I ud_ok I_ud).
  - by apply preserves_process_document.
  - by apply preserves_send_output_options.
Qed.

Lemma preserves_choice_summarize text_key :
  ud_ok (Bot.summary_key text_key) -> preserves I (Bot.choice_summarize cfg E text_key).
Proof.
  intros Hk. unfold Bot.choice_summarize. repeat preserves_step.
  - by apply preserves_summarize_document.
  - by apply (preserves_user_data_set I ud_ok I_ud).
Qed.

(** What [choice_summary_format] does after it has written the TXT file. *)
Lemma preserves_summary_delivery option text_key summary :
  fs_ok (py "outputs/" ++ (py "summary_" ++ text_key ++ py ".docx")) ->
  preserves I
    (if str_eqb option (py "summary_message") then
       Bot.send_text_chunks E (py "📝 **Document Summary:**" ++ nl ++ nl ++ summary)
         Bot.default_chunk_size
     else if str_eqb option (py "summary_txt") then
       bind (read_file (py "outputs/summary_" ++ text_key ++ py ".txt"))
         (fun doc => reply_document E (py "document_summary.txt") doc
                       (py "📄 Here is your document summary."))
     else if str_eqb option (py "summary_docx") then
       bind (Bot.save_as_docx E summary (py "summary_" ++ text_key ++ py ".docx"))
         (fun docx_file_path =>
            bind (read_file docx_file_path)
              (fun doc => reply_document E (py "document_summary.docx") doc
                            (py "📜 Here is your document summary as a Word document.")))
     else ret tt).
Proof.
  intros Hd. repeat preserves_step.
  - by apply preserves_send_text_chunks.
  - by apply preserves_save_as_docx.
Qed.

Lemma preserves_choice_summary_format option text_key :
  fs_ok (py "outputs/summary_" ++ text_key ++ py ".txt") ->
  fs_ok (py "outputs/" ++ (py "summary_" ++ text_key ++ py ".docx")) ->
  preserves I (Bot.choice_summary_format E option text_key).
Proof.
  intros Ht Hd. unfold Bot.choice_summary_format.
  apply preserves_bind; [apply preserves_user_data_get | intros stored].
  destruct (negb _); [by apply preserves_reply_text|].
  apply preserves_bind; [by apply (preserves_write_file I fs_ok I_fs) | intros _].
  by apply preserves_summary_delivery.
Qed.

(** What [choice_primary_format] does after it has written the TXT file. *)
Lemma preserves_primary_delivery option text_key extracted_text :
  fs_ok (py "outputs/" ++ (text_key ++ py ".docx")) ->
  preserves I
    (if str_eqb option (py "output_message") then
       Bot.send_text_chunks E (py "📜 **Extracted Text:**" ++ nl ++ nl ++ extracted_text)
         Bot.default_chunk_size
     else if str_eqb option (py "output_txt") then
       bind (read_file (py "outputs/" ++ text_key ++ py ".txt"))
         (fun doc => reply_document E (py "extracted_text.txt") doc
                       (py "📄 Here is your extracted text file."))
     else if str_eqb option (py "output_both") then
       bind (Bot.send_text_chunks E
               (py "📜 **Extracted Text:**" ++ nl ++ nl ++ extracted_text)
               Bot.default_chunk_size)
         (fun _ =>
            bind (read_file (py "outputs/" ++ text_key ++ py ".txt"))
              (fun doc => reply_document E (py "extracted_text.txt") doc
                            (py "📄 Here is your extracted text file.")))
     else if str_eqb option (py "output_docx") then
       bind (Bot.save_as_docx E extracted_text (text_key ++ py ".docx"))
         (fun docx_file_path =>
            bind (read_file docx_file_path)
              (fun doc => reply_document E (py "extracted_text.docx") doc
                            (py "📜 Here is your extracted text as a Word document.")))
     else reply_text E (py "❌ Invalid option.")).
Proof.
  intros Hd. repeat preserves_step.
  - by apply preserves_send_text_chunks.
  - by apply preserves_send_text_chunks.
  - by apply preserves_save_as_docx.
Qed.

Lemma preserves_choice_primary_format option text_key extracted_text :
  fs_ok (py "outputs/" ++ text_key ++ py ".txt") ->
  fs_ok (py "outputs/" ++ (text_key ++ py ".docx")) ->
  preserves I (Bot.choice_primary_format E option text_key extracted_text).
Proof.
  intros Ht Hd. unfold Bot.choice_primary_format.
  apply preserves_bind; [by apply (preserves_write_file I fs_ok I_fs) | intros _].
  by apply preserves_primary_delivery.
Qed.

Lemma preserves_handle_output_choice data :
  (forall option text_key, split 124 data = [option; text_key] ->
     ud_ok (Bot.summary_key text_key)
     /\ fs_ok (py "outputs/summary_" ++ text_key ++ py ".txt")
     /\ fs_ok (py "outputs/" ++ (py "summary_" ++ text_key ++ py ".docx"))
     /\ fs_ok (py "outputs/" ++ text_key ++ py ".txt")
     /\ fs_ok (py "outputs/" ++ (text_key ++ py ".docx"))) ->
  preserves I (Bot.handle_output_choice cfg E data).
Proof.
  intros Hok. unfold Bot.handle_output_choice.
  apply preserves_bind; [by apply preserves_send | intros _].
  apply preserves_try_except;
    [|intros e; apply preserves_bind;
      [by apply preserves_logging_error | intros _; by apply preserves_reply_text]].
  unfold Bot.handle_output_choice_body.
  intros w Hw. rewrite bind_eq. cbn [lift]. unfold Bot.unpack2.
  destruct (split 124 data) as [|option [|text_key [|x parts]]] eqn:Hs; try done.
  destruct (Hok option text_key eq_refl) as (H1 & H2 & H3 & H4 & H5).
  revert w Hw.
  match goal with |- forall w, I w -> I (snd (?m w)) => change (preserves I m) end.
  repeat preserves_step.
  - by apply preserves_choice_summarize.
  - by apply preserves_choice_summary_format.
  - by apply preserves_choice_primary_format.
Qed.

Lemma preserves_dispatch u :
  (forall m, u = Bot.FileMessage m ->
     (forall f file_name, Bot.download_name m f = Ret file_name -> fs_ok file_name)
     /\ ud_ok (py "current_file_path")
     /\ ud_ok (Bot.new_text_key E) /\ ud_ok (py "file_path_" ++ Bot.new_text_key E)) ->
  (forall data option text_key,
     u = Bot.CallbackQuery data -> split 124 data = [option; text_key] ->
     ud_ok (Bot.summary_key text_key)
     /\ fs_ok (py "outputs/summary_" ++ text_key ++ py ".txt")
     /\ fs_ok (py "outputs/" ++ (py "summary_" ++ text_key ++ py ".docx"))
     /\ fs_ok (py "outputs/" ++ text_key ++ py ".txt")
     /\ fs_ok (py "outputs/" ++ (text_key ++ py ".docx"))) ->
  preserves I (Bot.dispatch cfg E u).
Proof.
  intros Hm Hc. destruct u as [|m|data]; cbn [Bot.dispatch].
  - by apply preserves_reply_text.
  - destruct (Hm m eq_refl) as (? & ? & ? & ?). by apply preserves_handle_document.
  - apply preserves_handle_output_choice. intros option text_key Hs. by eapply Hc.
Qed.

End PreservesBot.

(** ** The text stored under a session key *)

Lemma dispatch_keeps_primary_text (cfg : Config) (E : Env) (u : Bot.update) (K T : str) :
  is_session_key K = true ->
  (forall m, u = Bot.FileMessage m -> Bot.new_text_key E <> K) ->
  preserves (fun w => user_data w !! K = Some T) (Bot.dispatch cfg E u).
Proof.
  intros HK Hfresh.
  apply preserves_dispatch with (ud_ok := fun k => k <> K) (fs_ok := fun _ => True);
    try done.
  - intros k v w Hk Hw. open_world. by rewrite lookup_insert_ne.
  - intros m Hm. split_and!; [done | | |].
    + by apply session_key_not_current.
    + by eapply Hfresh.
    + by apply session_key_not_file_path.
  - intros data option text_key _ _. split_and!; [|done..].
    by apply session_key_not_summary.
Qed.

(** C7 (as the code has it): the text stored under a session key [K] stays
    as it is through every later update -- a start command, a button press
    with any callback data, the summary flow, an upload -- as long as no
    later upload mints [K] again; summaries and file paths are written under
    other keys. *)
Theorem C7_primary_text_kept_unless_key_minted_again
    (cfg : Config) (evs : list (Env * Bot.update)) (w : World) (K T : str) :
  is_session_key K = true ->
  user_data w !! K = Some T ->
  mints_other K evs = true ->
  user_data (Bot.run cfg evs w) !! K = Some T.
Proof.
  intros HK. revert w. induction evs as [|[E u] evs IH]; intros w Hw Hm; cbn [Bot.run].
  - done.
  - cbn [mints_other forallb fst snd] in Hm. apply andb_true_iff in Hm as [Hu Hm].
    apply IH; [|done].
    apply (dispatch_keeps_primary_text cfg E u K T HK); [|done].
    intros m ->. by apply negb_true_iff, str_eqb_neq in Hu.
Qed.

Lemma C7_witness :
  let K := py "ab12cd34" in
  let w1 := Bot.run Fixture.cfg0
              [(Fixture.env_ok, Bot.FileMessage (Fixture.upload "scan.pdf"))]
              Fixture.world0 in
  let evs := [ (Fixture.env_doc Fixture.summary_ab_doc,
                Bot.CallbackQuery (py "output_summarize|ab12cd34"));
               (Fixture.env_ok, Bot.CallbackQuery (py "summary_docx|ab12cd34"));
               (Fixture.env_ok, Bot.CallbackQuery (py "output_both|ab12cd34"));
               (Fixture.env_other, Bot.FileMessage (Fixture.upload "memo.pdf"));
               (Fixture.env_ok, Bot.CallbackQuery (py "output_txt|summary_ab12cd34")) ] in
  (is_session_key K = true
   /\ user_data w1 !! K = Some (py "Hello world")
   /\ mints_other K evs = true)
  /\ user_data (Bot.run Fixture.cfg0 evs w1) !! K = Some (py "Hello world").
Proof.
  intros K w1 evs.
  assert (H1 : is_session_key K = true) by reflexivity.
  assert (H2 : user_data w1 !! K = Some (py "Hello world")) by (vm_compute; reflexivity).
  assert (H3 : mints_other K evs = true) by (vm_compute; reflexivity).
  split; [split_and!; assumption|].
  exact (C7_primary_text_kept_unless_key_minted_again Fixture.cfg0 evs w1 K
           (py "Hello world") H1 H2 H3).
Defined.

(** A later upload for which [uuid4] yields the same first eight digits
    replaces the text stored under the key. *)
Lemma C7_counterexample :
  let K := py "ab12cd34" in
  let w1 := Bot.run Fixture.cfg0
              [(Fixture.env_ok, Bot.FileMessage (Fixture.upload "scan.pdf"))]
              Fixture.world0 in
  let w2 := Bot.run Fixture.cfg0
              [(Fixture.env_doc Fixture.second_doc,
                Bot.FileMessage (Fixture.upload "memo.pdf"))]
              w1 in
  is_session_key K = true
  /\ Bot.new_text_key Fixture.env_ok = K
  /\ Bot.new_text_key (Fixture.env_doc Fixture.second_doc) = K
  /\ user_data w1 !! K = Some (py "Hello world")
  /\ user_data w2 !! K = Some (py "Second page")
  /\ user_data w2 !! K <> user_data w1 !! K.
Proof.
  intros K w1 w2.
  assert (H1 : user_data w1 !! K = Some (py "Hello world")) by (vm_compute; reflexivity).
  assert (H2 : user_data w2 !! K = Some (py "Second page")) by (vm_compute; reflexivity).
  split_and!; try (vm_compute; reflexivity); try assumption.
  rewrite H1, H2. discriminate.
Qed.

(** ** The TXT file written before the delivery *)

Lemma txt_path_not_docx (text_key : str) :
  py "outputs/" ++ (text_key ++ py ".docx") <> txt_path text_key.
Proof.
  unfold txt_path. intros Heq. apply (f_equal length) in Heq.
  rewrite !length_app in Heq. simpl in Heq. lia.
Qed.

Lemma summary_txt_path_not_docx (text_key : str) :
  py "outputs/" ++ (py "summary_" ++ text_key ++ py ".docx") <> summary_txt_path text_key.
Proof.
  unfold summary_txt_path. intros Heq. apply (f_equal length) in Heq.
  rewrite !length_app in Heq. simpl in Heq. lia.
Qed.

Lemma summary_prefix_not_summarize (option : str) :
  startswith option (py "summary_") = true -> str_eqb option (py "output_summarize") = false.
Proof.
  intros Hs. apply str_eqb_neq. intros ->. vm_compute in Hs. discriminate.
Qed.

Section TxtFile.

Context (cfg : Config) (E : Env).

Lemma holds_other_write p c q c' w :
  q <> p -> holds p c w -> holds p c (with_files (fun fs => <[q := c']> fs) w).
Proof. intros Hq Hw. unfold holds. open_world. by rewrite lookup_insert_ne. Qed.

Lemma choice_primary_format_writes option text_key t w :
  fs_write_error E (txt_path text_key) = None ->
  holds (txt_path text_key) (Utf8 t)
    (snd (Bot.choice_primary_format E option text_key t w)).
Proof.
  intros Hwr. unfold Bot.choice_primary_format. rewrite bind_eq.
  unfold write_file at 1. fold (txt_path text_key). rewrite Hwr. cbv beta iota.
  apply (preserves_primary_delivery (holds (txt_path text_key) (Utf8 t))
           (fun q => q <> txt_path text_key)); try done.
  - intros p c w0. by apply holds_other_write.
  - apply txt_path_not_docx.
  - unfold holds. open_world. apply lookup_insert_eq.
Qed.

Lemma choice_summary_format_writes option text_key s w :
  user_data w !! Bot.summary_key text_key = Some s -> s <> [] ->
  fs_write_error E (summary_txt_path text_key) = None ->
  holds (summary_txt_path text_key) (Utf8 s)
    (snd (Bot.choice_summary_format E option text_key w)).
Proof.
  intros Hk Hs Hwr. unfold Bot.choice_summary_format. run. rewrite Hk. run.
  destruct s as [|c0 s]; [done|]. cbn [truthy negb]. rewrite bind_eq.
  unfold write_file at 1. fold (summary_txt_path text_key). rewrite Hwr. cbv beta iota.
  apply (preserves_summary_delivery (holds (summary_txt_path text_key) (Utf8 (c0 :: s)))
           (fun q => q <> summary_txt_path text_key)); try done.
  - intros p c w0. by apply holds_other_write.
  - apply summary_txt_path_not_docx.
  - unfold holds. open_world. apply lookup_insert_eq.
Qed.

(** The acknowledgement and the [except] clause change only the outbox and
    the log. *)
Lemma handle_output_choice_around data w (P : World -> Prop) :
  tg_send_error E Answer = None ->
  (forall f w0, P w0 -> P (with_outbox f w0)) ->
  (forall f w0, P w0 -> P (with_log f w0)) ->
  P (snd (Bot.handle_output_choice_body cfg E data (delivered [Answer] w))) ->
  P (snd (Bot.handle_output_choice cfg E data w)).
Proof.
  intros Hans Pout Plog Hbody. unfold Bot.handle_output_choice. rewrite bind_eq.
  unfold send at 1. rewrite Hans. cbv beta iota. rewrite try_except_eq.
  fold (delivered [Answer] w).
  destruct (Bot.handle_output_choice_body cfg E data (delivered [Answer] w))
    as [[u|e] w1]; cbn [snd] in *; [done|].
  rewrite bind_eq. cbn [logging_error]. unfold reply_text, send.
  destruct (tg_send_error E (Text _)); cbn [snd]; auto.
Qed.

End TxtFile.

(** C10: a callback whose key resolves and whose option is neither
    "output_summarize" nor prefixed "summary_" leaves the full extracted
    text in [outputs/<key>.txt], whatever the option and whatever the chat
    does with the messages that follow the acknowledgement; the
    message-only choice and an unknown label ("Invalid option") are such
    options.  A summary choice whose summary resolves leaves the summary in
    [outputs/summary_<key>.txt], message-only delivery included. *)
Theorem C10_txt_file_written_for_every_resolved_choice
    (cfg : Config) (E : Env) (data option text_key t : str) (w : World) :
  tg_send_error E Answer = None ->
  split 124 data = [option; text_key] ->
  user_data w !! text_key = Some t -> t <> [] ->
  (option <> py "output_summarize" ->
   startswith option (py "summary_") = false ->
   fs_write_error E (txt_path text_key) = None ->
   files (snd (Bot.handle_output_choice cfg E data w)) !! txt_path text_key = Some (Utf8 t)
   /\ (transport_up E -> option = py "output_message" ->
       Bot.handle_output_choice cfg E data w
       = (Ret tt,
          delivered
            (Answer :: map Text (chunks (py "📜 **Extracted Text:**" ++ nl ++ nl ++ t)
                                   Bot.default_chunk_size))
            (with_files (fun fs => <[txt_path text_key := Utf8 t]> fs) w)))
   /\ (transport_up E -> option ∉ primary_options ->
       Bot.handle_output_choice cfg E data w
       = (Ret tt,
          delivered [Answer; Text (py "❌ Invalid option.")]
            (with_files (fun fs => <[txt_path text_key := Utf8 t]> fs) w))))
  /\ (forall s,
        startswith option (py "summary_") = true ->
        user_data w !! Bot.summary_key text_key = Some s -> s <> [] ->
        fs_write_error E (summary_txt_path text_key) = None ->
        files (snd (Bot.handle_output_choice cfg E data w)) !! summary_txt_path text_key
        = Some (Utf8 s)
        /\ (transport_up E -> option = py "summary_message" ->
            Bot.handle_output_choice cfg E data w
            = (Ret tt,
               delivered
                 (Answer :: map Text (chunks (py "📝 **Document Summary:**" ++ nl ++ nl ++ s)
                                        Bot.default_chunk_size))
                 (with_files (fun fs => <[summary_txt_path text_key := Utf8 s]> fs) w)))).
Proof.
  intros Hans Hs Hk Ht.
  assert (Hbody : Bot.handle_output_choice_body cfg E data (delivered [Answer] w)
                  = if str_eqb option (py "output_summarize")
                    then Bot.choice_summarize cfg E text_key (delivered [Answer] w)
                    else if startswith option (py "summary_")
                         then Bot.choice_summary_format E option text_key (delivered [Answer] w)
                         else Bot.choice_primary_format E option text_key t
                                (delivered [Answer] w)).
  { by apply (handle_output_choice_body_hit cfg E data option text_key t). }
  split.
  - intros Hnot Hpre Hwr. apply str_eqb_neq in Hnot.
    rewrite Hnot, Hpre in Hbody. split_and!.
    + apply (handle_output_choice_around cfg E data w
               (holds (txt_path text_key) (Utf8 t))); try done.
      rewrite Hbody. by apply choice_primary_format_writes.
    + intros Hup ->. rewrite (handle_output_choice_eq cfg E Hup), Hbody.
      unfold Bot.choice_primary_format. rewrite bind_eq. unfold write_file at 1.
      fold (txt_path text_key). rewrite Hwr. cbv beta iota.
      rewrite (proj2 (str_eqb_eq _ _) eq_refl).
      rewrite (send_text_chunks_up E Hup). f_equal. same_world.
    + intros Hup Hnone. rewrite (handle_output_choice_eq cfg E Hup), Hbody.
      unfold Bot.choice_primary_format. rewrite bind_eq. unfold write_file at 1.
      fold (txt_path text_key). rewrite Hwr. cbv beta iota.
      unfold primary_options in Hnone.
      rewrite !not_elem_of_cons in Hnone. destruct Hnone as (N1 & N2 & N3 & N4 & _).
      apply str_eqb_neq in N1, N2, N3, N4. rewrite N1, N2, N3, N4.
      rewrite (reply_text_up E Hup). f_equal. same_world.
  - intros s Hpre Hsum Hne Hwr.
    rewrite (summary_prefix_not_summarize option Hpre), Hpre in Hbody. split.
    + apply (handle_output_choice_around cfg E data w
               (holds (summary_txt_path text_key) (Utf8 s))); try done.
      rewrite Hbody. by apply choice_summary_format_writes.
    + intros Hup ->. rewrite (handle_output_choice_eq cfg E Hup), Hbody.
      unfold Bot.choice_summary_format. run.
      change (user_data (delivered [Answer] w)) with (user_data w). rewrite Hsum. run.
      destruct s as [|c0 s]; [done|]. cbn [truthy negb]. rewrite bind_eq.
      unfold write_file at 1. fold (summary_txt_path text_key). rewrite Hwr.
      cbv beta iota. rewrite (proj2 (str_eqb_eq _ _) eq_refl).
      rewrite (send_text_chunks_up E Hup). f_equal. same_world.
Qed.

Lemma C10_witness :
  let data := py "output_message|ab12cd34" in
  let w' := snd (Bot.handle_output_choice Fixture.cfg0 Fixture.env_mute data
                   Fixture.world_hello) in
  (tg_send_error Fixture.env_mute Answer = None
   /\ split 124 data = [py "output_message"; py "ab12cd34"]
   /\ user_data Fixture.world_hello !! py "ab12cd34" = Some (py "Hello world")
   /\ py "Hello world" <> []
   /\ py "output_message" <> py "output_summarize"
   /\ startswith (py "output_message") (py "summary_") = false
   /\ fs_write_error Fixture.env_mute (txt_path (py "ab12cd34")) = None)
  /\ files w' !! txt_path (py "ab12cd34") = Some (Utf8 (py "Hello world")).
Proof.
  intros data w'.
  assert (H1 : tg_send_error Fixture.env_mute Answer = None) by reflexivity.
  assert (H2 : split 124 data = [py "output_message"; py "ab12cd34"]) by reflexivity.
  assert (H3 : user_data Fixture.world_hello !! py "ab12cd34" = Some (py "Hello world"))
    by (vm_compute; reflexivity).
  assert (H4 : py "Hello world" <> []) by discriminate.
  assert (H5 : py "output_message" <> py "output_summarize") by discriminate.
  assert (H6 : startswith (py "output_message") (py "summary_") = false) by reflexivity.
  assert (H7 : fs_write_error Fixture.env_mute (txt_path (py "ab12cd34")) = None)
    by reflexivity.
  destruct (C10_txt_file_written_for_every_resolved_choice Fixture.cfg0 Fixture.env_mute
              data (py "output_message") (py "ab12cd34") (py "Hello world")
              Fixture.world_hello H1 H2 H3 H4) as (Hprim & _).
  destruct (Hprim H5 H6 H7) as (Hfile & _).
  split; [split_and!; assumption | exact Hfile].
Defined.

(** ** Failures inside the handlers *)

Section Failures.

Context (cfg : Config) (E : Env) (Hup : transport_up E).

(** When the statements inside the [try] of [handle_document] raise, the
    dictionary differs from the one before at most at [current_file_path]. *)
Lemma handle_document_body_raises f file_name w e w1 :
  Bot.handle_document_body cfg E f file_name w = (Raise e, w1) ->
  forall K, K <> py "current_file_path" -> user_data w1 !! K = user_data w !! K.
Proof.
  intros Hrun K HK.
  destruct (tg_get_file E (Bot.file_id f)) as [c|e0] eqn:Hget.
  - destruct (fs_write_error E file_name) as [e1|] eqn:Hwr.
    + unfold Bot.handle_document_body in Hrun. rewrite bind_eq in Hrun.
      rewrite Hget in Hrun. cbn [lift] in Hrun. rewrite bind_eq in Hrun.
      unfold write_file in Hrun. rewrite Hwr in Hrun. by injection Hrun as _ <-.
    + rewrite (handle_document_body_up cfg E Hup f file_name c w Hget Hwr) in Hrun.
      pose proof (process_document_frame cfg E file_name (downloaded file_name c w)) as Hfr.
      destruct (Bot.process_document cfg E file_name (downloaded file_name c w))
        as [[t|e2] w3]; [by destruct (py_in _ t)|].
      injection Hrun as _ <-. cbn [snd] in Hfr. destruct Hfr as (-> & _).
      open_world. by rewrite lookup_insert_ne.
  - unfold Bot.handle_document_body in Hrun. rewrite bind_eq in Hrun.
    rewrite Hget in Hrun. cbn [lift] in Hrun. by injection Hrun as _ <-.
Qed.

(** When the statements inside the [try] of [handle_output_choice] raise,
    the dictionary is the one before. *)
Lemma handle_output_choice_body_raises data w e w1 :
  Bot.handle_output_choice_body cfg E data w = (Raise e, w1) ->
  user_data w1 = user_data w.
Proof.
  intros Hrun.
  destruct (split 124 data) as [|option [|text_key [|x parts]]] eqn:Hs;
    try (unfold Bot.handle_output_choice_body in Hrun; rewrite Hs in Hrun;
         by injection Hrun as _ <-).
  destruct (user_data w !! text_key) as [t|] eqn:Hk;
    [|rewrite (handle_output_choice_body_miss cfg E Hup data option text_key w Hs Hk) in Hrun;
      discriminate].
  destruct t as [|c0 t].
  { unfold Bot.handle_output_choice_body, Bot.unpack2 in Hrun. rewrite Hs in Hrun.
    unfold bind, lift, user_data_get in Hrun. cbv beta iota in Hrun.
    rewrite Hk in Hrun. cbn [default from_option id truthy negb] in Hrun.
    rewrite (reply_text_up E Hup) in Hrun. discriminate. }
  rewrite (handle_output_choice_body_hit cfg E data option text_key (c0 :: t) w Hs Hk)
    in Hrun by done.
  destruct (str_eqb option (py "output_summarize")).
  - destruct (user_data w !! (py "file_path_" ++ text_key)) as [[|c1 fp]|] eqn:Hp.
    + unfold Bot.choice_summarize in Hrun. rewrite bind_eq in Hrun.
      cbn [user_data_get] in Hrun. rewrite Hp in Hrun. cbn [truthy] in Hrun.
      rewrite (reply_text_up E Hup) in Hrun. discriminate.
    + rewrite (choice_summarize_up cfg E Hup text_key (c1 :: fp) w Hp) in Hrun by done.
      pose proof (summarize_document_frame cfg E (c1 :: fp)
                    (delivered [summarizing_ack] w)) as Hfr.
      unfold summarizing_ack in Hfr.
      destruct (Bot.summarize_document cfg E (c1 :: fp) _) as [[s|e2] w3];
        [by destruct (py_in _ s)|].
      injection Hrun as _ <-. cbn [snd] in Hfr. by destruct Hfr as (-> & _).
    + unfold Bot.choice_summarize in Hrun. rewrite bind_eq in Hrun.
      cbn [user_data_get] in Hrun. rewrite Hp in Hrun.
      rewrite (reply_text_up E Hup) in Hrun. discriminate.
  - destruct (startswith option (py "summary_")).
    + assert (Hpres : preserves (fun w' => user_data w' = user_data w)
                        (Bot.choice_summary_format E option text_key)).
      { by apply (preserves_choice_summary_format _ (fun _ => True)). }
      specialize (Hpres w eq_refl). by rewrite Hrun in Hpres.
    + assert (Hpres : preserves (fun w' => user_data w' = user_data w)
                        (Bot.choice_primary_format E option text_key (c0 :: t))).
      { by apply (preserves_choice_primary_format _ (fun _ => True)). }
      specialize (Hpres w eq_refl). by rewrite Hrun in Hpres.
Qed.

Lemma handle_document_returns m w :
  accepted m = true -> fst (Bot.handle_document cfg E m w) = Ret tt.
Proof.
  intros (f & file_name & Hf & Hn)%accepted_pick_file.
  rewrite (handle_document_eq cfg E Hup m f file_name w Hf Hn).
  by destruct (Bot.handle_document_body _ _ _ _ _) as [[[]|e] w1].
Qed.

Lemma handle_output_choice_returns data w :
  fst (Bot.handle_output_choice cfg E data w) = Ret tt.
Proof.
  rewrite (handle_output_choice_eq cfg E Hup).
  by destruct (Bot.handle_output_choice_body _ _ _ _) as [[[]|e] w1].
Qed.

(** The three kinds of failure, each raising inside the [try]. *)
Lemma download_failure_raises f file_name w e :
  tg_get_file E (Bot.file_id f) = Raise e ->
  Bot.handle_document_body cfg E f file_name w = (Raise e, w).
Proof.
  intros Hget. unfold Bot.handle_document_body. rewrite bind_eq.
  by rewrite Hget.
Qed.

Lemma remote_failure_raises f file_name c mime w e :
  tg_get_file E (Bot.file_id f) = Ret c ->
  fs_write_error E file_name = None ->
  docai_client_error E = None ->
  Bot.detect_mime file_name = Some mime ->
  docai_process E (extract_request cfg c mime) = Raise e ->
  Bot.handle_document_body cfg E f file_name w
  = (Raise e, issued (extract_request cfg c mime) (downloaded file_name c w)).
Proof.
  intros Hget Hwr Hcl Hm Hd.
  rewrite (handle_document_body_up cfg E Hup f file_name c w Hget Hwr).
  unfold Bot.process_document, make_client, read_file, client_process_document.
  rewrite bind_eq, Hcl. cbv beta iota. rewrite bind_eq.
  assert (Hfile : files (downloaded file_name c w) !! file_name = Some c)
    by (open_world; apply lookup_insert_eq).
  rewrite Hfile, Hm. cbv beta iota. rewrite bind_eq.
  fold (extract_request cfg c mime). by rewrite Hd.
Qed.

Lemma rendering_failure_raises data text_key t w e :
  split 124 data = [py "output_docx"; text_key] ->
  user_data w !! text_key = Some t -> t <> [] ->
  fs_write_error E (txt_path text_key) = None ->
  docx_error E t = Some e ->
  Bot.handle_output_choice_body cfg E data w
  = (Raise e, with_files (fun fs => <[txt_path text_key := Utf8 t]> fs) w).
Proof.
  intros Hs Hk Ht Hwr Hdocx.
  rewrite (handle_output_choice_body_hit cfg E data (py "output_docx") text_key t w Hs Hk Ht).
  rewrite (proj2 (str_eqb_neq (py "output_docx") (py "output_summarize")))
    by discriminate.
  replace (startswith (py "output_docx") (py "summary_")) with false
    by (vm_compute; reflexivity).
  unfold Bot.choice_primary_format. rewrite bind_eq. unfold write_file at 1.
  fold (txt_path text_key). rewrite Hwr. cbv beta iota.
  rewrite (proj2 (str_eqb_neq (py "output_docx") (py "output_message")))
    by discriminate.
  rewrite (proj2 (str_eqb_neq (py "output_docx") (py "output_txt"))) by discriminate.
  rewrite (proj2 (str_eqb_neq (py "output_docx") (py "output_both"))) by discriminate.
  rewrite (proj2 (str_eqb_eq _ _) eq_refl).
  unfold Bot.save_as_docx, add_paragraph. rewrite !bind_eq. by rewrite Hdocx.
Qed.

End Failures.

(** Without any assumption on the chat: what the [try] raises is logged, and
    the handler then returns unless the error reply itself is refused. *)
Lemma handle_document_logs (cfg : Config) (E : Env) m f file_name w e w1 :
  Bot.pick_file m = Ret f -> Bot.download_name m f = Ret file_name ->
  Bot.handle_document_body cfg E f file_name w = (Raise e, w1) ->
  let r := Bot.handle_document cfg E m w in
  log (snd r) = log w1 ++ [py "Error processing file: " ++ exn_str e]
  /\ (fst r = Ret tt
      \/ exists e',
           tg_send_error E
             (Text (py "❌ An error occurred while processing the document. Please try again!"))
           = Some e' /\ fst r = Raise e').
Proof.
  intros Hf Hn Hrun r.
  assert (Hr : r = match tg_send_error E
                       (Text (py "❌ An error occurred while processing the document. Please try again!")) with
                   | Some e' =>
                       (Raise e',
                        with_log (fun l => l ++ [py "Error processing file: " ++ exn_str e]) w1)
                   | None =>
                       (Ret tt,
                        delivered
                          [Text (py "❌ An error occurred while processing the document. Please try again!")]
                          (with_log (fun l => l ++ [py "Error processing file: " ++ exn_str e])
                             w1))
                   end).
  { subst r. unfold Bot.handle_document. rewrite bind_eq, Hf. cbn [lift].
    rewrite bind_eq, Hn. cbn [lift]. by rewrite try_except_eq, Hrun. }
  rewrite Hr. destruct (tg_send_error E (Text _)) as [e'|]; cbn [fst snd]; open_world; eauto.
Qed.

Lemma handle_output_choice_logs (cfg : Config) (E : Env) data w e w1 :
  tg_send_error E Answer = None ->
  Bot.handle_output_choice_body cfg E data (delivered [Answer] w) = (Raise e, w1) ->
  let r := Bot.handle_output_choice cfg E data w in
  log (snd r) = log w1 ++ [py "Error handling output choice: " ++ exn_str e]
  /\ (fst r = Ret tt
      \/ exists e',
           tg_send_error E
             (Text (py "❌ An error occurred while processing your selection."))
           = Some e' /\ fst r = Raise e').
Proof.
  intros Hans Hrun r.
  assert (Hr : r = match tg_send_error E
                       (Text (py "❌ An error occurred while processing your selection.")) with
                   | Some e' =>
                       (Raise e',
                        with_log
                          (fun l => l ++ [py "Error handling output choice: " ++ exn_str e]) w1)
                   | None =>
                       (Ret tt,
                        delivered
                          [Text (py "❌ An error occurred while processing your selection.")]
                          (with_log
                             (fun l => l ++ [py "Error handling output choice: " ++ exn_str e])
                             w1))
                   end).
  { subst r. unfold Bot.handle_output_choice. rewrite bind_eq.
    unfold send at 1. rewrite Hans. cbv beta iota. fold (delivered [Answer] w).
    by rewrite try_except_eq, Hrun. }
  rewrite Hr. destruct (tg_send_error E (Text _)) as [e'|]; cbn [fst snd]; open_world; eauto.
Qed.

(** The [except] clause of each handler writes the record and then sends
    its reply, outside any [try]: the reply decides how the handler ends. *)
Lemma handle_document_caught (cfg : Config) (E : Env) m f file_name w e w1 :
  Bot.pick_file m = Ret f -> Bot.download_name m f = Ret file_name ->
  Bot.handle_document_body cfg E f file_name w = (Raise e, w1) ->
  let notice :=
    Text (py "❌ An error occurred while processing the document. Please try again!") in
  let logged := with_log (fun l => l ++ [py "Error processing file: " ++ exn_str e]) w1 in
  Bot.handle_document cfg E m w
  = match tg_send_error E notice with
    | Some e' => (Raise e', logged)
    | None => (Ret tt, delivered [notice] logged)
    end.
Proof.
  intros Hf Hn Hrun notice logged. unfold Bot.handle_document.
  rewrite bind_eq, Hf. cbn [lift]. rewrite bind_eq, Hn. cbn [lift].
  by rewrite try_except_eq, Hrun.
Qed.

Lemma handle_output_choice_caught (cfg : Config) (E : Env) data w e w1 :
  tg_send_error E Answer = None ->
  Bot.handle_output_choice_body cfg E data (delivered [Answer] w) = (Raise e, w1) ->
  let notice := Text (py "❌ An error occurred while processing your selection.") in
  let logged :=
    with_log (fun l => l ++ [py "Error handling output choice: " ++ exn_str e]) w1 in
  Bot.handle_output_choice cfg E data w
  = match tg_send_error E notice with
    | Some e' => (Raise e', logged)
    | None => (Ret tt, delivered [notice] logged)
    end.
Proof.
  intros Hans Hrun notice logged. unfold Bot.handle_output_choice. rewrite bind_eq.
  unfold send at 1. rewrite Hans. cbv beta iota. fold (delivered [Answer] w).
  by rewrite try_except_eq, Hrun.
Qed.

(** [query.answer()] stands before the [try]. *)
Lemma handle_output_choice_unanswered (cfg : Config) (E : Env) data w e' :
  tg_send_error E Answer = Some e' ->
  Bot.handle_output_choice cfg E data w = (Raise e', w).
Proof.
  intros Hans. unfold Bot.handle_output_choice. rewrite bind_eq.
  unfold send at 1. by rewrite Hans.
Qed.

(** ** What an event leaves alone, whatever the surroundings do *)

Section EventFrame.

Context (cfg : Config) (E : Env).

Lemma unchanged_file_write (p q : str) (o : option content) (c : content) w :
  q <> p -> files w !! p = o -> files (with_files (fun fs => <[q := c]> fs) w) !! p = o.
Proof. intros Hq Hw. open_world. by rewrite lookup_insert_ne. Qed.

Lemma unchanged_entry_write (k k' v' : str) (o : option str) w :
  k' <> k -> user_data w !! k = o ->
  user_data (with_user_data (fun d => <[k' := v']> d) w) !! k = o.
Proof. intros Hk Hw. open_world. by rewrite lookup_insert_ne. Qed.

(** An upload writes the file it downloads and no other. *)
Lemma handle_document_files_frame m f file_name w p :
  Bot.pick_file m = Ret f -> Bot.download_name m f = Ret file_name ->
  p <> file_name ->
  files (snd (Bot.handle_document cfg E m w)) !! p = files w !! p.
Proof.
  intros Hf Hn Hp.
  apply (preserves_handle_document_at (fun w' => files w' !! p = files w !! p)
           (fun _ => True) (fun q => q <> p)) with (f := f) (file_name := file_name);
    try done.
  intros q c w0 Hq Hw0. by apply unchanged_file_write.
Qed.

Lemma handle_document_entries_frame m w K :
  py "current_file_path" <> K -> Bot.new_text_key E <> K ->
  py "file_path_" ++ Bot.new_text_key E <> K ->
  user_data (snd (Bot.handle_document cfg E m w)) !! K = user_data w !! K.
Proof.
  intros H0 H1 H2.
  apply (preserves_handle_document (fun w' => user_data w' !! K = user_data w !! K)
           (fun k => k <> K) (fun _ => True)); try done.
  intros k v w0 Hk Hw0. by apply unchanged_entry_write.
Qed.

(** A choice writes the text and Word files of its key and of the summary
    of its key, and no other; in the dictionary it writes the summary of its
    key and nothing else. *)
Lemma handle_output_choice_files_frame data option text_key w p :
  split 124 data = [option; text_key] ->
  p <> txt_path text_key -> p <> docx_path text_key ->
  p <> summary_txt_path text_key -> p <> summary_docx_path text_key ->
  files (snd (Bot.handle_output_choice cfg E data w)) !! p = files w !! p.
Proof.
  intros Hs H1 H2 H3 H4.
  apply (preserves_handle_output_choice (fun w' => files w' !! p = files w !! p)
           (fun _ => True) (fun q => q <> p)); try done.
  - intros q c w0 Hq Hw0. by apply unchanged_file_write.
  - intros option' text_key' Hs'. rewrite Hs in Hs'. injection Hs' as <- <-.
    split_and!; [done|..]; intros Heq; symmetry in Heq; contradiction.
Qed.

Lemma handle_output_choice_entries_frame data option text_key w K :
  split 124 data = [option; text_key] ->
  K <> Bot.summary_key text_key ->
  user_data (snd (Bot.handle_output_choice cfg E data w)) !! K = user_data w !! K.
Proof.
  intros Hs HK.
  apply (preserves_handle_output_choice (fun w' => user_data w' !! K = user_data w !! K)
           (fun k => k <> K) (fun _ => True)); try done.
  - intros k v w0 Hk Hw0. by apply unchanged_entry_write.
  - intros option' text_key' Hs'. rewrite Hs in Hs'. injection Hs' as <- <-.
    by split_and!.
Qed.

End EventFrame.

(** C8 (as the code has it): whatever is raised inside the [try] of a
    handler -- a failed download, a failed remote call, a failed rendering
    of a file are instances -- is caught and written to the log with its
    text, whatever the chat does.  The [except] clause then sends the
    handler's error message outside any [try]: when the chat accepts it the
    handler returns, and when the chat refuses it that refusal leaves the
    handler; so does a refused [query.answer()], which stands before the
    [try].  Whatever happens, an upload changes the dictionary at most at
    [current_file_path], at its new key and at the file path of that key,
    and writes no file but its own download; a choice changes the dictionary
    at most at the summary of its key and writes no file but the four output
    files of its key.  While the chat accepts the calls, no failure leaves a
    handler: [handle_document] (on a message with a document or a photo) and
    [handle_output_choice] always return, a failed upload changes the
    dictionary at most at [current_file_path] and a failed choice not at
    all. *)
Theorem C8_failures_are_caught_logged_and_reported (cfg : Config) (E : Env) :
  (forall m f file_name w e w1,
     Bot.pick_file m = Ret f -> Bot.download_name m f = Ret file_name ->
     Bot.handle_document_body cfg E f file_name w = (Raise e, w1) ->
     let notice :=
       Text (py "❌ An error occurred while processing the document. Please try again!") in
     let logged := with_log (fun l => l ++ [py "Error processing file: " ++ exn_str e]) w1 in
     Bot.handle_document cfg E m w
     = match tg_send_error E notice with
       | Some e' => (Raise e', logged)
       | None => (Ret tt, delivered [notice] logged)
       end
     /\ log (snd (Bot.handle_document cfg E m w))
        = log w1 ++ [py "Error processing file: " ++ exn_str e])
  /\ (forall data w e w1,
        tg_send_error E Answer = None ->
        Bot.handle_output_choice_body cfg E data (delivered [Answer] w) = (Raise e, w1) ->
        let notice := Text (py "❌ An error occurred while processing your selection.") in
        let logged :=
          with_log (fun l => l ++ [py "Error handling output choice: " ++ exn_str e]) w1 in
        Bot.handle_output_choice cfg E data w
        = match tg_send_error E notice with
          | Some e' => (Raise e', logged)
          | None => (Ret tt, delivered [notice] logged)
          end
        /\ log (snd (Bot.handle_output_choice cfg E data w))
           = log w1 ++ [py "Error handling output choice: " ++ exn_str e])
  /\ (forall data w e',
        tg_send_error E Answer = Some e' ->
        Bot.handle_output_choice cfg E data w = (Raise e', w))
  /\ (forall m f file_name w,
        Bot.pick_file m = Ret f -> Bot.download_name m f = Ret file_name ->
        let w' := snd (Bot.handle_document cfg E m w) in
        (forall K, py "current_file_path" <> K -> Bot.new_text_key E <> K ->
                   py "file_path_" ++ Bot.new_text_key E <> K ->
                   user_data w' !! K = user_data w !! K)
        /\ (forall p, p <> file_name -> files w' !! p = files w !! p))
  /\ (forall data option text_key w,
        split 124 data = [option; text_key] ->
        let w' := snd (Bot.handle_output_choice cfg E data w) in
        (forall K, K <> Bot.summary_key text_key -> user_data w' !! K = user_data w !! K)
        /\ (forall p, p <> txt_path text_key -> p <> docx_path text_key ->
                      p <> summary_txt_path text_key -> p <> summary_docx_path text_key ->
                      files w' !! p = files w !! p))
  /\ (transport_up E ->
  (forall m w, accepted m = true -> fst (Bot.handle_document cfg E m w) = Ret tt)
  /\ (forall data w, fst (Bot.handle_output_choice cfg E data w) = Ret tt)
  /\ (forall m f file_name w e w1,
        Bot.pick_file m = Ret f -> Bot.download_name m f = Ret file_name ->
        Bot.handle_document_body cfg E f file_name w = (Raise e, w1) ->
        Bot.handle_document cfg E m w
        = (Ret tt,
           delivered
             [Text (py "❌ An error occurred while processing the document. Please try again!")]
             (with_log (fun l => l ++ [py "Error processing file: " ++ exn_str e]) w1))
        /\ (forall K, K <> py "current_file_path" ->
              user_data (snd (Bot.handle_document cfg E m w)) !! K = user_data w !! K))
  /\ (forall data w e w1,
        Bot.handle_output_choice_body cfg E data (delivered [Answer] w) = (Raise e, w1) ->
        Bot.handle_output_choice cfg E data w
        = (Ret tt,
           delivered [Text (py "❌ An error occurred while processing your selection.")]
             (with_log (fun l => l ++ [py "Error handling output choice: " ++ exn_str e]) w1))
        /\ user_data (snd (Bot.handle_output_choice cfg E data w)) = user_data w)
  /\ (forall f file_name w e,
        tg_get_file E (Bot.file_id f) = Raise e ->
        Bot.handle_document_body cfg E f file_name w = (Raise e, w))
  /\ (forall f file_name c mime w e,
        tg_get_file E (Bot.file_id f) = Ret c ->
        fs_write_error E file_name = None ->
        docai_client_error E = None ->
        Bot.detect_mime file_name = Some mime ->
        docai_process E (extract_request cfg c mime) = Raise e ->
        Bot.handle_document_body cfg E f file_name w
        = (Raise e, issued (extract_request cfg c mime) (downloaded file_name c w)))
  /\ (forall data text_key t w e,
        split 124 data = [py "output_docx"; text_key] ->
        user_data w !! text_key = Some t -> t <> [] ->
        fs_write_error E (txt_path text_key) = None ->
        docx_error E t = Some e ->
        Bot.handle_output_choice_body cfg E data w
        = (Raise e, with_files (fun fs => <[txt_path text_key := Utf8 t]> fs) w))).
Proof.
  split_and!; [| | | | |intros Hup; split_and!].
  - intros m f file_name w e w1 Hf Hn Hrun notice logged. split.
    + apply (handle_document_caught cfg E m f file_name w e w1 Hf Hn Hrun).
    + apply (handle_document_logs cfg E m f file_name w e w1 Hf Hn Hrun).
  - intros data w e w1 Hans Hrun notice logged. split.
    + apply (handle_output_choice_caught cfg E data w e w1 Hans Hrun).
    + apply (handle_output_choice_logs cfg E data w e w1 Hans Hrun).
  - intros data w e' Hans. by apply handle_output_choice_unanswered.
  - intros m f file_name w Hf Hn w'. split.
    + intros K H0 H1 H2. by apply handle_document_entries_frame.
    + intros p Hp. by apply (handle_document_files_frame cfg E m f file_name).
  - intros data option text_key w Hs w'. split.
    + intros K HK. by apply (handle_output_choice_entries_frame cfg E data option text_key).
    + intros p H1 H2 H3 H4.
      by apply (handle_output_choice_files_frame cfg E data option text_key).
  - apply (handle_document_returns cfg E Hup).
  - apply (handle_output_choice_returns cfg E Hup).
  - intros m f file_name w e w1 Hf Hn Hrun.
    rewrite (handle_document_eq cfg E Hup m f file_name w Hf Hn), Hrun.
    split; [done|]. intros K HK. cbn [snd]. open_world.
    by apply (handle_document_body_raises cfg E Hup f file_name w e w1).
  - intros data w e w1 Hrun.
    rewrite (handle_output_choice_eq cfg E Hup), Hrun.
    split; [done|]. cbn [snd]. open_world.
    by apply (handle_output_choice_body_raises cfg E Hup data (delivered [Answer] w) e w1).
  - apply (download_failure_raises cfg E).
  - apply (remote_failure_raises cfg E Hup).
  - apply (rendering_failure_raises cfg E).
Qed.

Lemma C8_witness :
  let E := Fixture.env_no_download in
  let m := Fixture.upload "scan.pdf" in
  (transport_up E
   /\ Bot.pick_file m = Ret (Fixture.the_document m)
   /\ Bot.download_name m (Fixture.the_document m) = Ret (py "downloads/scan.pdf")
   /\ Bot.handle_document_body Fixture.cfg0 E (Fixture.the_document m)
        (py "downloads/scan.pdf") Fixture.world_hello
      = (Raise (TelegramError (py "Timed out")), Fixture.world_hello))
  /\ Bot.handle_document Fixture.cfg0 E m Fixture.world_hello
     = (Ret tt,
        delivered
          [Text (py "❌ An error occurred while processing the document. Please try again!")]
          (with_log (fun l => l ++ [py "Error processing file: " ++ py "Timed out"])
             Fixture.world_hello)).
Proof.
  intros E m.
  assert (H1 : transport_up E) by (intros o; reflexivity).
  assert (H2 : Bot.pick_file m = Ret (Fixture.the_document m)) by reflexivity.
  assert (H3 : Bot.download_name m (Fixture.the_document m) = Ret (py "downloads/scan.pdf"))
    by reflexivity.
  destruct (C8_failures_are_caught_logged_and_reported Fixture.cfg0 E)
    as (_ & _ & _ & _ & _ & Hrest).
  destruct (Hrest H1) as (_ & _ & Hcaught & _ & Hdown & _).
  assert (H4 : Bot.handle_document_body Fixture.cfg0 E (Fixture.the_document m)
                 (py "downloads/scan.pdf") Fixture.world_hello
               = (Raise (TelegramError (py "Timed out")), Fixture.world_hello)).
  { apply Hdown. reflexivity. }
  split; [split_and!; assumption|].
  exact (proj1 (Hcaught m (Fixture.the_document m) (py "downloads/scan.pdf")
                  Fixture.world_hello (TelegramError (py "Timed out"))
                  Fixture.world_hello H2 H3 H4)).
Defined.

(** A failure can leave a handler, and a failed upload can reach the file of
    an earlier one.  When the download fails and the chat then refuses the
    error reply, [handle_document] ends with that refusal and the user gets
    no message.  And after scan.pdf has been uploaded and read, a second
    upload of a document with the same name fails at the remote call: it is
    logged and reported, yet the file that the first upload recorded now
    holds the bytes of the second, and "Summarize" for the first key sends
    those bytes. *)
Lemma C8_counterexample :
  let m := Fixture.upload "scan.pdf" in
  let w1 := Fixture.world_uploaded in
  let r := Bot.handle_document Fixture.cfg0 Fixture.env_offline m w1 in
  let w2 := snd (Bot.handle_document Fixture.cfg0 Fixture.env_processor_down m w1) in
  let w3 := snd (Bot.handle_output_choice Fixture.cfg0 Fixture.env_ok
                   (py "output_summarize|ab12cd34") w2) in
  (accepted m = true
   /\ fst r = Raise (TelegramError (py "Timed out"))
   /\ log (snd r) = log w1 ++ [py "Error processing file: Timed out"]
   /\ outbox (snd r) = outbox w1)
  /\ (user_data w1 !! py "ab12cd34" = Some (py "Hello world")
      /\ user_data w1 !! py "file_path_ab12cd34" = Some (py "downloads/scan.pdf")
      /\ files w1 !! py "downloads/scan.pdf" = Some Fixture.scan_bytes
      /\ log w2 = log w1 ++ [py "Error processing file: 503 Service Unavailable"]
      /\ outbox w2
         = outbox w1
           ++ [processing_ack;
               Text (py "❌ An error occurred while processing the document. Please try again!")]
      /\ user_data w2 !! py "file_path_ab12cd34" = Some (py "downloads/scan.pdf")
      /\ files w2 !! py "downloads/scan.pdf" = Some Fixture.other_bytes
      /\ Fixture.other_bytes <> Fixture.scan_bytes
      /\ remote_calls w3
         = remote_calls w2
           ++ [summarize_request Fixture.cfg0 Fixture.other_bytes (py "application/pdf")]).
Proof.
  intros m w1 r w2 w3.
  split; split_and!; try (vm_compute; reflexivity). discriminate.
Qed.

(** ** Splitting callback data *)

Lemma split_nonempty (sep : N) (s : str) : split sep s <> [].
Proof.
  induction s as [|c s IH]; simpl; [done|].
  destruct (c =? sep)%N; [done|]. by destruct (split sep s).
Qed.

Lemma split_length (sep : N) (s : str) :
  length (split sep s) = S (count_char sep s).
Proof.
  unfold count_char. induction s as [|c s IH]; simpl; [done|].
  rewrite (N.eqb_sym sep c). destruct (c =? sep)%N; simpl.
  - by rewrite IH.
  - pose proof (split_nonempty sep s). destruct (split sep s); [done|]. exact IH.
Qed.

Lemma split_no_sep (sep : N) (s : str) : sep ∉ s -> split sep s = [s].
Proof.
  induction s as [|c s IH]; simpl; [done|].
  intros [Hc Hs]%not_elem_of_cons.
  destruct (N.eqb_spec c sep); [congruence|]. by rewrite IH.
Qed.

Lemma split_at_sep (sep : N) (a b : str) :
  sep ∉ a -> split sep (a ++ sep :: b) = a :: split sep b.
Proof.
  induction a as [|c a IH]; simpl.
  - intros _. by rewrite N.eqb_refl.
  - intros [Hc Ha]%not_elem_of_cons.
    destruct (N.eqb_spec c sep); [congruence|]. by rewrite IH.
Qed.

Lemma join_split (sep : N) (s : str) : join sep (split sep s) = s.
Proof.
  induction s as [|c s IH]; simpl; [done|].
  destruct (N.eqb_spec c sep) as [->|Hne].
  - pose proof (split_nonempty sep s).
    destruct (split sep s) as [|p rest] eqn:Hsp; [done|].
    change (join sep ([] :: p :: rest)) with ([] ++ sep :: join sep (p :: rest)).
    by rewrite IH.
  - pose proof (split_nonempty sep s).
    destruct (split sep s) as [|p rest] eqn:Hsp; [done|].
    destruct rest as [|q rest]; simpl in *; by rewrite <- IH.
Qed.

Lemma split_pieces_no_sep (sep : N) (s : str) :
  Forall (fun p => sep ∉ p) (split sep s).
Proof.
  induction s as [|c s IH]; simpl.
  - constructor; [apply not_elem_of_nil | constructor].
  - destruct (N.eqb_spec c sep) as [->|Hne].
    + constructor; [apply not_elem_of_nil | done].
    + pose proof (split_nonempty sep s).
      destruct (split sep s) as [|p rest]; [done|].
      inversion IH as [|? ? Hp Hrest]; subst.
      constructor; [|done]. by apply not_elem_of_cons.
Qed.

Lemma session_key_no_bar (K : str) : is_session_key K = true -> 124%N ∉ K.
Proof.
  unfold is_session_key. intros [_ Hhex]%andb_true_iff Hin.
  rewrite forallb_forall in Hhex. apply list_elem_of_In in Hin.
  specialize (Hhex _ Hin). discriminate.
Qed.

Lemma unpack2_one_bar (data : str) :
  count_char 124 data = 1%nat ->
  exists option text_key,
    Bot.unpack2 (split 124 data) = Ret (option, text_key)
    /\ split 124 data = [option; text_key]
    /\ data = option ++ 124%N :: text_key
    /\ (124%N ∉ option) /\ (124%N ∉ text_key).
Proof.
  pose proof (split_length 124 data) as Hlen.
  pose proof (join_split 124 data) as Hjoin.
  pose proof (split_pieces_no_sep 124 data) as Hno.
  intros Hc. rewrite Hc in Hlen.
  destruct (split 124 data) as [|a [|b [|x r]]]; try discriminate.
  exists a, b. inversion Hno as [|? ? Ha Hr]; subst. inversion Hr; subst.
  by split_and!.
Qed.

Lemma unpack2_not_one_bar (data : str) :
  count_char 124 data <> 1%nat -> exists e, Bot.unpack2 (split 124 data) = Raise e.
Proof.
  pose proof (split_length 124 data) as Hlen. intros Hc.
  destruct (split 124 data) as [|a [|b [|x r]]]; simpl in *; eauto. lia.
Qed.

(** X2: the callback data is accepted exactly when it holds one bar; the two
    parts are then the text before and after the bar, neither holds a bar,
    and joining them with a bar gives the data back. *)
Theorem X2_callback_data_unpacks_iff_one_bar (data : str) :
  (count_char 124 data = 1%nat ->
     exists option text_key,
       Bot.unpack2 (split 124 data) = Ret (option, text_key)
       /\ data = option ++ 124%N :: text_key
       /\ (124%N ∉ option) /\ (124%N ∉ text_key))
  /\ (count_char 124 data <> 1%nat ->
        exists e, Bot.unpack2 (split 124 data) = Raise e).
Proof.
  split.
  - intros Hc. destruct (unpack2_one_bar data Hc) as (o & k & H1 & _ & H2 & H3 & H4).
    by exists o, k.
  - apply unpack2_not_one_bar.
Qed.

Lemma X2_witness :
  let data := py "output_txt|ab12cd34" in
  count_char 124 data = 1%nat
  /\ exists option text_key,
       Bot.unpack2 (split 124 data) = Ret (option, text_key)
       /\ data = option ++ 124%N :: text_key
       /\ (124%N ∉ option) /\ (124%N ∉ text_key).
Proof.
  intros data.
  assert (H1 : count_char 124 data = 1%nat) by reflexivity.
  split; [exact H1|].
  exact (proj1 (X2_callback_data_unpacks_iff_one_bar data) H1).
Defined.

(** ** The buttons and the parser of callback data *)

Ltac by_computation := apply (bool_decide_unpack _); vm_compute; exact I.

Lemma button_parses (option key : str) :
  124%N ∉ option -> 124%N ∉ key -> split 124 (option ++ 124%N :: key) = [option; key].
Proof. intros Ho Hk. by rewrite split_at_sep, split_no_sep. Qed.

Lemma parses_to_literal (key option data : str) (options : list str) (lbl : str) :
  data = option ++ 124%N :: key ->
  124%N ∉ option -> 124%N ∉ key -> option ∈ options ->
  parses_to key options (InlineKeyboardButton lbl data).
Proof.
  intros -> Ho Hk Hin. exists option. split; [|done]. by apply button_parses.
Qed.

(** X1: every button that [send_output_options] puts in the menu carries
    callback data that [handle_output_choice] splits into one of the five
    handled options and the key just minted; the three buttons of the
    summary menu split into a summary option and the key of the artifact. *)
Theorem X1_menu_buttons_parse_back (E : Env) :
  Forall (parses_to (Bot.new_text_key E) menu_options)
    (concat (Bot.output_keyboard (Bot.new_text_key E)))
  /\ (forall key, 124%N ∉ key ->
        Forall (parses_to key summary_options) (concat (Bot.summary_keyboard key))).
Proof.
  assert (Hkey : 124%N ∉ Bot.new_text_key E)
    by apply session_key_no_bar, new_text_key_is_session_key.
  split.
  - unfold Bot.output_keyboard. cbn [concat app].
    repeat apply Forall_cons_2; [..|apply Forall_nil_2].
    + apply (parses_to_literal _ (py "output_message")); [done|by_computation|done|by_computation].
    + apply (parses_to_literal _ (py "output_txt")); [done|by_computation|done|by_computation].
    + apply (parses_to_literal _ (py "output_both")); [done|by_computation|done|by_computation].
    + apply (parses_to_literal _ (py "output_docx")); [done|by_computation|done|by_computation].
    + apply (parses_to_literal _ (py "output_summarize"));
        [done|by_computation|done|by_computation].
  - intros key Hk. unfold Bot.summary_keyboard. cbn [concat app].
    repeat apply Forall_cons_2; [..|apply Forall_nil_2].
    + apply (parses_to_literal _ (py "summary_message"));
        [done|by_computation|done|by_computation].
    + apply (parses_to_literal _ (py "summary_txt")); [done|by_computation|done|by_computation].
    + apply (parses_to_literal _ (py "summary_docx")); [done|by_computation|done|by_computation].
Qed.

Lemma X1_witness :
  (124%N ∉ py "ab12cd34")
  /\ Forall (parses_to (py "ab12cd34") summary_options)
       (concat (Bot.summary_keyboard (py "ab12cd34"))).
Proof.
  assert (H1 : 124%N ∉ py "ab12cd34") by by_computation.
  split; [exact H1|].
  exact (proj2 (X1_menu_buttons_parse_back Fixture.env_ok) (py "ab12cd34") H1).
Defined.

(** X3: callback data without a bar, or with more than one, raises inside
    the [try]: the handler acknowledges the query, logs the error, answers
    with its general error message and changes neither the store nor the
    files. *)
Theorem X3_malformed_callback_data_is_a_logged_error
    (cfg : Config) (E : Env) (data : str) (w : World) :
  transport_up E ->
  count_char 124 data <> 1%nat ->
  exists e,
    Bot.handle_output_choice cfg E data w
    = (Ret tt,
       delivered
         [Answer; Text (py "❌ An error occurred while processing your selection.")]
         (with_log (fun l => l ++ [py "Error handling output choice: " ++ exn_str e]) w))
    /\ user_data (snd (Bot.handle_output_choice cfg E data w)) = user_data w
    /\ files (snd (Bot.handle_output_choice cfg E data w)) = files w.
Proof.
  intros Hup Hc. destruct (unpack2_not_one_bar data Hc) as [e He]. exists e.
  assert (Hrun : Bot.handle_output_choice cfg E data w
    = (Ret tt,
       delivered
         [Answer; Text (py "❌ An error occurred while processing your selection.")]
         (with_log (fun l => l ++ [py "Error handling output choice: " ++ exn_str e]) w))).
  { rewrite (handle_output_choice_eq cfg E Hup).
    unfold Bot.handle_output_choice_body. rewrite bind_eq, He. cbn [lift].
    f_equal. same_world. }
  by rewrite Hrun.
Qed.

Lemma X3_witness :
  let data := py "output_txt" in
  transport_up Fixture.env_ok
  /\ count_char 124 data <> 1%nat
  /\ exists e,
      Bot.handle_output_choice Fixture.cfg0 Fixture.env_ok data Fixture.world_hello
      = (Ret tt,
         delivered
           [Answer; Text (py "❌ An error occurred while processing your selection.")]
           (with_log (fun l => l ++ [py "Error handling output choice: " ++ exn_str e])
              Fixture.world_hello))
      /\ user_data (snd (Bot.handle_output_choice Fixture.cfg0 Fixture.env_ok data
                           Fixture.world_hello))
         = user_data Fixture.world_hello
      /\ files (snd (Bot.handle_output_choice Fixture.cfg0 Fixture.env_ok data
                       Fixture.world_hello))
         = files Fixture.world_hello.
Proof.
  intros data.
  assert (H1 : transport_up Fixture.env_ok) by (intros o; reflexivity).
  assert (H2 : count_char 124 data <> 1%nat) by (vm_compute; discriminate).
  split_and!; [exact H1 | exact H2 |].
  exact (X3_malformed_callback_data_is_a_logged_error Fixture.cfg0 Fixture.env_ok data
           Fixture.world_hello H1 H2).
Defined.

(** ** More on chunked delivery *)

Lemma chunks_blocks (T : str) (C : Z) :
  0 < C ->
  chunks T C
  = map (fun k => take (Z.to_nat C) (drop (k * Z.to_nat C) T))
      (seq 0 (Z.to_nat ((len T + C - 1) / C))).
Proof.
  intros HC. unfold chunks, Bot.chunks_at.
  rewrite py_range_from_zero by (auto using len_nonneg).
  rewrite map_map. apply map_ext. intros k.
  rewrite slice_take_drop by lia. do 2 f_equal. lia.
Qed.

Lemma chunk_count_bounds (L C : Z) :
  0 <= L -> 0 < C ->
  let q := (L + C - 1) / C in
  0 <= q /\ L <= q * C /\ (q - 1) * C < L \/ (L = 0 /\ q = 0).
Proof.
  intros HL HC q. subst q.
  pose proof (Z.div_mod (L + C - 1) C ltac:(lia)) as Hd.
  pose proof (Z.mod_pos_bound (L + C - 1) C HC) as Hm.
  destruct (Z.eq_dec L 0) as [->|Hne].
  - right. split; [done|]. apply Z.div_small. lia.
  - left. assert (0 <= (L + C - 1) / C) by (apply Z.div_pos; lia). nia.
Qed.

(** X4: for a positive chunk size the text goes out in ceil(len/size)
    messages; none of them is empty, all but the last hold exactly [size]
    characters, a text that fits goes out as one message equal to the text,
    and for the empty text nothing is sent. *)
Theorem X4_chunk_count_and_sizes (T : str) (C : Z) :
  0 < C ->
  Z.of_nat (length (chunks T C)) = (len T + C - 1) / C
  /\ Forall (fun c => c <> []) (chunks T C)
  /\ (forall k c, chunks T C !! k = Some c -> (S k < length (chunks T C))%nat -> len c = C)
  /\ (T <> [] -> len T <= C -> chunks T C = [T])
  /\ (T = [] -> chunks T C = []).
Proof.
  intros HC. rewrite chunks_blocks by done.
  pose proof (len_nonneg T) as HT.
  pose proof (chunk_count_bounds (len T) C HT HC) as Hq. cbv zeta in Hq.
  set (q := (len T + C - 1) / C) in *.
  assert (Hq0 : 0 <= q) by lia.
  split_and!.
  - rewrite length_map, length_seq. lia.
  - apply Forall_map, Forall_forall. intros k Hk. simpl.
    apply elem_of_seq in Hk. intros Hnil.
    apply (f_equal length) in Hnil. rewrite length_take, length_drop in Hnil.
    simpl in Hnil. unfold len in *. nia.
  - intros k c Hk Hlast. rewrite length_map, length_seq in Hlast.
    rewrite list_lookup_fmap in Hk.
    destruct (seq 0 (Z.to_nat q) !! k) as [j|] eqn:Hj; [|done].
    apply lookup_seq in Hj as [-> _]. injection Hk as <-.
    unfold len in *. rewrite length_take, length_drop. simpl. nia.
  - intros Hne Hfit.
    assert (q = 1) as -> by (unfold len in *; destruct T; [done|]; simpl in *; nia).
    simpl. rewrite drop_0. f_equal. apply take_ge. unfold len in Hfit. lia.
  - intros ->.
    assert (q = 0) as ->
      by (unfold len in *; simpl in *; destruct Hq as [(? & ? & ?)|[? ?]]; [nia|lia]).
    done.
Qed.

Lemma X4_witness :
  let T := py "abcdefg" in
  0 < 3
  /\ Z.of_nat (length (chunks T 3)) = (len T + 3 - 1) / 3
  /\ Forall (fun c => c <> []) (chunks T 3).
Proof.
  intros T. assert (H : 0 < 3) by lia.
  destruct (X4_chunk_count_and_sizes T 3 H) as (H1 & H2 & _).
  split_and!; [exact H | exact H1 | exact H2].
Defined.

(** X5: with the chunk size 0 [send_text_chunks] raises [ValueError] (from
    [range]) before it sends anything, and with a negative chunk size it
    returns without sending anything, whatever the text. *)
Theorem X5_chunk_size_not_positive (E : Env) (T : str) (C : Z) (w : World) :
  (C = 0 -> exists msg, Bot.send_text_chunks E T C w = (Raise (ValueError msg), w))
  /\ (C < 0 -> Bot.send_text_chunks E T C w = (Ret tt, w)).
Proof.
  split.
  - intros ->. eexists. unfold Bot.send_text_chunks. rewrite bind_eq. reflexivity.
  - intros HC. unfold Bot.send_text_chunks. rewrite bind_eq. unfold lift, py_range.
    destruct (Z.eqb_spec C 0); [lia|].
    destruct (Z.ltb_spec 0 C); [lia|].
    pose proof (len_nonneg T).
    destruct (Z.ltb_spec (len T) 0); [lia|]. reflexivity.
Qed.

Lemma X5_witness :
  (-1 < 0)
  /\ Bot.send_text_chunks Fixture.env_ok (py "abc") (-1) Fixture.world0
     = (Ret tt, Fixture.world0).
Proof.
  assert (H : -1 < 0) by lia.
  split; [exact H|].
  exact (proj2 (X5_chunk_size_not_positive Fixture.env_ok (py "abc") (-1) Fixture.world0) H).
Defined.

(** ** What each choice delivers *)

Ltac literal_eqb :=
  repeat first
    [ rewrite (proj2 (str_eqb_eq _ _) eq_refl)
    | rewrite (proj2 (str_eqb_neq _ _)) by discriminate ].

Section Deliveries.

Context (cfg : Config) (E : Env) (Hup : transport_up E).

Lemma read_after_write p c w :
  read_file p (written p c w) = (Ret c, written p c w).
Proof.
  unfold read_file.
  assert (H : files (written p c w) !! p = Some c)
    by (unfold written; open_world; apply lookup_insert_eq).
  by rewrite H.
Qed.

Lemma choice_primary_txt text_key t w :
  fs_write_error E (txt_path text_key) = None ->
  Bot.choice_primary_format E (py "output_txt") text_key t w
  = (Ret tt, delivered [txt_document t] (written (txt_path text_key) (Utf8 t) w)).
Proof.
  intros Hwr. unfold Bot.choice_primary_format. rewrite bind_eq. unfold write_file at 1.
  fold (txt_path text_key). rewrite Hwr. cbv beta iota. literal_eqb.
  fold (written (txt_path text_key) (Utf8 t) w).
  rewrite bind_eq, read_after_write. by rewrite (reply_document_up E Hup).
Qed.

Lemma choice_primary_both text_key t w :
  fs_write_error E (txt_path text_key) = None ->
  Bot.choice_primary_format E (py "output_both") text_key t w
  = (Ret tt,
     delivered
       (map Text (chunks (py "📜 **Extracted Text:**" ++ nl ++ nl ++ t) Bot.default_chunk_size)
        ++ [txt_document t])
       (written (txt_path text_key) (Utf8 t) w)).
Proof.
  intros Hwr. unfold Bot.choice_primary_format. rewrite bind_eq. unfold write_file at 1.
  fold (txt_path text_key). rewrite Hwr. cbv beta iota. literal_eqb.
  fold (written (txt_path text_key) (Utf8 t) w).
  rewrite bind_eq, (send_text_chunks_up E Hup). rewrite bind_eq.
  unfold read_file.
  assert (H : files (delivered
                       (map Text (chunks (py "📜 **Extracted Text:**" ++ nl ++ nl ++ t)
                                    Bot.default_chunk_size))
                       (written (txt_path text_key) (Utf8 t) w)) !! txt_path text_key
              = Some (Utf8 t))
    by (unfold written; open_world; apply lookup_insert_eq).
  fold (txt_path text_key). rewrite H. rewrite (reply_document_up E Hup).
  by rewrite delivered_app.
Qed.

Lemma choice_primary_docx text_key t w :
  fs_write_error E (txt_path text_key) = None ->
  docx_error E t = None ->
  fs_write_error E (docx_path text_key) = None ->
  Bot.choice_primary_format E (py "output_docx") text_key t w
  = (Ret tt,
     delivered [docx_document t]
       (written (docx_path text_key) (Docx [t])
          (written (txt_path text_key) (Utf8 t) w))).
Proof.
  intros Hwr Hdoc Hwd. unfold Bot.choice_primary_format. rewrite bind_eq.
  unfold write_file at 1. fold (txt_path text_key). rewrite Hwr. cbv beta iota.
  literal_eqb. fold (written (txt_path text_key) (Utf8 t) w).
  unfold Bot.save_as_docx, add_paragraph. rewrite !bind_eq, Hdoc. cbv beta iota.
  unfold write_file. fold (docx_path text_key). rewrite Hwd.
  unfold bind, ret. cbv beta iota.
  fold (written (docx_path text_key) (Docx [t]) (written (txt_path text_key) (Utf8 t) w)).
  rewrite read_after_write. by rewrite (reply_document_up E Hup).
Qed.

Lemma choice_summary_txt text_key s w :
  user_data w !! Bot.summary_key text_key = Some s -> s <> [] ->
  fs_write_error E (summary_txt_path text_key) = None ->
  Bot.choice_summary_format E (py "summary_txt") text_key w
  = (Ret tt, delivered [summary_txt_document s]
               (written (summary_txt_path text_key) (Utf8 s) w)).
Proof.
  intros Hk Hs Hwr. unfold Bot.choice_summary_format. run. rewrite Hk. run.
  destruct s as [|c0 s]; [done|]. cbn [truthy negb]. rewrite bind_eq.
  unfold write_file at 1. fold (summary_txt_path text_key). rewrite Hwr. cbv beta iota.
  literal_eqb. fold (written (summary_txt_path text_key) (Utf8 (c0 :: s)) w).
  rewrite bind_eq, read_after_write. by rewrite (reply_document_up E Hup).
Qed.

Lemma choice_summary_docx text_key s w :
  user_data w !! Bot.summary_key text_key = Some s -> s <> [] ->
  fs_write_error E (summary_txt_path text_key) = None ->
  docx_error E s = None ->
  fs_write_error E (summary_docx_path text_key) = None ->
  Bot.choice_summary_format E (py "summary_docx") text_key w
  = (Ret tt, delivered [summary_docx_document s]
               (written (summary_docx_path text_key) (Docx [s])
                  (written (summary_txt_path text_key) (Utf8 s) w))).
Proof.
  intros Hk Hs Hwr Hdoc Hwd. unfold Bot.choice_summary_format. run. rewrite Hk. run.
  destruct s as [|c0 s]; [done|]. cbn [truthy negb]. rewrite bind_eq.
  unfold write_file at 1. fold (summary_txt_path text_key). rewrite Hwr. cbv beta iota.
  literal_eqb. fold (written (summary_txt_path text_key) (Utf8 (c0 :: s)) w).
  unfold Bot.save_as_docx, add_paragraph. rewrite !bind_eq, Hdoc. cbv beta iota.
  unfold write_file. fold (summary_docx_path text_key). rewrite Hwd.
  unfold bind, ret. cbv beta iota.
  fold (written (summary_docx_path text_key) (Docx [c0 :: s])
          (written (summary_txt_path text_key) (Utf8 (c0 :: s)) w)).
  rewrite read_after_write. by rewrite (reply_document_up E Hup).
Qed.

(** [handle_output_choice] for a resolved key and an option that is not the
    summarization. *)
Lemma handle_output_choice_primary data option text_key t w r w1 :
  split 124 data = [option; text_key] ->
  user_data w !! text_key = Some t -> t <> [] ->
  str_eqb option (py "output_summarize") = false ->
  startswith option (py "summary_") = false ->
  Bot.choice_primary_format E option text_key t (delivered [Answer] w) = (Ret r, w1) ->
  Bot.handle_output_choice cfg E data w = (Ret r, w1).
Proof.
  intros Hs Hk Ht Ho Hp Hrun. rewrite (handle_output_choice_eq cfg E Hup).
  rewrite (handle_output_choice_body_hit cfg E data option text_key t) by done.
  by rewrite Ho, Hp, Hrun.
Qed.

Lemma handle_output_choice_summary data option text_key t w r w1 :
  split 124 data = [option; text_key] ->
  user_data w !! text_key = Some t -> t <> [] ->
  startswith option (py "summary_") = true ->
  Bot.choice_summary_format E option text_key (delivered [Answer] w) = (Ret r, w1) ->
  Bot.handle_output_choice cfg E data w = (Ret r, w1).
Proof.
  intros Hs Hk Ht Hp Hrun. rewrite (handle_output_choice_eq cfg E Hup).
  rewrite (handle_output_choice_body_hit cfg E data option text_key t) by done.
  by rewrite (summary_prefix_not_summarize option Hp), Hp, Hrun.
Qed.

End Deliveries.

Lemma delivered_written os p c w :
  delivered os (written p c w) = written p c (delivered os w).
Proof. reflexivity. Qed.

(** X6: the choice "TXT File" sends one document named
    [extracted_text.txt] whose content is exactly the stored text, and the
    choice "TXT & Message" sends the chunks of the text first and that
    document after them; the name of the document does not depend on the
    key.  The summary choice "TXT File" sends [document_summary.txt] with
    exactly the stored summary. *)
Theorem X6_txt_choices_deliver_the_stored_text
    (cfg : Config) (E : Env) (data option text_key t : str) (w : World) :
  transport_up E ->
  split 124 data = [option; text_key] ->
  user_data w !! text_key = Some t -> t <> [] ->
  (option = py "output_txt" ->
   fs_write_error E (txt_path text_key) = None ->
   Bot.handle_output_choice cfg E data w
   = (Ret tt, delivered [Answer; txt_document t] (written (txt_path text_key) (Utf8 t) w)))
  /\ (option = py "output_both" ->
      fs_write_error E (txt_path text_key) = None ->
      Bot.handle_output_choice cfg E data w
      = (Ret tt,
         delivered
           (Answer :: map Text (chunks (py "📜 **Extracted Text:**" ++ nl ++ nl ++ t)
                                  Bot.default_chunk_size)
            ++ [txt_document t])
           (written (txt_path text_key) (Utf8 t) w)))
  /\ (forall s,
        option = py "summary_txt" ->
        user_data w !! Bot.summary_key text_key = Some s -> s <> [] ->
        fs_write_error E (summary_txt_path text_key) = None ->
        Bot.handle_output_choice cfg E data w
        = (Ret tt, delivered [Answer; summary_txt_document s]
                     (written (summary_txt_path text_key) (Utf8 s) w))).
Proof.
  intros Hup Hs Hk Ht. split_and!.
  - intros -> Hwr.
    apply (handle_output_choice_primary cfg E Hup data (py "output_txt") text_key t);
      try done.
    rewrite (choice_primary_txt E Hup) by done.
    by rewrite delivered_written, delivered_app.
  - intros -> Hwr.
    apply (handle_output_choice_primary cfg E Hup data (py "output_both") text_key t);
      try done.
    rewrite (choice_primary_both E Hup) by done.
    by rewrite delivered_written, delivered_app.
  - intros s -> Hsum Hne Hwr.
    apply (handle_output_choice_summary cfg E Hup data (py "summary_txt") text_key t);
      try done.
    rewrite (choice_summary_txt E Hup text_key s) by done.
    by rewrite delivered_written, delivered_app.
Qed.

Lemma X6_witness :
  let data := py "output_txt|ab12cd34" in
  (transport_up Fixture.env_ok
   /\ split 124 data = [py "output_txt"; py "ab12cd34"]
   /\ user_data Fixture.world_hello !! py "ab12cd34" = Some (py "Hello world")
   /\ py "Hello world" <> []
   /\ fs_write_error Fixture.env_ok (txt_path (py "ab12cd34")) = None)
  /\ Bot.handle_output_choice Fixture.cfg0 Fixture.env_ok data Fixture.world_hello
     = (Ret tt, delivered [Answer; txt_document (py "Hello world")]
                  (written (txt_path (py "ab12cd34")) (Utf8 (py "Hello world"))
                     Fixture.world_hello)).
Proof.
  intros data.
  assert (H1 : transport_up Fixture.env_ok) by (intros o; reflexivity).
  assert (H2 : split 124 data = [py "output_txt"; py "ab12cd34"]) by reflexivity.
  assert (H3 : user_data Fixture.world_hello !! py "ab12cd34" = Some (py "Hello world"))
    by (vm_compute; reflexivity).
  assert (H4 : py "Hello world" <> []) by discriminate.
  assert (H5 : fs_write_error Fixture.env_ok (txt_path (py "ab12cd34")) = None)
    by reflexivity.
  split; [split_and!; assumption|].
  exact (proj1 (X6_txt_choices_deliver_the_stored_text Fixture.cfg0 Fixture.env_ok data
                  (py "output_txt") (py "ab12cd34") (py "Hello world") Fixture.world_hello
                  H1 H2 H3 H4) eq_refl H5).
Defined.

(** X7: the choice "Word File" writes the TXT file and a Word file with one
    paragraph holding the whole text, and sends that Word file as
    [extracted_text.docx]; the summary choice does the same with the summary
    and [document_summary.docx]. *)
Theorem X7_docx_choices_deliver_one_paragraph
    (cfg : Config) (E : Env) (data option text_key t : str) (w : World) :
  transport_up E ->
  split 124 data = [option; text_key] ->
  user_data w !! text_key = Some t -> t <> [] ->
  (option = py "output_docx" ->
   fs_write_error E (txt_path text_key) = None ->
   docx_error E t = None ->
   fs_write_error E (docx_path text_key) = None ->
   Bot.handle_output_choice cfg E data w
   = (Ret tt,
      delivered [Answer; docx_document t]
        (written (docx_path text_key) (Docx [t])
           (written (txt_path text_key) (Utf8 t) w))))
  /\ (forall s,
        option = py "summary_docx" ->
        user_data w !! Bot.summary_key text_key = Some s -> s <> [] ->
        fs_write_error E (summary_txt_path text_key) = None ->
        docx_error E s = None ->
        fs_write_error E (summary_docx_path text_key) = None ->
        Bot.handle_output_choice cfg E data w
        = (Ret tt,
           delivered [Answer; summary_docx_document s]
             (written (summary_docx_path text_key) (Docx [s])
                (written (summary_txt_path text_key) (Utf8 s) w)))).
Proof.
  intros Hup Hs Hk Ht. split.
  - intros -> Hwr Hdoc Hwd.
    apply (handle_output_choice_primary cfg E Hup data (py "output_docx") text_key t);
      try done.
    rewrite (choice_primary_docx E Hup) by done.
    by rewrite !delivered_written, delivered_app.
  - intros s -> Hsum Hne Hwr Hdoc Hwd.
    apply (handle_output_choice_summary cfg E Hup data (py "summary_docx") text_key t);
      try done.
    rewrite (choice_summary_docx E Hup text_key s) by done.
    by rewrite !delivered_written, delivered_app.
Qed.

Lemma X7_witness :
  let data := py "summary_docx|ab12cd34" in
  (transport_up Fixture.env_ok
   /\ split 124 data = [py "summary_docx"; py "ab12cd34"]
   /\ user_data Fixture.world_hello !! py "ab12cd34" = Some (py "Hello world")
   /\ py "Hello world" <> []
   /\ user_data Fixture.world_hello !! Bot.summary_key (py "ab12cd34")
      = Some (py "Greeting.")
   /\ py "Greeting." <> [])
  /\ Bot.handle_output_choice Fixture.cfg0 Fixture.env_ok data Fixture.world_hello
     = (Ret tt,
        delivered [Answer; summary_docx_document (py "Greeting.")]
          (written (summary_docx_path (py "ab12cd34")) (Docx [py "Greeting."])
             (written (summary_txt_path (py "ab12cd34")) (Utf8 (py "Greeting."))
                Fixture.world_hello))).
Proof.
  intros data.
  assert (H1 : transport_up Fixture.env_ok) by (intros o; reflexivity).
  assert (H2 : split 124 data = [py "summary_docx"; py "ab12cd34"]) by reflexivity.
  assert (H3 : user_data Fixture.world_hello !! py "ab12cd34" = Some (py "Hello world"))
    by (vm_compute; reflexivity).
  assert (H4 : py "Hello world" <> []) by discriminate.
  assert (H5 : user_data Fixture.world_hello !! Bot.summary_key (py "ab12cd34")
               = Some (py "Greeting.")) by (vm_compute; reflexivity).
  assert (H6 : py "Greeting." <> []) by discriminate.
  split; [split_and!; assumption|].
  exact (proj2 (X7_docx_choices_deliver_one_paragraph Fixture.cfg0 Fixture.env_ok data
                  (py "summary_docx") (py "ab12cd34") (py "Hello world")
                  Fixture.world_hello H1 H2 H3 H4)
           (py "Greeting.") eq_refl H5 H6 eq_refl eq_refl eq_refl).
Defined.

(** ** Choices that cannot be served *)

(** X8: a "summarize" choice for a key that resolves but has no recorded
    source path (or an empty one) is answered with "Cannot find the original
    file for summarization"; no request is issued and nothing is stored or
    written. *)
Theorem X8_summarize_without_source_path
    (cfg : Config) (E : Env) (data text_key t : str) (w : World) :
  transport_up E ->
  split 124 data = [py "output_summarize"; text_key] ->
  user_data w !! text_key = Some t -> t <> [] ->
  user_data w !! (py "file_path_" ++ text_key) = None
  \/ user_data w !! (py "file_path_" ++ text_key) = Some [] ->
  Bot.handle_output_choice cfg E data w
  = (Ret tt,
     delivered [Answer; Text (py "❌ Cannot find the original file for summarization.")] w).
Proof.
  intros Hup Hs Hk Ht Hp. rewrite (handle_output_choice_eq cfg E Hup).
  rewrite (handle_output_choice_body_hit cfg E data (py "output_summarize") text_key t)
    by done.
  literal_eqb. unfold Bot.choice_summarize. rewrite bind_eq. cbn [user_data_get].
  change (user_data (delivered [Answer] w)) with (user_data w).
  destruct Hp as [-> | ->]; cbn [truthy]; rewrite (reply_text_up E Hup);
    by rewrite delivered_app.
Qed.

Lemma X8_witness :
  let data := py "output_summarize|ab12cd34" in
  (transport_up Fixture.env_ok
   /\ split 124 data = [py "output_summarize"; py "ab12cd34"]
   /\ user_data Fixture.world_hello !! py "ab12cd34" = Some (py "Hello world")
   /\ py "Hello world" <> []
   /\ user_data Fixture.world_hello !! (py "file_path_" ++ py "ab12cd34") = None)
  /\ Bot.handle_output_choice Fixture.cfg0 Fixture.env_ok data Fixture.world_hello
     = (Ret tt,
        delivered [Answer; Text (py "❌ Cannot find the original file for summarization.")]
          Fixture.world_hello).
Proof.
  intros data.
  assert (H1 : transport_up Fixture.env_ok) by (intros o; reflexivity).
  assert (H2 : split 124 data = [py "output_summarize"; py "ab12cd34"]) by reflexivity.
  assert (H3 : user_data Fixture.world_hello !! py "ab12cd34" = Some (py "Hello world"))
    by (vm_compute; reflexivity).
  assert (H4 : py "Hello world" <> []) by discriminate.
  assert (H5 : user_data Fixture.world_hello !! (py "file_path_" ++ py "ab12cd34") = None)
    by (vm_compute; reflexivity).
  split; [split_and!; assumption|].
  exact (X8_summarize_without_source_path Fixture.cfg0 Fixture.env_ok data (py "ab12cd34")
           (py "Hello world") Fixture.world_hello H1 H2 H3 H4 (or_introl H5)).
Defined.

(** X9: a summary choice for an artifact without a stored summary is
    answered with "Error retrieving summary" and writes no file; a summary
    choice with an unknown label, when the summary is there, writes the
    summary's TXT file and sends nothing after the acknowledgement (there is
    no "Invalid option" reply on this branch). *)
Theorem X9_summary_choice_miss_and_unknown_label
    (cfg : Config) (E : Env) (data option text_key t : str) (w : World) :
  transport_up E ->
  split 124 data = [option; text_key] ->
  user_data w !! text_key = Some t -> t <> [] ->
  startswith option (py "summary_") = true ->
  (user_data w !! Bot.summary_key text_key = None
   \/ user_data w !! Bot.summary_key text_key = Some [] ->
   Bot.handle_output_choice cfg E data w
   = (Ret tt, delivered [Answer; Text (py "❌ Error retrieving summary.")] w))
  /\ (forall s,
        user_data w !! Bot.summary_key text_key = Some s -> s <> [] ->
        option ∉ summary_options ->
        fs_write_error E (summary_txt_path text_key) = None ->
        Bot.handle_output_choice cfg E data w
        = (Ret tt, delivered [Answer] (written (summary_txt_path text_key) (Utf8 s) w))).
Proof.
  intros Hup Hs Hk Ht Hpre. split.
  - intros Hmiss.
    apply (handle_output_choice_summary cfg E Hup data option text_key t); try done.
    unfold Bot.choice_summary_format. rewrite bind_eq. cbn [user_data_get].
    change (user_data (delivered [Answer] w)) with (user_data w).
    destruct Hmiss as [-> | ->]; cbn [default from_option id truthy negb];
      rewrite (reply_text_up E Hup); by rewrite delivered_app.
  - intros s Hsum Hne Hunk Hwr.
    apply (handle_output_choice_summary cfg E Hup data option text_key t); try done.
    unfold Bot.choice_summary_format. rewrite bind_eq. cbn [user_data_get].
    change (user_data (delivered [Answer] w)) with (user_data w). rewrite Hsum.
    cbn [default from_option id]. destruct s as [|c0 s]; [done|]. cbn [truthy negb].
    rewrite bind_eq. unfold write_file at 1. fold (summary_txt_path text_key).
    rewrite Hwr. cbv beta iota.
    unfold summary_options in Hunk. rewrite !not_elem_of_cons in Hunk.
    destruct Hunk as (N1 & N2 & N3 & _).
    apply str_eqb_neq in N1, N2, N3. by rewrite N1, N2, N3.
Qed.

Lemma X9_witness :
  let data := py "summary_pdf|ab12cd34" in
  (transport_up Fixture.env_ok
   /\ split 124 data = [py "summary_pdf"; py "ab12cd34"]
   /\ user_data Fixture.world_hello !! py "ab12cd34" = Some (py "Hello world")
   /\ py "Hello world" <> []
   /\ startswith (py "summary_pdf") (py "summary_") = true
   /\ user_data Fixture.world_hello !! Bot.summary_key (py "ab12cd34")
      = Some (py "Greeting.")
   /\ py "Greeting." <> []
   /\ py "summary_pdf" ∉ summary_options)
  /\ Bot.handle_output_choice Fixture.cfg0 Fixture.env_ok data Fixture.world_hello
     = (Ret tt, delivered [Answer]
                  (written (summary_txt_path (py "ab12cd34")) (Utf8 (py "Greeting."))
                     Fixture.world_hello)).
Proof.
  intros data.
  assert (H1 : transport_up Fixture.env_ok) by (intros o; reflexivity).
  assert (H2 : split 124 data = [py "summary_pdf"; py "ab12cd34"]) by reflexivity.
  assert (H3 : user_data Fixture.world_hello !! py "ab12cd34" = Some (py "Hello world"))
    by (vm_compute; reflexivity).
  assert (H4 : py "Hello world" <> []) by discriminate.
  assert (H5 : startswith (py "summary_pdf") (py "summary_") = true) by reflexivity.
  assert (H6 : user_data Fixture.world_hello !! Bot.summary_key (py "ab12cd34")
               = Some (py "Greeting.")) by (vm_compute; reflexivity).
  assert (H7 : py "Greeting." <> []) by discriminate.
  assert (H8 : py "summary_pdf" ∉ summary_options) by by_computation.
  split; [split_and!; assumption|].
  exact (proj2 (X9_summary_choice_miss_and_unknown_label Fixture.cfg0 Fixture.env_ok data
                  (py "summary_pdf") (py "ab12cd34") (py "Hello world")
                  Fixture.world_hello H1 H2 H3 H4 H5)
           (py "Greeting.") H6 H7 H8 eq_refl).
Defined.

(** X10: a "summarize" choice whose recorded source file is no longer on
    disk fails inside the [try]: after the acknowledgements the user gets
    the general error message, the [OSError] is logged with the path, no
    request is issued and the store is unchanged. *)
Theorem X10_summarize_with_source_file_gone
    (cfg : Config) (E : Env) (data text_key t file_path : str) (w : World) :
  transport_up E ->
  docai_client_error E = None ->
  split 124 data = [py "output_summarize"; text_key] ->
  user_data w !! text_key = Some t -> t <> [] ->
  user_data w !! (py "file_path_" ++ text_key) = Some file_path -> file_path <> [] ->
  files w !! file_path = None ->
  exists msg,
    Bot.handle_output_choice cfg E data w
    = (Ret tt,
       delivered
         [Answer; summarizing_ack;
          Text (py "❌ An error occurred while processing your selection.")]
         (with_log
            (fun l => l ++ [py "Error handling output choice: " ++ exn_str (OSError msg)])
            w)).
Proof.
  intros Hup Hcl Hs Hk Ht Hp Hne Hgone. eexists.
  rewrite (handle_output_choice_eq cfg E Hup).
  rewrite (handle_output_choice_body_hit cfg E data (py "output_summarize") text_key t)
    by done.
  literal_eqb. rewrite (choice_summarize_up cfg E Hup text_key file_path) by done.
  unfold Bot.summarize_document, make_client, read_file. rewrite bind_eq, Hcl.
  cbv beta iota. rewrite bind_eq.
  change (files (delivered [Text (py "🔄 Summarizing document, please wait...")]
                   (delivered [Answer] w))) with (files w).
  rewrite Hgone. cbn [exn_str]. f_equal. same_world.
Qed.

Lemma X10_witness :
  let data := py "output_summarize|ab12cd34" in
  let w := Fixture.world_stale in
  (transport_up Fixture.env_ok
   /\ docai_client_error Fixture.env_ok = None
   /\ split 124 data = [py "output_summarize"; py "ab12cd34"]
   /\ user_data w !! py "ab12cd34" = Some (py "Hello world")
   /\ py "Hello world" <> []
   /\ user_data w !! (py "file_path_" ++ py "ab12cd34") = Some (py "downloads/old.pdf")
   /\ py "downloads/old.pdf" <> []
   /\ files w !! py "downloads/old.pdf" = None)
  /\ exists msg,
      Bot.handle_output_choice Fixture.cfg0 Fixture.env_ok data w
      = (Ret tt,
         delivered
           [Answer; summarizing_ack;
            Text (py "❌ An error occurred while processing your selection.")]
           (with_log
              (fun l => l ++ [py "Error handling output choice: " ++ exn_str (OSError msg)])
              w)).
Proof.
  intros data w.
  assert (H1 : transport_up Fixture.env_ok) by (intros o; reflexivity).
  assert (H2 : docai_client_error Fixture.env_ok = None) by reflexivity.
  assert (H3 : split 124 data = [py "output_summarize"; py "ab12cd34"]) by reflexivity.
  assert (H4 : user_data w !! py "ab12cd34" = Some (py "Hello world"))
    by (vm_compute; reflexivity).
  assert (H5 : py "Hello world" <> []) by discriminate.
  assert (H6 : user_data w !! (py "file_path_" ++ py "ab12cd34")
               = Some (py "downloads/old.pdf")) by (vm_compute; reflexivity).
  assert (H7 : py "downloads/old.pdf" <> []) by discriminate.
  assert (H8 : files w !! py "downloads/old.pdf" = None) by (vm_compute; reflexivity).
  split; [split_and!; assumption|].
  exact (X10_summarize_with_source_file_gone Fixture.cfg0 Fixture.env_ok data
           (py "ab12cd34") (py "Hello world") (py "downloads/old.pdf") w
           H1 H2 H3 H4 H5 H6 H7 H8).
Defined.

(** ** From the upload to the delivery *)

Lemma endswith_app (s p : str) : endswith (s ++ p) p = true.
Proof. unfold endswith. rewrite rev_app_distr. apply startswith_app. Qed.

Lemma detect_mime_jpg (s : str) : Bot.detect_mime (s ++ py ".jpg") = Some (py "image/jpeg").
Proof.
  unfold Bot.detect_mime, endswith_any. cbn [existsb].
  by rewrite (endswith_app s (py ".jpg")).
Qed.

Section Upload.

Context (cfg : Config) (E : Env) (Hup : transport_up E).

(** [handle_document] when everything works and the text is usable. *)
Lemma handle_document_success m f file_name c mime d w :
  Bot.pick_file m = Ret f ->
  Bot.download_name m f = Ret file_name ->
  tg_get_file E (Bot.file_id f) = Ret c ->
  fs_write_error E file_name = None ->
  docai_client_error E = None ->
  Bot.detect_mime file_name = Some mime ->
  docai_process E (extract_request cfg c mime) = Ret d ->
  blank (text d) = false ->
  10060%N ∉ text d ->
  Bot.handle_document cfg E m w = (Ret tt, uploaded cfg E file_name c mime (text d) w).
Proof.
  intros Hf Hn Hget Hwr Hcl Hm Hd Hb Hx.
  rewrite (handle_document_eq cfg E Hup m f file_name w Hf Hn).
  rewrite (handle_document_body_up cfg E Hup f file_name c w Hget Hwr).
  rewrite (process_document_result cfg E Hcl file_name c mime d); [| |done..]; [|open_world; apply lookup_insert_eq].
  destruct (strip (text d)) eqn:Hst; [apply strip_nil_iff in Hst; congruence|].
  cbn [truthy].
  destruct (py_in (py "❌") (text d)) eqn:Hin; [|done].
  change (py "❌") with [10060%N] in Hin. by apply py_in_single in Hin.
Qed.

Lemma uploaded_store file_name c mime t w :
  user_data (uploaded cfg E file_name c mime t w)
  = <[py "file_path_" ++ Bot.new_text_key E := file_name]>
      (<[Bot.new_text_key E := t]>
         (<[py "current_file_path" := file_name]> (user_data w))).
Proof. unfold uploaded. open_world. apply stored_after_download. Qed.

Lemma uploaded_key file_name c mime t w :
  user_data (uploaded cfg E file_name c mime t w) !! Bot.new_text_key E = Some t.
Proof.
  rewrite uploaded_store.
  rewrite lookup_insert_ne by apply file_path_key_not_key. apply lookup_insert_eq.
Qed.

Lemma uploaded_file_path file_name c mime t w :
  user_data (uploaded cfg E file_name c mime t w) !! (py "file_path_" ++ Bot.new_text_key E)
  = Some file_name.
Proof. rewrite uploaded_store. apply lookup_insert_eq. Qed.

Lemma uploaded_file file_name c mime t w :
  files (uploaded cfg E file_name c mime t w) !! file_name = Some c.
Proof. unfold uploaded. open_world. apply lookup_insert_eq. Qed.

End Upload.

Lemma not_blank_nonempty (t : str) : blank t = false -> t <> [].
Proof. by intros H ->. Qed.

(** X11: after an upload whose text is usable, pressing "TXT File" on the
    menu just shown returns a document whose content is exactly the text the
    processor extracted, and leaves it in [outputs/<key>.txt]. *)
Theorem X11_upload_then_txt_returns_the_extracted_text
    (cfg : Config) (E1 E2 : Env) (m : Bot.message) (f : Bot.tg_file) (file_name : str)
    (c : content) (mime : str) (d : ai_document) (w : World) :
  transport_up E1 ->
  Bot.pick_file m = Ret f ->
  Bot.download_name m f = Ret file_name ->
  tg_get_file E1 (Bot.file_id f) = Ret c ->
  fs_write_error E1 file_name = None ->
  docai_client_error E1 = None ->
  Bot.detect_mime file_name = Some mime ->
  docai_process E1 (extract_request cfg c mime) = Ret d ->
  blank (text d) = false ->
  10060%N ∉ text d ->
  transport_up E2 ->
  fs_write_error E2 (txt_path (Bot.new_text_key E1)) = None ->
  let key := Bot.new_text_key E1 in
  let w1 := snd (Bot.handle_document cfg E1 m w) in
  fst (Bot.handle_document cfg E1 m w) = Ret tt
  /\ Bot.handle_output_choice cfg E2 (py "output_txt|" ++ key) w1
     = (Ret tt, delivered [Answer; txt_document (text d)]
                  (written (txt_path key) (Utf8 (text d)) w1)).
Proof.
  intros Hup1 Hf Hn Hget Hwr Hcl Hm Hd Hb Hx Hup2 Hwr2 key w1. subst key w1.
  rewrite (handle_document_success cfg E1 Hup1 m f file_name c mime d w) by done.
  split; [done|]. cbn [snd].
  apply (handle_output_choice_primary cfg E2 Hup2 _ (py "output_txt")
           (Bot.new_text_key E1) (text d)).
  - apply (button_parses (py "output_txt")); [by_computation|].
    apply session_key_no_bar, new_text_key_is_session_key.
  - apply uploaded_key.
  - by apply not_blank_nonempty.
  - by apply str_eqb_neq.
  - reflexivity.
  - rewrite (choice_primary_txt E2 Hup2) by done.
    by rewrite delivered_written, delivered_app.
Qed.

Lemma X11_witness :
  let E := Fixture.env_ok in
  let m := Fixture.upload "scan.pdf" in
  let w1 := snd (Bot.handle_document Fixture.cfg0 E m Fixture.world0) in
  (transport_up E
   /\ docai_process E (extract_request Fixture.cfg0 Fixture.scan_bytes
                         (py "application/pdf")) = Ret Fixture.hello_doc
   /\ blank (text Fixture.hello_doc) = false
   /\ 10060%N ∉ text Fixture.hello_doc)
  /\ Bot.handle_output_choice Fixture.cfg0 E (py "output_txt|" ++ Bot.new_text_key E) w1
     = (Ret tt, delivered [Answer; txt_document (py "Hello world")]
                  (written (txt_path (Bot.new_text_key E)) (Utf8 (py "Hello world")) w1)).
Proof.
  intros E m w1.
  assert (H1 : transport_up E) by (intros o; reflexivity).
  assert (H2 : docai_process E (extract_request Fixture.cfg0 Fixture.scan_bytes
                                  (py "application/pdf")) = Ret Fixture.hello_doc)
    by reflexivity.
  assert (H3 : blank (text Fixture.hello_doc) = false) by reflexivity.
  assert (H4 : 10060%N ∉ text Fixture.hello_doc) by by_computation.
  split; [split_and!; assumption|].
  refine (proj2 (X11_upload_then_txt_returns_the_extracted_text Fixture.cfg0 E E m
                   (Fixture.the_document m) (py "downloads/scan.pdf") Fixture.scan_bytes
                   (py "application/pdf") Fixture.hello_doc Fixture.world0
                   H1 _ _ _ _ _ _ H2 H3 H4 H1 _)); reflexivity.
Defined.

(** "Summarize" for a stored artifact whose source file is on disk. *)
Lemma handle_output_choice_summarize (cfg : Config) (E : Env)
    (data key t file_name : str) (c : content) (mime : str) (d : ai_document) (w : World) :
  transport_up E ->
  docai_client_error E = None ->
  split 124 data = [py "output_summarize"; key] ->
  user_data w !! key = Some t -> t <> [] ->
  user_data w !! (py "file_path_" ++ key) = Some file_name -> file_name <> [] ->
  files w !! file_name = Some c ->
  Bot.detect_mime file_name = Some mime ->
  docai_process E (summarize_request cfg c mime) = Ret d ->
  blank (Bot.summary_text d) = false ->
  10060%N ∉ Bot.summary_text d ->
  Bot.handle_output_choice cfg E data w
  = (Ret tt,
     delivered
       [Answer; summarizing_ack;
        Menu (py "📝 Choose an output format for the summary:") (Bot.summary_keyboard key)]
       (with_user_data (fun s => <[Bot.summary_key key := Bot.summary_text d]> s)
          (issued (summarize_request cfg c mime) w))).
Proof.
  intros Hup Hcl Hs Hk Ht Hp Hfn Hfile Hm Hd Hb Hx.
  rewrite (handle_output_choice_eq cfg E Hup).
  rewrite (handle_output_choice_body_hit cfg E data (py "output_summarize") key t);
    [|done..].
  literal_eqb.
  rewrite (choice_summarize_up cfg E Hup key file_name); [|done..].
  rewrite (summarize_document_result cfg E Hcl file_name c mime d); [|done..].
  destruct (strip (Bot.summary_text d)) eqn:Hst;
    [apply strip_nil_iff in Hst; congruence|].
  cbn [truthy].
  destruct (py_in (py "❌") (Bot.summary_text d)) eqn:Hin.
  - change (py "❌") with [10060%N] in Hin. by apply py_in_single in Hin.
  - f_equal. same_world.
Qed.

(** X12: pressing "Summarize" sends the summarizer the bytes that the file
    recorded under ["file_path_" + key] holds at the time of the press, with
    the MIME type of its suffix; a usable summary is stored under
    ["summary_" + key] and the summary menu for that key is shown.  When the
    button is pressed directly after the upload, with no other update in
    between, these are the very bytes that were downloaded, with the MIME
    type chosen for the extraction. *)
Theorem X12_upload_then_summarize_uses_the_same_file
    (cfg : Config) (E2 : Env) (c : content) (mime : str) (d2 : ai_document) :
  transport_up E2 ->
  docai_client_error E2 = None ->
  docai_process E2 (summarize_request cfg c mime) = Ret d2 ->
  blank (Bot.summary_text d2) = false ->
  10060%N ∉ Bot.summary_text d2 ->
  (forall data key t file_name w,
     split 124 data = [py "output_summarize"; key] ->
     user_data w !! key = Some t -> t <> [] ->
     user_data w !! (py "file_path_" ++ key) = Some file_name -> file_name <> [] ->
     files w !! file_name = Some c ->
     Bot.detect_mime file_name = Some mime ->
     Bot.handle_output_choice cfg E2 data w
     = (Ret tt,
        delivered
          [Answer; summarizing_ack;
           Menu (py "📝 Choose an output format for the summary:") (Bot.summary_keyboard key)]
          (with_user_data (fun s => <[Bot.summary_key key := Bot.summary_text d2]> s)
             (issued (summarize_request cfg c mime) w))))
  /\ (forall E1 m f file_name d w,
        transport_up E1 ->
        Bot.pick_file m = Ret f ->
        Bot.download_name m f = Ret file_name ->
        tg_get_file E1 (Bot.file_id f) = Ret c ->
        fs_write_error E1 file_name = None ->
        docai_client_error E1 = None ->
        Bot.detect_mime file_name = Some mime ->
        docai_process E1 (extract_request cfg c mime) = Ret d ->
        blank (text d) = false ->
        10060%N ∉ text d ->
        let key := Bot.new_text_key E1 in
        let w1 := snd (Bot.handle_document cfg E1 m w) in
        Bot.handle_output_choice cfg E2 (py "output_summarize|" ++ key) w1
        = (Ret tt,
           delivered
             [Answer; summarizing_ack;
              Menu (py "📝 Choose an output format for the summary:")
                (Bot.summary_keyboard key)]
             (with_user_data (fun s => <[Bot.summary_key key := Bot.summary_text d2]> s)
                (issued (summarize_request cfg c mime) w1)))).
Proof.
  intros Hup2 Hcl2 Hd2 Hb2 Hx2. split.
  - intros data key t file_name w Hs Hk Ht Hp Hfn Hfile Hm.
    by apply (handle_output_choice_summarize cfg E2 data key t file_name c mime d2).
  - intros E1 m f file_name d w Hup1 Hf Hn Hget Hwr Hcl Hm Hd Hb Hx key w1. subst key w1.
    rewrite (handle_document_success cfg E1 Hup1 m f file_name c mime d w) by done.
    cbn [snd].
    apply (handle_output_choice_summarize cfg E2 _ (Bot.new_text_key E1) (text d) file_name
             c mime d2); try done.
    + apply (button_parses (py "output_summarize")); [by_computation|].
      apply session_key_no_bar, new_text_key_is_session_key.
    + apply uploaded_key.
    + by apply not_blank_nonempty.
    + apply uploaded_file_path.
    + intros ->; discriminate.
    + apply uploaded_file.
Qed.

Lemma X12_witness :
  let E1 := Fixture.env_ok in
  let E2 := Fixture.env_doc Fixture.summary_ab_doc in
  let m := Fixture.upload "scan.pdf" in
  let key := Bot.new_text_key E1 in
  let rq := summarize_request Fixture.cfg0 Fixture.scan_bytes (py "application/pdf") in
  let w1 := snd (Bot.handle_document Fixture.cfg0 E1 m Fixture.world0) in
  (transport_up E1 /\ transport_up E2
   /\ docai_client_error E2 = None
   /\ docai_process E2 rq = Ret Fixture.summary_ab_doc
   /\ blank (Bot.summary_text Fixture.summary_ab_doc) = false
   /\ 10060%N ∉ Bot.summary_text Fixture.summary_ab_doc)
  /\ Bot.handle_output_choice Fixture.cfg0 E2 (py "output_summarize|" ++ key) w1
     = (Ret tt,
        delivered
          [Answer; summarizing_ack;
           Menu (py "📝 Choose an output format for the summary:")
             (Bot.summary_keyboard key)]
          (with_user_data
             (fun s => <[Bot.summary_key key := Bot.summary_text Fixture.summary_ab_doc]> s)
             (issued rq w1))).
Proof.
  intros E1 E2 m key rq w1.
  assert (H1 : transport_up E1) by (intros o; reflexivity).
  assert (H2 : transport_up E2) by (intros o; reflexivity).
  assert (Hc : docai_client_error E2 = None) by reflexivity.
  assert (H3 : docai_process E2 rq = Ret Fixture.summary_ab_doc) by reflexivity.
  assert (H4 : blank (Bot.summary_text Fixture.summary_ab_doc) = false) by reflexivity.
  assert (H5 : 10060%N ∉ Bot.summary_text Fixture.summary_ab_doc) by by_computation.
  assert (H6 : blank (text Fixture.hello_doc) = false) by reflexivity.
  assert (H7 : 10060%N ∉ text Fixture.hello_doc) by by_computation.
  split; [split_and!; assumption|].
  refine (proj2 (X12_upload_then_summarize_uses_the_same_file Fixture.cfg0 E2
                   Fixture.scan_bytes (py "application/pdf") Fixture.summary_ab_doc
                   H2 Hc H3 H4 H5)
            E1 m (Fixture.the_document m) (py "downloads/scan.pdf") Fixture.hello_doc
            Fixture.world0 H1 _ _ _ _ _ _ _ H6 H7); reflexivity.
Defined.

(** X13: a photo message is always taken as a JPEG: the largest size (the
    last of the list) is fetched, saved as [downloads/<file_id>.jpg] and
    sent to the processor as [image/jpeg].  A document without a file name
    is saved as [downloads/None], which no suffix matches. *)
Theorem X13_photos_are_jpeg_and_nameless_documents_unsupported (m : Bot.message) :
  (forall p, Bot.document m = None -> last (Bot.photo m) = Some p ->
     let file_name := py "downloads/" ++ Bot.photo_file_id p ++ py ".jpg" in
     Bot.pick_file m = Ret (Bot.FromPhoto p)
     /\ Bot.download_name m (Bot.FromPhoto p) = Ret file_name
     /\ Bot.detect_mime file_name = Some (py "image/jpeg"))
  /\ (forall d, Bot.document m = Some d -> Bot.photo m = [] ->
        Bot.doc_file_name d = None ->
        Bot.pick_file m = Ret (Bot.FromDocument d)
        /\ Bot.download_name m (Bot.FromDocument d) = Ret (py "downloads/None")
        /\ Bot.detect_mime (py "downloads/None") = None).
Proof.
  split.
  - intros p Hd Hl file_name. subst file_name. split_and!.
    + unfold Bot.pick_file. by rewrite Hd, Hl.
    + unfold Bot.download_name. destruct (Bot.photo m); [discriminate|done].
    + rewrite (app_assoc (py "downloads/")). apply detect_mime_jpg.
  - intros d Hd Hp Hn. split_and!.
    + unfold Bot.pick_file. by rewrite Hd.
    + unfold Bot.download_name. by rewrite Hp, Hn.
    + reflexivity.
Qed.

Lemma X13_witness :
  let p := {| Bot.photo_file_id := py "AgACAgIAAxkBAAIB-large" |} in
  (Bot.document Fixture.snapshot = None /\ last (Bot.photo Fixture.snapshot) = Some p)
  /\ Bot.pick_file Fixture.snapshot = Ret (Bot.FromPhoto p)
  /\ Bot.download_name Fixture.snapshot (Bot.FromPhoto p)
     = Ret (py "downloads/" ++ Bot.photo_file_id p ++ py ".jpg")
  /\ Bot.detect_mime (py "downloads/" ++ Bot.photo_file_id p ++ py ".jpg")
     = Some (py "image/jpeg").
Proof.
  intros p.
  assert (H1 : Bot.document Fixture.snapshot = None) by reflexivity.
  assert (H2 : last (Bot.photo Fixture.snapshot) = Some p) by reflexivity.
  split; [by split|].
  exact (proj1 (X13_photos_are_jpeg_and_nameless_documents_unsupported Fixture.snapshot)
           p H1 H2).
Defined.

(** ** Invariants of the store and of the list of requests *)

Lemma hoare_preserves {A} (I : World -> Prop) (m : M A) : hoare I m I <-> preserves I m.
Proof. done. Qed.

Lemma hoare_bind {A B} (P Q R : World -> Prop) (m : M A) (k : A -> M B) :
  hoare P m Q -> (forall a, hoare Q (k a) R) -> (forall w, Q w -> R w) ->
  hoare P (bind m k) R.
Proof.
  intros Hm Hk HQR w Hw. specialize (Hm w Hw). rewrite bind_eq.
  destruct (m w) as [[a|e] w1]; cbn [snd] in *; [by apply Hk | by apply HQR].
Qed.

Lemma hoare_try_except {A} (P Q R : World -> Prop) (m : M A) (h : exn -> M A) :
  hoare P m Q -> (forall e, hoare Q (h e) R) -> (forall w, Q w -> R w) ->
  hoare P (try_except m h) R.
Proof.
  intros Hm Hh HQR w Hw. specialize (Hm w Hw). rewrite try_except_eq.
  destruct (m w) as [[a|e] w1]; cbn [snd] in *; [by apply HQR | by apply Hh].
Qed.

Lemma hoare_weaken {A} (P Q R : World -> Prop) (m : M A) :
  hoare P m Q -> (forall w, Q w -> R w) -> hoare P m R.
Proof. intros Hm HQR w Hw. by apply HQR, Hm. Qed.

Lemma preserves_bind_est {A B} (I : World -> Prop) (Q : A -> Prop) (m : M A) (k : A -> M B) :
  preserves I m -> establishes I m Q -> (forall a, Q a -> preserves I (k a)) ->
  preserves I (bind m k).
Proof.
  intros Hm Hq Hk w Hw. specialize (Hm w Hw). specialize (Hq w). rewrite bind_eq.
  destruct (m w) as [[a|e] w1]; cbn [snd] in *; [|done].
  apply Hk; [|done]. by eapply Hq.
Qed.

Lemma store_ok_insert (d : gmap str str) (k v : str) :
  v <> [] -> store_ok d -> store_ok (<[k := v]> d).
Proof.
  intros Hv Hd k' v' Hl. destruct (decide (k = k')) as [->|Hne].
  - rewrite lookup_insert_eq in Hl. by injection Hl as <-.
  - rewrite lookup_insert_ne in Hl by done. by eapply Hd.
Qed.

Lemma store_ok_empty : store_ok ∅.
Proof. intros k v Hl. by rewrite lookup_empty in Hl. Qed.

Lemma process_document_nonempty cfg E file_path w t w' :
  Bot.process_document cfg E file_path w = (Ret t, w') -> t <> [].
Proof.
  unfold Bot.process_document, make_client, read_file, client_process_document, bind, ret.
  destruct (docai_client_error E); [done|].
  destruct (files w !! file_path); [|done].
  destruct (Bot.detect_mime file_path).
  - destruct (docai_process E _) as [d|e]; [|done].
    destruct (strip (text d)) eqn:Hst; cbn [truthy]; intros [= <- _]; [done|].
    intros Hnil. by rewrite Hnil in Hst.
  - by intros [= <- _].
Qed.

Lemma summarize_document_nonempty cfg E file_path w s w' :
  Bot.summarize_document cfg E file_path w = (Ret s, w') -> s <> [].
Proof.
  unfold Bot.summarize_document, make_client, read_file, client_process_document, bind, ret.
  destruct (docai_client_error E); [done|].
  destruct (files w !! file_path); [|done].
  destruct (Bot.detect_mime file_path).
  - destruct (docai_process E _) as [d|e]; [|done].
    destruct (strip (Bot.summary_text d)) eqn:Hst; cbn [truthy]; intros [= <- _]; [done|].
    intros Hnil. by rewrite Hnil in Hst.
  - by intros [= <- _].
Qed.

Lemma download_name_nonempty m f file_name :
  Bot.download_name m f = Ret file_name -> file_name <> [].
Proof.
  unfold Bot.download_name. destruct (Bot.photo m); [destruct f|]; intros [= <-]; done.
Qed.

Section StoreOk.

Context (cfg : Config) (E : Env).

Lemma sound_outbox f w : sound w -> sound (with_outbox f w).
Proof. done. Qed.
Lemma sound_log f w : sound w -> sound (with_log f w).
Proof. done. Qed.
Lemma sound_remote f w : sound w -> sound (with_remote_calls f w).
Proof. done. Qed.
Lemma sound_files p (c : content) w :
  True -> sound w -> sound (with_files (fun fs => <[p := c]> fs) w).
Proof. done. Qed.

Lemma preserves_set_nonempty k v : v <> [] -> preserves sound (user_data_set k v).
Proof. intros Hv w Hw. cbn [user_data_set snd]. by apply store_ok_insert. Qed.

Ltac sound_facts :=
  pose proof sound_outbox as Iout; pose proof sound_log as Ilog;
  pose proof sound_remote as Irem.

Lemma sound_send_output_options t :
  t <> [] -> preserves sound (Bot.send_output_options E t).
Proof.
  intros Ht. sound_facts. unfold Bot.send_output_options.
  apply preserves_bind; [by apply preserves_set_nonempty | intros _].
  apply (preserves_bind_est sound
           (fun current => forall path, current = Some path -> path <> [])).
  - apply preserves_user_data_get.
  - intros w a w' Hw [= <- <-] path Hp. by eapply Hw.
  - intros [path|] Hq.
    + apply preserves_bind; [|intros _; by apply preserves_reply_markup].
      apply preserves_set_nonempty. by apply Hq.
    + apply preserves_bind; [apply preserves_ret | intros _; by apply preserves_reply_markup].
Qed.

Lemma sound_handle_document m : preserves sound (Bot.handle_document cfg E m).
Proof.
  sound_facts. intros w Hw. unfold Bot.handle_document. rewrite bind_eq. cbn [lift].
  destruct (Bot.pick_file m) as [f|e]; [|done].
  rewrite bind_eq. cbn [lift].
  destruct (Bot.download_name m f) as [file_name|e] eqn:Hn; [|done].
  apply download_name_nonempty in Hn.
  revert w Hw.
  match goal with |- forall w, sound w -> sound (snd (?m w)) => change (preserves sound m) end.
  apply preserves_try_except; [|intros e; repeat preserves_step].
  unfold Bot.handle_document_body.
  apply preserves_bind; [apply preserves_lift | intros c].
  apply preserves_bind; [by apply (preserves_write_file sound (fun _ => True) sound_files)
                        | intros _].
  apply preserves_bind; [by apply preserves_set_nonempty | intros _].
  apply preserves_bind; [by apply preserves_reply_text | intros _].
  apply (preserves_bind_est sound (fun t => t <> [])).
  - by apply preserves_process_document.
  - intros w t w' _ Hrun. by eapply process_document_nonempty.
  - intros t Ht. destruct (py_in _ t); [by apply preserves_reply_text|].
    by apply sound_send_output_options.
Qed.

Lemma sound_choice_summarize text_key :
  preserves sound (Bot.choice_summarize cfg E text_key).
Proof.
  sound_facts. unfold Bot.choice_summarize.
  apply preserves_bind; [apply preserves_user_data_get | intros [file_path|]];
    [|by apply preserves_reply_text].
  destruct (truthy file_path); [|by apply preserves_reply_text].
  apply preserves_bind; [by apply preserves_reply_text | intros _].
  apply (preserves_bind_est sound (fun s => s <> [])).
  - by apply preserves_summarize_document.
  - intros w s w' _ Hrun. by eapply summarize_document_nonempty.
  - intros s Hs. destruct (py_in _ s); [by apply preserves_reply_text|].
    apply preserves_bind; [by apply preserves_set_nonempty | intros _].
    by apply preserves_reply_markup.
Qed.

Lemma sound_handle_output_choice data :
  preserves sound (Bot.handle_output_choice cfg E data).
Proof.
  sound_facts. unfold Bot.handle_output_choice.
  apply preserves_bind; [by apply preserves_send | intros _].
  apply preserves_try_except; [|intros e; repeat preserves_step].
  unfold Bot.handle_output_choice_body.
  apply preserves_bind; [apply preserves_lift | intros [option text_key]].
  apply preserves_bind; [apply preserves_user_data_get | intros stored].
  destruct (negb _); [by apply preserves_reply_text|].
  destruct (str_eqb option _); [apply sound_choice_summarize|].
  destruct (startswith option _).
  - by apply (preserves_choice_summary_format sound (fun _ => True) sound_outbox sound_files).
  - by apply (preserves_choice_primary_format sound (fun _ => True) sound_outbox sound_files).
Qed.

Lemma sound_dispatch u : preserves sound (Bot.dispatch cfg E u).
Proof.
  destruct u as [|m|data]; cbn [Bot.dispatch].
  - apply preserves_reply_text, sound_outbox.
  - apply sound_handle_document.
  - apply sound_handle_output_choice.
Qed.

End StoreOk.

(** X14: the handlers never store an empty string.  If every value of the
    dictionary is non-empty, it is so after any sequence of updates handled
    in any surroundings; so in every world reached from the empty dictionary
    the test [if not extracted_text] fails only for keys that are absent. *)
Theorem X14_stored_values_are_never_empty
    (cfg : Config) (evs : list (Env * Bot.update)) (w : World) :
  store_ok (user_data w) ->
  store_ok (user_data (Bot.run cfg evs w))
  /\ (forall k, user_data (Bot.run cfg evs w) !! k <> Some []).
Proof.
  intros Hw.
  assert (Hrun : store_ok (user_data (Bot.run cfg evs w))).
  { revert w Hw. induction evs as [|[E u] evs IH]; intros w Hw; cbn [Bot.run]; [done|].
    apply IH. by apply (sound_dispatch cfg E u w). }
  split; [done|]. intros k Hk. by apply (Hrun k []).
Qed.

Lemma X14_witness :
  let evs := [ (Fixture.env_doc Fixture.blank_doc,
                Bot.FileMessage (Fixture.upload "blank.pdf"));
               (Fixture.env_ok, Bot.FileMessage (Fixture.upload "scan.pdf"));
               (Fixture.env_doc Fixture.summary_ab_doc,
                Bot.CallbackQuery (py "output_summarize|ab12cd34")) ] in
  store_ok (user_data Fixture.world0)
  /\ store_ok (user_data (Bot.run Fixture.cfg0 evs Fixture.world0)).
Proof.
  intros evs.
  assert (H : store_ok (user_data Fixture.world0)) by apply store_ok_empty.
  split; [exact H|].
  exact (proj1 (X14_stored_values_are_never_empty Fixture.cfg0 evs Fixture.world0 H)).
Defined.

Section Requests.

Context (cfg : Config) (E : Env) (w0 : World).

Local Abbreviation quiet := (no_request_since w0).

Lemma quiet_at_most_one w : quiet w -> at_most_one_request w0 w.
Proof. intros Hq. exists []. rewrite app_nil_r. split; [exact Hq | simpl; lia]. Qed.

Ltac request_facts :=
  assert (Qout : forall f w, quiet w -> quiet (with_outbox f w)) by done;
  assert (Qlog : forall f w, quiet w -> quiet (with_log f w)) by done;
  assert (Qud : forall (k v : str) w, True -> quiet w ->
                  quiet (with_user_data (fun d => <[k := v]> d) w)) by done;
  assert (Qfs : forall (p : str) (c : content) w, True -> quiet w ->
                  quiet (with_files (fun fs => <[p := c]> fs) w)) by done;
  assert (Aout : forall f w, at_most_one_request w0 w ->
                   at_most_one_request w0 (with_outbox f w)) by done;
  assert (Alog : forall f w, at_most_one_request w0 w ->
                   at_most_one_request w0 (with_log f w)) by done;
  assert (Aud : forall (k v : str) w, True -> at_most_one_request w0 w ->
                  at_most_one_request w0 (with_user_data (fun d => <[k := v]> d) w)) by done;
  assert (Afs : forall (p : str) (c : content) w, True -> at_most_one_request w0 w ->
                  at_most_one_request w0 (with_files (fun fs => <[p := c]> fs) w)) by done.

Lemma process_document_one_request file_path :
  hoare quiet (Bot.process_document cfg E file_path) (at_most_one_request w0).
Proof.
  intros w Hw.
  unfold Bot.process_document, make_client, read_file, client_process_document, bind, ret.
  destruct (docai_client_error E); [by apply quiet_at_most_one|].
  destruct (files w !! file_path); [|by apply quiet_at_most_one].
  destruct (Bot.detect_mime file_path); [|by apply quiet_at_most_one].
  destruct (docai_process E _); cbn [snd]; eexists [_];
    (split; [open_world; by rewrite Hw | simpl; lia]).
Qed.

Lemma summarize_document_one_request file_path :
  hoare quiet (Bot.summarize_document cfg E file_path) (at_most_one_request w0).
Proof.
  intros w Hw.
  unfold Bot.summarize_document, make_client, read_file, client_process_document, bind, ret.
  destruct (docai_client_error E); [by apply quiet_at_most_one|].
  destruct (files w !! file_path); [|by apply quiet_at_most_one].
  destruct (Bot.detect_mime file_path); [|by apply quiet_at_most_one].
  destruct (docai_process E _); cbn [snd]; eexists [_];
    (split; [open_world; by rewrite Hw | simpl; lia]).
Qed.

Lemma handle_document_one_request m :
  hoare quiet (Bot.handle_document cfg E m) (at_most_one_request w0).
Proof.
  request_facts. unfold Bot.handle_document.
  apply (hoare_bind quiet quiet); [apply preserves_lift | | apply quiet_at_most_one].
  intros f.
  apply (hoare_bind quiet quiet); [apply preserves_lift | | apply quiet_at_most_one].
  intros file_name.
  apply (hoare_try_except quiet (at_most_one_request w0)); [| |done].
  - unfold Bot.handle_document_body.
    apply (hoare_bind quiet quiet); [apply preserves_lift | | apply quiet_at_most_one].
    intros c.
    apply (hoare_bind quiet quiet);
      [by apply (preserves_write_file quiet (fun _ => True)) | | apply quiet_at_most_one].
    intros _.
    apply (hoare_bind quiet quiet);
      [by apply (preserves_user_data_set quiet (fun _ => True)) | | apply quiet_at_most_one].
    intros _.
    apply (hoare_bind quiet quiet);
      [by apply preserves_reply_text | | apply quiet_at_most_one].
    intros _.
    apply (hoare_bind quiet (at_most_one_request w0));
      [apply process_document_one_request | | done].
    intros t. apply hoare_preserves. destruct (py_in _ t).
    + by apply preserves_reply_text.
    + by apply (preserves_send_output_options _ (fun _ => True)).
  - intros e. apply hoare_preserves. repeat preserves_step.
Qed.

Lemma choice_summarize_one_request text_key :
  hoare quiet (Bot.choice_summarize cfg E text_key) (at_most_one_request w0).
Proof.
  request_facts. unfold Bot.choice_summarize.
  apply (hoare_bind quiet quiet);
    [apply preserves_user_data_get | | apply quiet_at_most_one].
  assert (Hreply : forall body, hoare quiet (reply_text E body) (at_most_one_request w0)).
  { intros body. apply (hoare_weaken quiet quiet); [|apply quiet_at_most_one].
    by apply preserves_reply_text. }
  intros [file_path|]; [|apply Hreply].
  destruct (truthy file_path); [|apply Hreply].
  apply (hoare_bind quiet quiet);
    [by apply preserves_reply_text | | apply quiet_at_most_one].
  intros _.
  apply (hoare_bind quiet (at_most_one_request w0));
    [apply summarize_document_one_request | | done].
  intros s. apply hoare_preserves. destruct (py_in _ s).
  - by apply preserves_reply_text.
  - apply preserves_bind; [by apply (preserves_user_data_set _ (fun _ => True)) | intros _].
    by apply preserves_reply_markup.
Qed.

Lemma handle_output_choice_one_request data :
  hoare quiet (Bot.handle_output_choice cfg E data) (at_most_one_request w0).
Proof.
  request_facts. unfold Bot.handle_output_choice.
  apply (hoare_bind quiet quiet); [by apply preserves_send | | apply quiet_at_most_one].
  intros _.
  apply (hoare_try_except quiet (at_most_one_request w0)); [| |done].
  - unfold Bot.handle_output_choice_body.
    apply (hoare_bind quiet quiet); [apply preserves_lift | | apply quiet_at_most_one].
    intros [option text_key].
    apply (hoare_bind quiet quiet);
      [apply preserves_user_data_get | | apply quiet_at_most_one].
    intros stored.
    assert (Hweak : forall m : M unit, preserves quiet m ->
                      hoare quiet m (at_most_one_request w0)).
    { intros m Hm. apply (hoare_weaken quiet quiet); [done | apply quiet_at_most_one]. }
    destruct (negb _); [by apply Hweak, preserves_reply_text|].
    destruct (str_eqb option _); [apply choice_summarize_one_request|].
    destruct (startswith option _); apply Hweak.
    + by apply (preserves_choice_summary_format quiet (fun _ => True)).
    + by apply (preserves_choice_primary_format quiet (fun _ => True)).
  - intros e. apply hoare_preserves. repeat preserves_step.
Qed.

End Requests.

(** X15: one update costs at most one remote request.  Handling a start
    command, an upload or a button press -- whatever the surroundings do,
    failures included -- appends at most one request to those issued before
    (there is no retry), so a run of n updates issues at most n requests. *)
Theorem X15_at_most_one_request_per_update
    (cfg : Config) (E : Env) (u : Bot.update) (evs : list (Env * Bot.update)) (w : World) :
  at_most_one_request w (snd (Bot.dispatch cfg E u w))
  /\ (length (remote_calls (Bot.run cfg evs w)) <= length (remote_calls w) + length evs)%nat.
Proof.
  assert (Hone : forall E u w, at_most_one_request w (snd (Bot.dispatch cfg E u w))).
  { clear. intros E u w. destruct u as [|m|data]; cbn [Bot.dispatch].
    - apply quiet_at_most_one. unfold no_request_since, Bot.start, reply_text, send.
      by destruct (tg_send_error E _).
    - by apply (handle_document_one_request cfg E w m w).
    - by apply (handle_output_choice_one_request cfg E w data w). }
  split; [apply Hone|].
  clear E u. revert w. induction evs as [|[E u] evs IH]; intros w; cbn [Bot.run length].
  - lia.
  - specialize (IH (snd (Bot.dispatch cfg E u w))).
    destruct (Hone E u w) as (l & Hl & Hlen). rewrite Hl, length_app in IH. lia.
Qed.

(** ** Where the key comes from *)

Local Open Scope N_scope.

Lemma nibble_testbit (x k n : N) :
  N.testbit ((x / 16 ^ k) mod 16) n = (n <? 4) && N.testbit x (n + 4 * k).
Proof.
  change 16 with (2 ^ 4) at 1. rewrite <- N.pow_mul_r, <- N.shiftr_div_pow2.
  change 16 with (2 ^ 4).
  destruct (N.ltb_spec n 4) as [Hlt|Hge]; cbn [andb].
  - rewrite N.mod_pow2_bits_low by done. by rewrite N.shiftr_spec by lia.
  - by rewrite N.mod_pow2_bits_high.
Qed.

Lemma hex_digit_inj (a b : N) : a < 16 -> b < 16 -> hex_digit a = hex_digit b -> a = b.
Proof.
  unfold hex_digit. intros Ha Hb.
  destruct (N.ltb_spec a 10), (N.ltb_spec b 10); lia.
Qed.

Lemma nibble_lt (x k : N) : (x / 16 ^ k) mod 16 < 16.
Proof. by apply N.mod_upper_bound. Qed.

Ltac mask_bits :=
  repeat match goal with
    | |- context [N.testbit (N.shiftl ?a ?b) ?j] =>
        let v := eval vm_compute in (N.testbit (N.shiftl a b) j) in
        change (N.testbit (N.shiftl a b) j) with v
    end.

(** The version and variant bits that [uuid4] sets lie below bit 96. *)
Lemma uuid4_high_bits (random j : N) :
  In j [96; 97; 98; 99; 100; 101; 102; 103; 104; 105; 106; 107; 108; 109; 110; 111;
        112; 113; 114; 115; 116; 117; 118; 119; 120; 121; 122; 123; 124; 125; 126; 127] ->
  N.testbit (uuid4 random) j = N.testbit (random mod 2 ^ 128) j.
Proof.
  intros Hj. unfold uuid4. cbv zeta.
  rewrite !N.lor_spec, !N.ldiff_spec, !N.lor_spec, !N.ldiff_spec.
  cbn [In] in Hj.
  repeat (destruct Hj as [<-|Hj];
          [mask_bits; by rewrite ?andb_true_r, ?orb_false_r|]).
  done.
Qed.

Lemma uuid4_high_nibble (random k : N) :
  In k [24; 25; 26; 27; 28; 29; 30; 31] ->
  hex_at (uuid4 random) k = hex_at (random mod 2 ^ 128) k.
Proof.
  intros Hk. unfold hex_at. f_equal. apply N.bits_inj. intros n.
  rewrite !nibble_testbit.
  destruct (N.ltb_spec n 4) as [Hn|Hn]; cbn [andb]; [|done].
  apply uuid4_high_bits.
  assert (Hn4 : n = 0 \/ n = 1 \/ n = 2 \/ n = 3) by lia.
  cbn [In] in Hk |- *.
  destruct Hk as [<-|[<-|[<-|[<-|[<-|[<-|[<-|[<-|[]]]]]]]]];
    destruct Hn4 as [->|[->|[->| ->]]]; vm_compute; tauto.
Qed.

Lemma hex_at_shift (x k : N) :
  hex_at (x / 2 ^ 96) k = hex_at x (k + 24).
Proof.
  unfold hex_at. f_equal. f_equal.
  rewrite N.Div0.div_div.
  f_equal. rewrite N.pow_add_r. change (16 ^ 24) with (2 ^ 96). lia.
Qed.

Lemma new_text_key_first_four_bytes (E : Env) :
  Bot.new_text_key E = hex8 (first_four_bytes (urandom16 E)).
Proof.
  rewrite new_text_key_digits. unfold hex8, first_four_bytes. cbn [map].
  rewrite !hex_at_shift. cbn [N.add Pos.add Pos.succ].
  repeat (apply (f_equal2 cons); [apply uuid4_high_nibble; cbn [In]; tauto|]).
  reflexivity.
Qed.

Lemma first_four_bytes_lt (random : N) : first_four_bytes random < 2 ^ 32.
Proof.
  unfold first_four_bytes. apply N.Div0.div_lt_upper_bound.
  change (2 ^ 96 * 2 ^ 32) with (2 ^ 128). by apply N.mod_upper_bound.
Qed.

Lemma hex8_inj (a b : N) : a < 2 ^ 32 -> b < 2 ^ 32 -> hex8 a = hex8 b -> a = b.
Proof.
  intros Ha Hb Heq. unfold hex8, hex_at in Heq. cbn [map] in Heq.
  injection Heq as H7 H6 H5 H4 H3 H2 H1 H0.
  apply hex_digit_inj in H0, H1, H2, H3, H4, H5, H6, H7; try apply nibble_lt.
  apply N.bits_inj. intros n.
  destruct (N.ltb_spec n 32) as [Hn|Hn].
  - assert (Hdm : n = n mod 4 + 4 * (n / 4)) by (pose proof (N.div_mod n 4); lia).
    assert (Hm : n mod 4 < 4) by (by apply N.mod_upper_bound).
    assert (Hq : n / 4 < 8) by (apply N.Div0.div_lt_upper_bound; lia).
    assert (Hnib : (a / 16 ^ (n / 4)) mod 16 = (b / 16 ^ (n / 4)) mod 16).
    { assert (Hc : n / 4 = 0 \/ n / 4 = 1 \/ n / 4 = 2 \/ n / 4 = 3 \/ n / 4 = 4
                   \/ n / 4 = 5 \/ n / 4 = 6 \/ n / 4 = 7) by lia.
      destruct Hc as [->|[->|[->|[->|[->|[->|[->| ->]]]]]]]; assumption. }
    apply (f_equal (fun x => N.testbit x (n mod 4))) in Hnib.
    rewrite !nibble_testbit in Hnib. rewrite <- Hdm in Hnib.
    apply N.ltb_lt in Hm. by rewrite Hm in Hnib.
  - rewrite !N.bits_above_log2; [done| |].
    + destruct (N.eq_dec b 0) as [->|Hb0]; [simpl; lia|].
      apply N.log2_lt_pow2 in Hb; lia.
    + destruct (N.eq_dec a 0) as [->|Ha0]; [simpl; lia|].
      apply N.log2_lt_pow2 in Ha; lia.
Qed.

Local Close Scope N_scope.

(** X16: the key is the eight lower-case hexadecimal digits of the first
    four random bytes behind [uuid4]; the version and variant bits never
    reach it.  So it has no bar and differs from the bookkeeping keys, and
    two uploads get the same key exactly when those four bytes agree. *)
Theorem X16_text_key_is_hex_of_first_four_random_bytes (E1 E2 : Env) :
  Bot.new_text_key E1 = hex8 (first_four_bytes (urandom16 E1))
  /\ is_session_key (Bot.new_text_key E1) = true
  /\ (124%N ∉ Bot.new_text_key E1)
  /\ (Bot.new_text_key E1 = Bot.new_text_key E2
      <-> first_four_bytes (urandom16 E1) = first_four_bytes (urandom16 E2)).
Proof.
  split_and!.
  - apply new_text_key_first_four_bytes.
  - apply new_text_key_is_session_key.
  - apply session_key_no_bar, new_text_key_is_session_key.
  - rewrite !new_text_key_first_four_bytes. split.
    + apply hex8_inj; apply first_four_bytes_lt.
    + by intros ->.
Qed.

Example text_key_example : Bot.new_text_key Fixture.env_ok = py "ab12cd34".
Proof. vm_compute. reflexivity. Qed.

Lemma X16_witness :
  first_four_bytes (urandom16 Fixture.env_ok)
  = first_four_bytes (urandom16 (Fixture.env_doc Fixture.second_doc))
  /\ Bot.new_text_key Fixture.env_ok = Bot.new_text_key (Fixture.env_doc Fixture.second_doc).
Proof.
  assert (H : first_four_bytes (urandom16 Fixture.env_ok)
              = first_four_bytes (urandom16 (Fixture.env_doc Fixture.second_doc)))
    by reflexivity.
  split; [exact H|].
  destruct (X16_text_key_is_hex_of_first_four_random_bytes Fixture.env_ok
              (Fixture.env_doc Fixture.second_doc)) as (_ & _ & _ & Hiff).
  exact (proj2 Hiff H).
Defined.

(** ** What the handlers leave alone in the dictionary *)

Section DictionaryFrame.

Context (cfg : Config) (E : Env) (k : str) (v : option str).

Local Abbreviation kept := (fun w : World => user_data w !! k = v).

Lemma kept_write (k' v' : str) w :
  k' <> k -> kept w -> kept (with_user_data (fun d => <[k' := v']> d) w).
Proof. intros Hk Hw. open_world. by rewrite lookup_insert_ne. Qed.

Lemma handle_output_choice_keeps data :
  (forall option text_key, split 124 data = [option; text_key] ->
     Bot.summary_key text_key <> k) ->
  preserves kept (Bot.handle_output_choice cfg E data).
Proof.
  intros Hk.
  apply (preserves_handle_output_choice kept (fun k' => k' <> k) (fun _ => True));
    try done.
  - intros k' v' w. apply kept_write.
  - intros option text_key Hs. split_and!; try done. by eapply Hk.
Qed.

Lemma handle_document_keeps m :
  py "current_file_path" <> k -> Bot.new_text_key E <> k ->
  py "file_path_" ++ Bot.new_text_key E <> k ->
  preserves kept (Bot.handle_document cfg E m).
Proof.
  intros H0 H1 H2.
  apply (preserves_handle_document kept (fun k' => k' <> k) (fun _ => True)); try done.
  intros k' v' w. apply kept_write.
Qed.

End DictionaryFrame.

(** X17: whatever the surroundings do, a button press changes the
    dictionary at most at ["summary_" + key] for the key in its callback
    data, and an upload at most at [current_file_path], at the new key and
    at ["file_path_" + new key]; every other entry, present or absent, is as
    before. *)
Theorem X17_handlers_touch_only_their_own_entries (cfg : Config) (E : Env) (k : str) :
  (forall data w,
     (forall option text_key, split 124 data = [option; text_key] ->
        Bot.summary_key text_key <> k) ->
     user_data (snd (Bot.handle_output_choice cfg E data w)) !! k = user_data w !! k)
  /\ (forall m w,
        py "current_file_path" <> k -> Bot.new_text_key E <> k ->
        py "file_path_" ++ Bot.new_text_key E <> k ->
        user_data (snd (Bot.handle_document cfg E m w)) !! k = user_data w !! k).
Proof.
  split.
  - intros data w Hk.
    by apply (handle_output_choice_keeps cfg E k (user_data w !! k) data Hk w).
  - intros m w H0 H1 H2.
    by apply (handle_document_keeps cfg E k (user_data w !! k) m H0 H1 H2 w).
Qed.

Lemma X17_witness :
  let k := py "ab12cd34" in
  let m := Fixture.upload "memo.pdf" in
  (py "current_file_path" <> k /\ Bot.new_text_key Fixture.env_other <> k
   /\ py "file_path_" ++ Bot.new_text_key Fixture.env_other <> k)
  /\ user_data (snd (Bot.handle_document Fixture.cfg0 Fixture.env_other m
                       Fixture.world_hello)) !! k
     = user_data Fixture.world_hello !! k.
Proof.
  intros k m.
  assert (H0 : py "current_file_path" <> k) by discriminate.
  assert (H1 : Bot.new_text_key Fixture.env_other <> k) by (vm_compute; discriminate).
  assert (H2 : py "file_path_" ++ Bot.new_text_key Fixture.env_other <> k)
    by (vm_compute; discriminate).
  split; [by split_and!|].
  exact (proj2 (X17_handlers_touch_only_their_own_entries Fixture.cfg0 Fixture.env_other k)
           m Fixture.world_hello H0 H1 H2).
Defined.

(** X18: nothing is ever removed from the dictionary: a key that is present
    stays present through any sequence of updates (there is no eviction and
    no expiry). *)
Theorem X18_keys_are_never_removed
    (cfg : Config) (evs : list (Env * Bot.update)) (w : World) (k : str) :
  is_Some (user_data w !! k) -> is_Some (user_data (Bot.run cfg evs w) !! k).
Proof.
  revert w. induction evs as [|[E u] evs IH]; intros w Hw; cbn [Bot.run]; [done|].
  apply IH.
  apply (preserves_dispatch (fun w => is_Some (user_data w !! k))
           (fun _ => True) (fun _ => True)); try done.
  intros k' v' w0 _ Hw0. open_world.
  destruct (decide (k' = k)) as [->|Hne].
  - rewrite lookup_insert_eq. by eexists.
  - by rewrite lookup_insert_ne.
Qed.

Lemma X18_witness :
  let evs := [ (Fixture.env_other, Bot.FileMessage (Fixture.upload "memo.pdf"));
               (Fixture.env_mute, Bot.CallbackQuery (py "output_docx|ab12cd34")) ] in
  is_Some (user_data Fixture.world_hello !! py "ab12cd34")
  /\ is_Some (user_data (Bot.run Fixture.cfg0 evs Fixture.world_hello) !! py "ab12cd34").
Proof.
  intros evs.
  assert (H : is_Some (user_data Fixture.world_hello !! py "ab12cd34"))
    by (vm_compute; eexists; reflexivity).
  split; [exact H|].
  exact (X18_keys_are_never_removed Fixture.cfg0 evs Fixture.world_hello (py "ab12cd34") H).
Defined.

(** ** Blank summaries *)

Lemma blank_app (a b : str) : blank (a ++ b) = blank a && blank b.
Proof. apply forallb_app. Qed.

Lemma blank_concat (l : list str) : blank (concat l) = forallb blank l.
Proof.
  induction l as [|a l IH]; [done|]. cbn [concat forallb]. by rewrite blank_app, IH.
Qed.

Lemma blank_summary_parts (ents : list entity) :
  forallb (fun e => blank (mention_text e)) (List.filter is_summary ents) = true ->
  blank (concat (map (fun e => mention_text e ++ nl) (List.filter is_summary ents))) = true.
Proof.
  intros H. rewrite blank_concat, forallb_forall. intros s Hs.
  apply in_map_iff in Hs as (e & <- & He). rewrite forallb_forall in H.
  rewrite blank_app, (H e He). reflexivity.
Qed.

(** X19: when the result of the summarizer has entities typed "summary" but
    their mention texts are all blank, [summarize_document] returns "No
    summary could be generated": the fallback to the whole-document text is
    taken only when there is no such entity at all, so a usable document
    text does not help. *)
Theorem X19_blank_summary_entities_give_no_summary
    (cfg : Config) (E : Env) (file_path : str) (c : content) (mime : str)
    (d : ai_document) (w : World) :
  docai_client_error E = None ->
  files w !! file_path = Some c ->
  Bot.detect_mime file_path = Some mime ->
  docai_process E (summarize_request cfg c mime) = Ret d ->
  existsb is_summary (entities d) = true ->
  forallb (fun e => blank (mention_text e)) (List.filter is_summary (entities d)) = true ->
  Bot.summarize_document cfg E file_path w
  = (Ret (py "❌ No summary could be generated."), issued (summarize_request cfg c mime) w).
Proof.
  intros Hcl Hf Hm Hd Hex Hblank.
  rewrite (summarize_document_result cfg E Hcl file_path c mime d w Hf Hm Hd).
  rewrite summary_text_spec. unfold spec_summary. rewrite Hex.
  apply blank_summary_parts, strip_nil_iff in Hblank. by rewrite Hblank.
Qed.

Lemma X19_witness :
  let E := Fixture.env_doc Fixture.blank_summary_doc in
  let rq := summarize_request Fixture.cfg0 Fixture.scan_bytes (py "application/pdf") in
  (docai_client_error E = None
   /\ files Fixture.world_scan !! py "downloads/scan.pdf" = Some Fixture.scan_bytes
   /\ Bot.detect_mime (py "downloads/scan.pdf") = Some (py "application/pdf")
   /\ docai_process E rq = Ret Fixture.blank_summary_doc
   /\ existsb is_summary (entities Fixture.blank_summary_doc) = true
   /\ forallb (fun e => blank (mention_text e))
        (List.filter is_summary (entities Fixture.blank_summary_doc)) = true
   /\ blank (text Fixture.blank_summary_doc) = false)
  /\ Bot.summarize_document Fixture.cfg0 E (py "downloads/scan.pdf") Fixture.world_scan
     = (Ret (py "❌ No summary could be generated."), issued rq Fixture.world_scan).
Proof.
  intros E rq.
  assert (H1 : docai_client_error E = None) by reflexivity.
  assert (H2 : files Fixture.world_scan !! py "downloads/scan.pdf" = Some Fixture.scan_bytes)
    by (vm_compute; reflexivity).
  assert (H3 : Bot.detect_mime (py "downloads/scan.pdf") = Some (py "application/pdf"))
    by reflexivity.
  assert (H4 : docai_process E rq = Ret Fixture.blank_summary_doc) by reflexivity.
  assert (H5 : existsb is_summary (entities Fixture.blank_summary_doc) = true)
    by reflexivity.
  assert (H6 : forallb (fun e => blank (mention_text e))
                 (List.filter is_summary (entities Fixture.blank_summary_doc)) = true)
    by reflexivity.
  assert (H7 : blank (text Fixture.blank_summary_doc) = false) by reflexivity.
  split; [split_and!; assumption|].
  exact (X19_blank_summary_entities_give_no_summary Fixture.cfg0 E
           (py "downloads/scan.pdf") Fixture.scan_bytes (py "application/pdf")
           Fixture.blank_summary_doc Fixture.world_scan H1 H2 H3 H4 H5 H6).
Defined.

(** ** Keys that are not artifacts *)

Section Bookkeeping.

Context (cfg : Config) (E : Env) (Hup : transport_up E).

Lemma choice_primary_message text_key t w :
  fs_write_error E (txt_path text_key) = None ->
  Bot.choice_primary_format E (py "output_message") text_key t w
  = (Ret tt,
     delivered
       (map Text (chunks (py "📜 **Extracted Text:**" ++ nl ++ nl ++ t) Bot.default_chunk_size))
       (written (txt_path text_key) (Utf8 t) w)).
Proof.
  intros Hwr. unfold Bot.choice_primary_format. rewrite bind_eq. unfold write_file at 1.
  fold (txt_path text_key). rewrite Hwr. cbv beta iota. literal_eqb.
  by rewrite (send_text_chunks_up E Hup).
Qed.

End Bookkeeping.

(** X20: the lookup of a choice does not tell artifacts from bookkeeping
    entries.  After an upload, callback data naming the key
    [current_file_path] is served like an artifact: the path of the
    downloaded file is sent as the "extracted text" and written to
    [outputs/current_file_path.txt]. *)
Theorem X20_bookkeeping_entries_are_served_like_artifacts
    (cfg : Config) (E1 E2 : Env) (m : Bot.message) (f : Bot.tg_file) (file_name : str)
    (c : content) (mime : str) (d : ai_document) (w : World) :
  transport_up E1 ->
  Bot.pick_file m = Ret f ->
  Bot.download_name m f = Ret file_name ->
  tg_get_file E1 (Bot.file_id f) = Ret c ->
  fs_write_error E1 file_name = None ->
  docai_client_error E1 = None ->
  Bot.detect_mime file_name = Some mime ->
  docai_process E1 (extract_request cfg c mime) = Ret d ->
  blank (text d) = false ->
  10060%N ∉ text d ->
  transport_up E2 ->
  fs_write_error E2 (txt_path (py "current_file_path")) = None ->
  let w1 := snd (Bot.handle_document cfg E1 m w) in
  Bot.handle_output_choice cfg E2 (py "output_message|current_file_path") w1
  = (Ret tt,
     delivered
       (Answer :: map Text (chunks (py "📜 **Extracted Text:**" ++ nl ++ nl ++ file_name)
                              Bot.default_chunk_size))
       (written (txt_path (py "current_file_path")) (Utf8 file_name) w1)).
Proof.
  intros Hup1 Hf Hn Hget Hwr Hcl Hm Hd Hb Hx Hup2 Hwr2 w1. subst w1.
  rewrite (handle_document_success cfg E1 Hup1 m f file_name c mime d w) by done.
  cbn [snd].
  assert (Hkey : is_session_key (Bot.new_text_key E1) = true)
    by apply new_text_key_is_session_key.
  apply (handle_output_choice_primary cfg E2 Hup2 _ (py "output_message")
           (py "current_file_path") file_name).
  - reflexivity.
  - rewrite uploaded_store.
    rewrite lookup_insert_ne by (intros Heq; by apply (session_key_not_file_path _ _ Hkey)
                                                 in Heq || discriminate Heq).
    rewrite lookup_insert_ne by (intros Heq; symmetry in Heq;
                                 by apply (session_key_not_current _ Hkey) in Heq).
    apply lookup_insert_eq.
  - intros ->. discriminate.
  - by apply str_eqb_neq.
  - reflexivity.
  - rewrite (choice_primary_message E2 Hup2) by done.
    by rewrite delivered_written, delivered_app.
Qed.

Lemma X20_witness :
  let E := Fixture.env_ok in
  let m := Fixture.upload "scan.pdf" in
  let w1 := snd (Bot.handle_document Fixture.cfg0 E m Fixture.world0) in
  (transport_up E
   /\ docai_process E (extract_request Fixture.cfg0 Fixture.scan_bytes
                         (py "application/pdf")) = Ret Fixture.hello_doc
   /\ blank (text Fixture.hello_doc) = false
   /\ 10060%N ∉ text Fixture.hello_doc)
  /\ Bot.handle_output_choice Fixture.cfg0 E (py "output_message|current_file_path") w1
     = (Ret tt,
        delivered
          (Answer :: map Text (chunks (py "📜 **Extracted Text:**" ++ nl ++ nl
                                         ++ py "downloads/scan.pdf")
                                 Bot.default_chunk_size))
          (written (txt_path (py "current_file_path")) (Utf8 (py "downloads/scan.pdf")) w1)).
Proof.
  intros E m w1.
  assert (H1 : transport_up E) by (intros o; reflexivity).
  assert (H2 : docai_process E (extract_request Fixture.cfg0 Fixture.scan_bytes
                                  (py "application/pdf")) = Ret Fixture.hello_doc)
    by reflexivity.
  assert (H3 : blank (text Fixture.hello_doc) = false) by reflexivity.
  assert (H4 : 10060%N ∉ text Fixture.hello_doc) by by_computation.
  split; [split_and!; assumption|].
  refine (X20_bookkeeping_entries_are_served_like_artifacts Fixture.cfg0 E E m
            (Fixture.the_document m) (py "downloads/scan.pdf") Fixture.scan_bytes
            (py "application/pdf") Fixture.hello_doc Fixture.world0
            H1 _ _ _ _ _ _ H2 H3 H4 H1 _); reflexivity.
Defined.

(** ** The summary is stored and looked up under the derived key *)

Lemma summary_key_not_parent (K : str) : Bot.summary_key K <> K.
Proof.
  intros Heq. apply (f_equal length) in Heq. rewrite summary_key_length in Heq. lia.
Qed.

Section SummaryStore.

Context (cfg : Config) (E : Env) (Hup : transport_up E).

(** A usable summary is written under [summary_key] of the key pressed, and
    nowhere else. *)
Lemma summarize_stores_under_summary_key data K x file_path s w w3 :
  split 124 data = [py "output_summarize"; K] ->
  user_data w !! K = Some x -> x <> [] ->
  user_data w !! (py "file_path_" ++ K) = Some file_path -> file_path <> [] ->
  Bot.summarize_document cfg E file_path (delivered [Answer; summarizing_ack] w) = (Ret s, w3) ->
  py_in (py "❌") s = false ->
  Bot.handle_output_choice cfg E data w
  = (Ret tt,
     delivered [Menu (py "📝 Choose an output format for the summary:")
                  (Bot.summary_keyboard K)]
       (with_user_data (fun d => <[Bot.summary_key K := s]> d) w3))
  /\ user_data w3 = user_data w.
Proof.
  intros Hs Hk Hx Hp Hne Hrun Hin.
  pose proof (summarize_document_frame cfg E file_path (delivered [Answer; summarizing_ack] w))
    as Hfr.
  rewrite Hrun in Hfr. cbn [snd] in Hfr. destruct Hfr as (Hud & _).
  split; [|exact Hud].
  rewrite (handle_output_choice_eq cfg E Hup).
  rewrite (handle_output_choice_body_hit cfg E data (py "output_summarize") K x); [|done..].
  rewrite (proj2 (str_eqb_eq _ _) eq_refl).
  rewrite (choice_summarize_up cfg E Hup K file_path); [|done..].
  rewrite delivered_app. change ([Answer] ++ _) with [Answer; summarizing_ack].
  by rewrite Hrun, Hin.
Qed.

(** A summary choice looks under [summary_key] of the key pressed: with
    nothing there it reports that the summary cannot be retrieved, whatever
    else the dictionary holds. *)
Lemma summary_choice_without_summary data option K x w :
  split 124 data = [option; K] ->
  startswith option (py "summary_") = true ->
  user_data w !! K = Some x -> x <> [] ->
  user_data w !! Bot.summary_key K = None \/ user_data w !! Bot.summary_key K = Some [] ->
  Bot.handle_output_choice cfg E data w
  = (Ret tt, delivered [Answer; Text (py "❌ Error retrieving summary.")] w).
Proof.
  intros Hs Hpre Hk Hx Hmiss.
  apply (handle_output_choice_summary cfg E Hup data option K x); try done.
  unfold Bot.choice_summary_format. rewrite bind_eq. cbn [user_data_get].
  change (user_data (delivered [Answer] w)) with (user_data w).
  destruct Hmiss as [-> | ->]; cbn [default from_option id truthy negb];
    rewrite (reply_text_up E Hup); by rewrite delivered_app.
Qed.

(** With a summary there, the choice "TXT File" delivers that summary. *)
Lemma summary_choice_with_summary data K x s w :
  split 124 data = [py "summary_txt"; K] ->
  user_data w !! K = Some x -> x <> [] ->
  user_data w !! Bot.summary_key K = Some s -> s <> [] ->
  fs_write_error E (summary_txt_path K) = None ->
  Bot.handle_output_choice cfg E data w
  = (Ret tt, delivered [Answer; summary_txt_document s]
               (written (summary_txt_path K) (Utf8 s) w)).
Proof.
  intros Hs Hk Hx Hsum Hne Hwr.
  apply (handle_output_choice_summary cfg E Hup data (py "summary_txt") K x); try done.
  rewrite (choice_summary_txt E Hup K s) by done.
  by rewrite delivered_written, delivered_app.
Qed.

End SummaryStore.

(** C5: the summary of the artifact [K] is stored and looked up under
    ["summary_" + K].  The derivation is a function, it is injective, and for
    keys of 8 characters the derived key of one is never the key of another.
    In [handle_output_choice] the "summarize" choice for [K] writes a usable
    summary under that derived key and nowhere else, so every key of 8
    characters, and the summary of every other key, is as before, whatever
    the surroundings do; a summary choice for [K] reads the entry under the
    derived key and no other: without it the retrieval error is sent, with
    it that very summary is delivered; and the summary stored by one press
    is the one delivered by the next. *)
Theorem C5_summary_key_deterministic_injective_disjoint (cfg : Config) (E : Env) :
  (forall K, Bot.summary_key K = py "summary_" ++ K)
  /\ (forall K1 K2, K1 = K2 -> Bot.summary_key K1 = Bot.summary_key K2)
  /\ (forall K1 K2, K1 <> K2 -> Bot.summary_key K1 <> Bot.summary_key K2)
  /\ (forall K1 K2, length K1 = 8%nat -> length K2 = 8%nat -> Bot.summary_key K1 <> K2)
  /\ (forall data option K1 w,
        split 124 data = [option; K1] ->
        let w' := snd (Bot.handle_output_choice cfg E data w) in
        (forall k, k <> Bot.summary_key K1 -> user_data w' !! k = user_data w !! k)
        /\ (forall K2, length K1 = 8%nat -> length K2 = 8%nat ->
                       user_data w' !! K2 = user_data w !! K2)
        /\ (forall K2, K2 <> K1 ->
                       user_data w' !! Bot.summary_key K2 = user_data w !! Bot.summary_key K2))
  /\ (transport_up E ->
      (forall data K x file_path s w w3,
         split 124 data = [py "output_summarize"; K] ->
         user_data w !! K = Some x -> x <> [] ->
         user_data w !! (py "file_path_" ++ K) = Some file_path -> file_path <> [] ->
         Bot.summarize_document cfg E file_path (delivered [Answer; summarizing_ack] w)
         = (Ret s, w3) ->
         py_in (py "❌") s = false ->
         let w' := snd (Bot.handle_output_choice cfg E data w) in
         user_data w' = <[Bot.summary_key K := s]> (user_data w)
         /\ user_data w' !! Bot.summary_key K = Some s
         /\ user_data w' !! K = Some x)
      /\ (forall data option K x w,
            split 124 data = [option; K] ->
            startswith option (py "summary_") = true ->
            user_data w !! K = Some x -> x <> [] ->
            (user_data w !! Bot.summary_key K = None
             \/ user_data w !! Bot.summary_key K = Some [] ->
             Bot.handle_output_choice cfg E data w
             = (Ret tt, delivered [Answer; Text (py "❌ Error retrieving summary.")] w))
            /\ (forall s,
                  user_data w !! Bot.summary_key K = Some s -> s <> [] ->
                  option = py "summary_txt" ->
                  fs_write_error E (summary_txt_path K) = None ->
                  Bot.handle_output_choice cfg E data w
                  = (Ret tt, delivered [Answer; summary_txt_document s]
                               (written (summary_txt_path K) (Utf8 s) w))))
      /\ (forall data1 data2 K x file_path s w w3,
            split 124 data1 = [py "output_summarize"; K] ->
            user_data w !! K = Some x -> x <> [] ->
            user_data w !! (py "file_path_" ++ K) = Some file_path -> file_path <> [] ->
            Bot.summarize_document cfg E file_path (delivered [Answer; summarizing_ack] w)
            = (Ret s, w3) ->
            py_in (py "❌") s = false ->
            split 124 data2 = [py "summary_txt"; K] ->
            fs_write_error E (summary_txt_path K) = None ->
            let w1 := snd (Bot.handle_output_choice cfg E data1 w) in
            Bot.handle_output_choice cfg E data2 w1
            = (Ret tt, delivered [Answer; summary_txt_document s]
                         (written (summary_txt_path K) (Utf8 s) w1)))).
Proof.
  assert (Hstore : transport_up E ->
            forall data K x file_path s w w3,
              split 124 data = [py "output_summarize"; K] ->
              user_data w !! K = Some x -> x <> [] ->
              user_data w !! (py "file_path_" ++ K) = Some file_path -> file_path <> [] ->
              Bot.summarize_document cfg E file_path (delivered [Answer; summarizing_ack] w)
              = (Ret s, w3) ->
              py_in (py "❌") s = false ->
              let w' := snd (Bot.handle_output_choice cfg E data w) in
              user_data w' = <[Bot.summary_key K := s]> (user_data w)
              /\ user_data w' !! Bot.summary_key K = Some s
              /\ user_data w' !! K = Some x).
  { intros Hup data K x file_path s w w3 Hs Hk Hx Hp Hne Hrun Hin w'. subst w'.
    destruct (summarize_stores_under_summary_key cfg E Hup data K x file_path s w w3)
      as (-> & Hud); try done.
    cbn [snd]. open_world. rewrite Hud. split_and!; [done|apply lookup_insert_eq|].
    rewrite lookup_insert_ne by apply summary_key_not_parent. exact Hk. }
  split_and!; [| | | | |intros Hup; split_and!].
  - done.
  - by intros K1 K2 ->.
  - intros K1 K2 Hne Heq. by apply Hne, summary_key_inj.
  - intros K1 K2 H1 H2. apply summary_key_not_short; lia.
  - intros data option K1 w Hs w'.
    assert (Hframe : forall k, k <> Bot.summary_key K1 ->
                       user_data w' !! k = user_data w !! k).
    { intros k Hk. by apply (handle_output_choice_entries_frame cfg E data option K1). }
    split_and!; [exact Hframe|..].
    + intros K2 H1 H2. apply Hframe. intros Heq. symmetry in Heq. revert Heq.
      apply summary_key_not_short; lia.
    + intros K2 Hne. apply Hframe. intros Heq. by apply summary_key_inj in Heq.
  - by apply Hstore.
  - intros data option K x w Hs Hpre Hk Hx. split.
    + intros Hmiss. by apply (summary_choice_without_summary cfg E Hup data option K x).
    + intros s Hsum Hne -> Hwr. by apply (summary_choice_with_summary cfg E Hup data K x).
  - intros data1 data2 K x file_path s w w3 Hs1 Hk Hx Hp Hne Hrun Hin Hs2 Hwr w1.
    destruct (Hstore Hup data1 K x file_path s w w3 Hs1 Hk Hx Hp Hne Hrun Hin)
      as (_ & Hsum & Hkey).
    fold w1 in Hsum, Hkey.
    assert (Hs : s <> []) by exact (summarize_document_nonempty cfg E file_path _ s w3 Hrun).
    by apply (summary_choice_with_summary cfg E Hup data2 K x).
Qed.

Lemma C5_witness :
  let E := Fixture.env_doc Fixture.summary_ab_doc in
  let K := py "ab12cd34" in
  let s := py "A" ++ nl ++ py "B" ++ nl in
  let w := Fixture.world_ready in
  let w3 := issued (summarize_request Fixture.cfg0 Fixture.scan_bytes (py "application/pdf"))
              (delivered [Answer; summarizing_ack] w) in
  let w1 := snd (Bot.handle_output_choice Fixture.cfg0 E (py "output_summarize|ab12cd34") w) in
  (transport_up E
   /\ split 124 (py "output_summarize|ab12cd34") = [py "output_summarize"; K]
   /\ user_data w !! K = Some (py "Hello world")
   /\ py "Hello world" <> []
   /\ user_data w !! (py "file_path_" ++ K) = Some (py "downloads/scan.pdf")
   /\ py "downloads/scan.pdf" <> []
   /\ Bot.summarize_document Fixture.cfg0 E (py "downloads/scan.pdf")
        (delivered [Answer; summarizing_ack] w) = (Ret s, w3)
   /\ py_in (py "❌") s = false
   /\ split 124 (py "summary_txt|ab12cd34") = [py "summary_txt"; K]
   /\ fs_write_error E (summary_txt_path K) = None)
  /\ Bot.handle_output_choice Fixture.cfg0 E (py "summary_txt|ab12cd34") w1
     = (Ret tt, delivered [Answer; summary_txt_document s]
                  (written (summary_txt_path K) (Utf8 s) w1)).
Proof.
  intros E K s w w3 w1.
  assert (H1 : transport_up E) by (intros o; reflexivity).
  assert (H2 : split 124 (py "output_summarize|ab12cd34") = [py "output_summarize"; K])
    by reflexivity.
  assert (H3 : user_data w !! K = Some (py "Hello world")) by (vm_compute; reflexivity).
  assert (H4 : py "Hello world" <> []) by discriminate.
  assert (H5 : user_data w !! (py "file_path_" ++ K) = Some (py "downloads/scan.pdf"))
    by (vm_compute; reflexivity).
  assert (H6 : py "downloads/scan.pdf" <> []) by discriminate.
  assert (H7 : Bot.summarize_document Fixture.cfg0 E (py "downloads/scan.pdf")
                 (delivered [Answer; summarizing_ack] w) = (Ret s, w3))
    by (vm_compute; reflexivity).
  assert (H8 : py_in (py "❌") s = false) by reflexivity.
  assert (H9 : split 124 (py "summary_txt|ab12cd34") = [py "summary_txt"; K]) by reflexivity.
  assert (H10 : fs_write_error E (summary_txt_path K) = None) by reflexivity.
  destruct (C5_summary_key_deterministic_injective_disjoint Fixture.cfg0 E)
    as (_ & _ & _ & _ & _ & Hrest).
  destruct (Hrest H1) as (_ & _ & Hround).
  split; [split_and!; assumption|].
  exact (Hround (py "output_summarize|ab12cd34") (py "summary_txt|ab12cd34") K
           (py "Hello world") (py "downloads/scan.pdf") s w w3
           H2 H3 H4 H5 H6 H7 H8 H9 H10).
Defined.
